(** * The array layer of ASDF: [asdf/tags/core/ndarray.py]

    A shallow embedding of the type-descriptor codec, the shape resolver,
    the lazy array view ([NDArrayType]), the serializer and the schema
    validators, followed by the properties established about them.

    Python values are modelled by [Py.node] (the YAML tree), exceptions by
    [Py.exn] and a raising computation by [Py.result].  The parts of numpy
    that the module relies on are modelled in [Numpy]. *)

From Stdlib Require Import ZArith List String Ascii Bool Lia Floats.
From Stdlib Require Import DecimalString DecimalPos DecimalZ.
Import ListNotations.

Set Warnings "-register-all,-inexact-float".
Local Open Scope Z_scope.

(** ** Python values and exceptions *)

Module Py.

(** The exception classes raised in the module.  A message keeps the fixed
    text of the source's f-string, without the interpolated values. *)
Inductive exn : Type :=
| ValueError (msg : string)
| TypeError (msg : string)
| RuntimeError (msg : string)
| OSError (msg : string)
| IndexError (msg : string)
| AttributeError (msg : string)
| KeyError (key : string)
| ZeroDivisionError
| OverflowError
| MaskError
| ValidationError (msg : string).

Inductive result (A : Type) : Type :=
| Ok (a : A)
| Raise (e : exn).
Arguments Ok {A} a.
Arguments Raise {A} e.

Definition bind {A B} (m : result A) (k : A -> result B) : result B :=
  match m with
  | Ok a => k a
  | Raise e => Raise e
  end.

Definition is_ok {A} (m : result A) : bool :=
  match m with Ok _ => true | Raise _ => false end.

(** A node of the parsed tree: what [from_tree] and the validators
    receive.  [NObj] is a child that the tree already holds as an object
    (an array for a mask, for instance), known by its identity. *)
Inductive node : Type :=
| NNone
| NBool (b : bool)
| NInt (z : Z)
| NFloat (f : float)
| NStr (s : string)
| NList (l : list node)
| NDict (d : list (string * node))
| NObj (ref : nat).

(** [bool(x)] *)
Definition truthy (x : node) : bool :=
match x with
| NNone => false
| NBool b => b
| NInt z => negb (z =? 0)
| NFloat f => negb (PrimFloat.eqb f 0%float)
| NStr s => negb (String.eqb s "")
| NList l => match l with [] => false | _ => true end
| NDict d => match d with [] => false | _ => true end
| NObj _ => true
end.

Definition is_none (x : node) : bool :=
  match x with NNone => true | _ => false end.

(** [d.get(key)] on the entries of a mapping; [None] when absent. *)
Fixpoint dict_get (key : string) (d : list (string * node)) : option node :=
  match d with
  | [] => None
  | (k, v) :: rest => if String.eqb k key then Some v else dict_get key rest
  end.

(** [key in d] *)
Definition dict_has (key : string) (d : list (string * node)) : bool :=
  match dict_get key d with Some _ => true | None => false end.

(** [d.get(key, default)] *)
Definition dict_get_default (key : string) (default : node)
           (d : list (string * node)) : node :=
  match dict_get key d with Some v => v | None => default end.

(** A [for] loop that appends one result per element, stopping at the
    first exception. *)
Section Loops.
Context {A B : Type}.
Variable f : A -> result B.

Fixpoint for_each (l : list A) : result (list B) :=
match l with
| [] => Ok []
| x :: rest =>
    match f x with
    | Ok y =>
        match for_each rest with
        | Ok ys => Ok (y :: ys)
        | Raise e => Raise e
        end
    | Raise e => Raise e
    end
end.

End Loops.

(** [g(d[key])]: the value under [key], handed to [g]. *)
Section Lookup.
Context {B : Type}.
Variable g : node -> B.

Fixpoint dict_get_with (key : string) (d : list (string * node)) : option B :=
match d with
| [] => None
| (k, v) :: rest => if String.eqb k key then Some (g v) else dict_get_with key rest
end.

End Lookup.

(** [str(n)] for an integer. *)
Definition str_of_int (z : Z) : string := NilZero.string_of_int (Z.to_int z).

End Py.
Import Py.

Declare Scope py_scope.
Notation "x <- m ;; k" := (bind m (fun x => k))
  (at level 61, m at next level, right associativity) : py_scope.
Notation "' p <- m ;; k" := (bind m (fun x => let p := x in k))
  (at level 61, p pattern, m at next level, right associativity) : py_scope.
Local Open Scope py_scope.

(** ** The host array library: element types *)

Module Numpy.

(** [sys.byteorder] *)
Inductive endian : Type := Little | Big.

Definition endian_name (e : endian) : string :=
  match e with Little => "little" | Big => "big" end.

(** [dtype.byteorder]: one of ['='], ['<'], ['>'], ['|']. *)
Inductive byteorder_char : Type := BoNative | BoLittle | BoBig | BoNA.

(** Scalar kinds.  The last two stand for the kinds numpy has and the
    format's table lacks. *)
Inductive scalar_kind : Type :=
| Int8 | Int16 | Int32 | Int64
| UInt8 | UInt16 | UInt32 | UInt64
| Float32 | Float64 | Complex64 | Complex128
| Bool_
| Float16 | Object_.

Definition kind_itemsize (k : scalar_kind) : Z :=
  match k with
  | Int8 | UInt8 | Bool_ => 1
  | Int16 | UInt16 | Float16 => 2
  | Int32 | UInt32 | Float32 => 4
  | Int64 | UInt64 | Float64 | Complex64 | Object_ => 8
  | Complex128 => 16
  end.

Definition kind_name (k : scalar_kind) : string :=
  match k with
  | Int8 => "int8" | Int16 => "int16" | Int32 => "int32" | Int64 => "int64"
  | UInt8 => "uint8" | UInt16 => "uint16" | UInt32 => "uint32"
  | UInt64 => "uint64"
  | Float32 => "float32" | Float64 => "float64"
  | Complex64 => "complex64" | Complex128 => "complex128"
  | Bool_ => "bool" | Float16 => "float16" | Object_ => "object"
  end.

(** A numpy dtype.  A structured dtype lists its fields in the order of
    [dtype.names], each with the pair [dtype.fields[name]] (the field's
    dtype and its byte offset), and carries its [itemsize].  A field with
    a shape is a field whose dtype is a sub-array.  Field titles are not
    modelled. *)
Inductive np_dtype : Type :=
| DScalar (k : scalar_kind) (bo : byteorder_char)
| DBytes (n : Z)
| DUnicode (n : Z) (bo : byteorder_char)
| DSubarray (base : np_dtype) (shape : list Z)
| DStruct (fields : list (string * (np_dtype * Z))) (size : Z).

Definition prod_Z (l : list Z) : Z := fold_right Z.mul 1 l.

(** [dtype.itemsize] *)
Fixpoint itemsize (d : np_dtype) : Z :=
  match d with
  | DScalar k _ => kind_itemsize k
  | DBytes n => n
  | DUnicode n _ => 4 * n
  | DSubarray b s => itemsize b * prod_Z s
  | DStruct _ sz => sz
  end.

(** [dtype.byteorder] *)
Definition dtype_byteorder (d : np_dtype) : byteorder_char :=
  match d with
  | DScalar _ bo => bo
  | DBytes _ => BoNA
  | DUnicode _ bo => bo
  | DSubarray _ _ => BoNA
  | DStruct _ _ => BoNA
  end.

(** [dtype.shape] *)
Definition dtype_shape (d : np_dtype) : list Z :=
  match d with DSubarray _ s => s | _ => [] end.

(** [dtype.name] *)
Definition dtype_name (d : np_dtype) : string :=
  match d with
  | DScalar k _ => kind_name k
  | DBytes n =>
      if Z.eqb n 0 then "bytes" else String.append "bytes" (str_of_int (8 * n))
  | DUnicode n _ =>
      if Z.eqb n 0 then "str" else String.append "str" (str_of_int (32 * n))
  | DSubarray _ _ | DStruct _ _ =>
      String.append "void" (str_of_int (8 * itemsize d))
  end.

(** [dtype.fields]: present on structured dtypes only. *)
Definition dtype_fields (d : np_dtype) : option (list (string * (np_dtype * Z))) :=
  match d with DStruct fs _ => Some fs | _ => None end.

Definition eqb_endian_bo (host : endian) (bo : byteorder_char) : bool :=
  match host, bo with
  | Little, BoLittle | Big, BoBig => true
  | _, _ => false
  end.

(** The byte order numpy stores for a multi-byte type requested with the
    explicit order [bo]: the host's own order is stored as ['=']. *)
Definition normalize_bo (host : endian) (bo : byteorder_char) : byteorder_char :=
  if eqb_endian_bo host bo then BoNative else bo.

(** The kind of a numpy type code. *)
Definition kind_of_code (code : string) : option scalar_kind :=
  if String.eqb code "i1" then Some Int8
  else if String.eqb code "i2" then Some Int16
  else if String.eqb code "i4" then Some Int32
  else if String.eqb code "i8" then Some Int64
  else if String.eqb code "u1" then Some UInt8
  else if String.eqb code "u2" then Some UInt16
  else if String.eqb code "u4" then Some UInt32
  else if String.eqb code "u8" then Some UInt64
  else if String.eqb code "f2" then Some Float16
  else if String.eqb code "f4" then Some Float32
  else if String.eqb code "f8" then Some Float64
  else if String.eqb code "c8" then Some Complex64
  else if String.eqb code "c16" then Some Complex128
  else if String.eqb code "b1" then Some Bool_
  else None.

(** [np.dtype(bo + code)]: single-byte kinds have no byte order. *)
Definition dtype_of_typestr (host : endian) (bo : byteorder_char)
           (code : string) : result np_dtype :=
  match kind_of_code code with
  | Some k =>
      Ok (DScalar k (if kind_itemsize k =? 1 then BoNA else normalize_bo host bo))
  | None => Raise (TypeError "data type not understood")
  end.

(** [np.dtype(bo + "S" + str(length))] and [np.dtype(bo + "U" + str(length))] *)
Definition dtype_of_flexible (host : endian) (bo : byteorder_char)
           (code : string) (length : Z) : result np_dtype :=
  if length <? 0 then Raise (TypeError "data type not understood")
  else if String.eqb code "S" then Ok (DBytes length)
  else if String.eqb code "U" then Ok (DUnicode length (normalize_bo host bo))
  else Raise (TypeError "data type not understood").

(** The dtype of a field declared with a shape: [(name, dtype, shape)].
    An empty shape declares no sub-array, and numpy flattens a sub-array
    of sub-arrays. *)
Definition with_shape (d : np_dtype) (shape : list Z) : np_dtype :=
  match shape with
  | [] => d
  | _ =>
      match d with
      | DSubarray b s => DSubarray b (shape ++ s)
      | _ => DSubarray d shape
      end
  end.

(** What [asdf_datatype_to_numpy_dtype] returns and [np.dtype] accepts in
    a list: a dtype, or a field tuple [(name, dtype)] or
    [(name, dtype, shape)]. *)
Inductive dtype_like : Type :=
| AsDtype (d : np_dtype)
| AsField (name : string) (inner : dtype_like) (shape : option (list node)).

(** One dimension of a field shape handed to [np.dtype]. *)
Definition dim_of_node (x : node) : result Z :=
  match x with
  | NInt z =>
      if z <? 0 then Raise (ValueError "dimension smaller than zero") else Ok z
  | NBool b => Ok (Z.b2z b)
  | _ => Raise (TypeError "an integer is required")
  end.

Fixpoint dims_of_nodes (l : list node) : result (list Z) :=
  match l with
  | [] => Ok []
  | x :: rest =>
      z <- dim_of_node x ;;
      zs <- dims_of_nodes rest ;;
      Ok (z :: zs)
  end.

(** The dtype of one field tuple. *)
Definition field_dtype (inner : dtype_like) (shape : option (list node))
  : result np_dtype :=
  match inner with
  | AsField _ _ _ => Raise (TypeError "data type not understood")
  | AsDtype d =>
      match shape with
      | None => Ok d
      | Some sh => dims <- dims_of_nodes sh ;; Ok (with_shape d dims)
      end
  end.

(** Fields are laid out one after the other; an empty name becomes
    ["f<i>"]; a repeated name is refused. *)
Fixpoint pack_fields (i : nat) (offset : Z) (seen : list string)
         (l : list (string * dtype_like * option (list node)))
  : result (list (string * (np_dtype * Z)) * Z) :=
  match l with
  | [] => Ok ([], offset)
  | (name, inner, shape) :: rest =>
      d <- field_dtype inner shape ;;
      let name' :=
        if String.eqb name "" then String.append "f" (str_of_int (Z.of_nat i))
        else name in
      if existsb (String.eqb name') seen
      then Raise (ValueError "field occurs more than once")
      else
        ' (fs, total) <- pack_fields (S i) (offset + itemsize d) (name' :: seen) rest ;;
        Ok ((name', (d, offset)) :: fs, total)
  end.

(** [np.dtype(list_of_field_tuples)] *)
Definition dtype_of_list (l : list (string * dtype_like * option (list node)))
  : result np_dtype :=
  ' (fs, total) <- pack_fields 0 0 [] l ;;
  Ok (DStruct fs total).

(** *** Arrays *)

(** The elements of an array in row-major order.  Integer, floating and
    boolean contents are kept, of strings only the count; complex and
    record contents are not modelled. *)
Inductive elems : Type :=
| IntElems (l : list Z)
| FloatElems (l : list float)
| BoolElems (l : list bool)
| TextElems (count : nat).

Definition elems_count (e : elems) : nat :=
match e with
| IntElems l => List.length l
| FloatElems l => List.length l
| BoolElems l => List.length l
| TextElems n => n
end.

(** A plain [np.ndarray] has no mask; an [ma.MaskedArray] has [nomask] or
    one mask bit per element. *)
Inductive mask_state : Type :=
| NotMasked
| NoMask
| Mask (bits : list bool).

(** [.base] of an array: absent, another array, a memory map (identified by
    a number), or some other buffer. *)
Inductive base_of (A : Type) : Type :=
| BaseNone
| BaseArray (a : A)
| BaseMmap (m : nat)
| BaseOther.
Arguments BaseNone {A}.
Arguments BaseArray {A} a.
Arguments BaseMmap {A} m.
Arguments BaseOther {A}.

(** An array object.  [a_id] is the identity of the Python object: two
    values with the same [a_id] are the same object. *)
Inductive ndarray : Type := mk_ndarray {
  a_id : nat;
  a_shape : list Z;
  a_dtype : np_dtype;
  a_strides : list Z;
  a_data : elems;
  a_mask : mask_state;
  a_base : base_of ndarray;
  a_memmap : bool;
  a_address : Z
}.

(** [array.size] *)
Definition a_size (a : ndarray) : Z := prod_Z (a_shape a).

(** [array.ndim] *)
Definition a_ndim (a : ndarray) : Z := Z.of_nat (List.length (a_shape a)).

Definition with_id (i : nat) (a : ndarray) : ndarray :=
mk_ndarray i (a_shape a) (a_dtype a) (a_strides a) (a_data a) (a_mask a)
           (a_base a) (a_memmap a) (a_address a).

(** The strides of a row-major contiguous array. *)
Fixpoint c_strides (shape : list Z) (itemsize : Z) : list Z :=
match shape with
| [] => []
| _ :: rest => (prod_Z rest * itemsize) :: c_strides rest itemsize
end.

(** The strides of a column-major contiguous array. *)
Fixpoint f_strides (shape : list Z) (step : Z) : list Z :=
match shape with
| [] => []
| n :: rest => step :: f_strides rest (step * n)
end.

(** Whether given strides agree with contiguous ones on every dimension
    that has more than one entry. *)
Fixpoint strides_agree (shape strides expected : list Z) : bool :=
match shape, strides, expected with
| n :: shape', s :: strides', e :: expected' =>
    ((n =? 1) || (s =? e)) && strides_agree shape' strides' expected'
| [], [], [] => true
| _, _, _ => false
end.

(** [array.flags.c_contiguous] *)
Definition c_contiguous (a : ndarray) : bool :=
existsb (Z.eqb 0) (a_shape a)
|| strides_agree (a_shape a) (a_strides a) (c_strides (a_shape a) (itemsize (a_dtype a))).

(** [array.flags.forc] *)
Definition forc (a : ndarray) : bool :=
c_contiguous a
|| strides_agree (a_shape a) (a_strides a) (f_strides (a_shape a) (itemsize (a_dtype a))).

(** [ma.is_masked(array)] and [np.any(array.mask)] *)
Definition any_masked (a : ndarray) : bool :=
match a_mask a with
| Mask bits => existsb (fun b => b) bits
| _ => false
end.

(** The mask bits of an array, one per element: all clear without a mask. *)
Definition mask_bits (a : ndarray) : list bool :=
match a_mask a with
| Mask bits => bits
| _ => repeat false (elems_count (a_data a))
end.

(** *** Floating-point tests *)

(** How a float compares with an integer, as Python compares them: by
    their exact values, without converting the integer.  A NaN compares
    with nothing. *)
Definition float_compare_Z (f : float) (z : Z) : option comparison :=
match Prim2SF f with
| S754_nan => None
| S754_infinity negative => Some (if negative then Lt else Gt)
| S754_zero _ => Some (Z.compare 0 z)
| S754_finite negative m e =>
    let v := if negative then Zneg m else Zpos m in
    Some (if 0 <=? e then Z.compare (v * 2 ^ e) z
          else Z.compare v (z * 2 ^ (- e)))
end.

(** [f == z] and [f < z] *)
Definition float_eq_Z (f : float) (z : Z) : bool :=
match float_compare_Z f z with Some Eq => true | _ => false end.

Definition float_lt_Z (f : float) (z : Z) : bool :=
match float_compare_Z f z with Some Lt => true | _ => false end.

(** The binary64 number nearest to an integer of less than 64 bits, as a
    conversion of a 64-bit integer to a float gives it; larger integers are
    not converted here. *)
Definition float_of_Z (z : Z) : option float :=
if Z.abs z <? 2 ^ 63 then
  Some match z with
       | Z0 => 0%float
       | Zpos _ => PrimFloat.of_uint63 (Uint63.of_Z z)
       | Zneg p => PrimFloat.opp (PrimFloat.of_uint63 (Uint63.of_Z (Zpos p)))
       end
else None.

(** [np.isnan(array)]; it is not defined on strings and records. *)
Definition np_isnan (e : elems) : result (list bool) :=
match e with
| IntElems l => Ok (map (fun _ => false) l)
| BoolElems l => Ok (map (fun _ => false) l)
| FloatElems l => Ok (map PrimFloat.is_nan l)
| TextElems _ => Raise (TypeError "ufunc 'isnan' not supported for the input types")
end.

(** The defaults of [ma.masked_values]. *)
Definition rtol : float := 0.00001%float.
Definition atol : float := 0.00000001%float.

(** [np.isclose(x, y, rtol, atol)] on one element. *)
Definition isclose (x y : float) : bool :=
(PrimFloat.leb (PrimFloat.abs (PrimFloat.sub x y))
               (PrimFloat.add atol (PrimFloat.mul rtol (PrimFloat.abs y)))
 && negb (PrimFloat.is_nan y) && negb (PrimFloat.is_infinity y))
|| PrimFloat.eqb x y.

(** A scalar mask value: a Python [int], [bool], [float] or [str]. *)
Inductive scalar : Type :=
| SInt (z : Z)
| SBool (b : bool)
| SFloat (f : float)
| SStr (s : string).

(** [np.isnan(scalar)]; an integer that no 64-bit integer type holds is an
    object to numpy, as a string is. *)
Definition scalar_isnan (v : scalar) : result bool :=
match v with
| SFloat f => Ok (PrimFloat.is_nan f)
| SInt z =>
    if (- 2 ^ 63 <=? z) && (z <? 2 ^ 64) then Ok false
    else Raise (TypeError "ufunc 'isnan' not supported for the input types")
| SBool _ => Ok false
| SStr _ => Raise (TypeError "ufunc 'isnan' not supported for the input types")
end.

(** The values an integer kind holds. *)
Definition int_range (k : scalar_kind) : option (Z * Z) :=
match k with
| Int8 => Some (- 2 ^ 7, 2 ^ 7 - 1)
| Int16 => Some (- 2 ^ 15, 2 ^ 15 - 1)
| Int32 => Some (- 2 ^ 31, 2 ^ 31 - 1)
| Int64 => Some (- 2 ^ 63, 2 ^ 63 - 1)
| UInt8 => Some (0, 2 ^ 8 - 1)
| UInt16 => Some (0, 2 ^ 16 - 1)
| UInt32 => Some (0, 2 ^ 32 - 1)
| UInt64 => Some (0, 2 ^ 64 - 1)
| _ => None
end.

(** The mask of [ma.masked_values(array, value)] in the cases spelled out
    here, all of a plain array, which the call leaves as it is: an array of
    integers and an integer that its element type holds, compared by
    [np.equal]; an array of binary64 floats and a float, or an integer of
    less than 64 bits, compared by [np.isclose].  [None] stands for any
    other array and value. *)
Definition masked_values_bits (a : ndarray) (value : scalar) : option (list bool) :=
match a_mask a, a_dtype a, a_data a, value with
| NotMasked, DScalar k _, IntElems l, SInt z =>
    match int_range k with
    | Some (lo, hi) =>
        if (lo <=? z) && (z <=? hi) then Some (map (fun x => x =? z) l) else None
    | None => None
    end
| NotMasked, DScalar Float64 _, FloatElems l, SFloat y =>
    Some (map (fun x => isclose x y) l)
| NotMasked, DScalar Float64 _, FloatElems l, SInt z =>
    match float_of_Z z with
    | Some y => Some (map (fun x => isclose x y) l)
    | None => None
    end
| _, _, _, _ => None
end.

(** The truth values of a mask array. *)
Definition elems_truth (e : elems) : list bool :=
match e with
| IntElems l => map (fun x => negb (x =? 0)) l
| FloatElems l => map (fun x => negb (PrimFloat.eqb x 0%float)) l
| BoolElems l => l
| TextElems n => repeat true n
end.

End Numpy.
Import Numpy.

(** ** Type-descriptor codec *)

Section NDArray.

(** [sys.byteorder] of the running host. *)
Variable sys_byteorder : endian.

(** [str(x)] on a tree node; on a string it is the string itself. *)
Variable py_str : node -> string.
Hypothesis py_str_of_str : forall s, py_str (NStr s) = s.

Definition _datatype_names : list (string * string) :=
  [ ("int8", "i1"); ("int16", "i2"); ("int32", "i4"); ("int64", "i8");
    ("uint8", "u1"); ("uint16", "u2"); ("uint32", "u4"); ("uint64", "u8");
    ("float32", "f4"); ("float64", "f8");
    ("complex64", "c8"); ("complex128", "c16");
    ("bool8", "b1") ]%string.

Definition _string_datatype_names : list (string * string) :=
  [ ("ascii", "S"); ("ucs4", "U") ]%string.

Fixpoint table_get (key : string) (t : list (string * string)) : option string :=
  match t with
  | [] => None
  | (k, v) :: rest => if String.eqb k key then Some v else table_get key rest
  end.

Definition table_has (key : string) (t : list (string * string)) : bool :=
  match table_get key t with Some _ => true | None => false end.

Definition asdf_byteorder_to_numpy_byteorder (byteorder : node)
  : result byteorder_char :=
  match byteorder with
  | NStr s =>
      if String.eqb s "big" then Ok BoBig
      else if String.eqb s "little" then Ok BoLittle
      else Raise (ValueError "Invalid ASDF byteorder")
  | _ => Raise (ValueError "Invalid ASDF byteorder")
  end.

(** [tuple(shape)] *)
Definition py_tuple (x : node) : result (list node) :=
  match x with
  | NList l => Ok l
  | NDict d => Ok (map (fun kv => NStr (fst kv)) d)
  | NStr s => Ok (map (fun c => NStr (String c EmptyString)) (list_ascii_of_string s))
  | _ => Raise (TypeError "object is not iterable")
  end.

(** [isinstance(x, int)]: a Python [bool] is an [int]. *)
Definition is_int (x : node) : bool :=
  match x with NInt _ | NBool _ => true | _ => false end.

(** The list entry made of one decoded sub-descriptor. *)
Definition record_entry (np_dtype : dtype_like)
  : string * dtype_like * option (list node) :=
match np_dtype with
| AsField name inner shape => (name, inner, shape)
| AsDtype d => (EmptyString, AsDtype d, None)
end.

Fixpoint asdf_datatype_to_numpy_dtype (datatype : node) (byteorder : node)
         {struct datatype} : result dtype_like :=
let byteorder :=
  if is_none byteorder then NStr (endian_name sys_byteorder) else byteorder in
let unknown := Raise (ValueError "Unknown datatype") in
let record (l : list node) :=
  datatype_list <-
    for_each (fun subdatatype =>
                np_dtype <- asdf_datatype_to_numpy_dtype subdatatype byteorder ;;
                Ok (record_entry np_dtype)) l ;;
  d <- dtype_of_list datatype_list ;;
  Ok (AsDtype d) in
match datatype with
| NStr s =>
    match table_get s _datatype_names with
    | Some code =>
        bo <- asdf_byteorder_to_numpy_byteorder byteorder ;;
        d <- dtype_of_typestr sys_byteorder bo code ;;
        Ok (AsDtype d)
    | None => unknown
    end
| NList l =>
    match l with
    | [NStr charset; length] =>
        match is_int length, table_get charset _string_datatype_names with
        | true, Some code =>
            bo <- asdf_byteorder_to_numpy_byteorder byteorder ;;
            match length with
            | NInt n =>
                d <- dtype_of_flexible sys_byteorder bo code n ;;
                Ok (AsDtype d)
            | _ => Raise (TypeError "data type not understood")
            end
        | _, _ => record l
        end
    | _ => record l
    end
| NDict d =>
    let name := dict_get_default "name" (NStr "") d in
    let byteorder := dict_get_default "byteorder" byteorder d in
    let shape := dict_get_default "shape" NNone d in
    match dict_get_with (fun v => asdf_datatype_to_numpy_dtype v byteorder)
                        "datatype" d with
    | None => Raise (ValueError "Field entry has no datatype")
    | Some decoded =>
        inner <- decoded ;;
        if is_none shape then Ok (AsField (py_str name) inner None)
        else
          shape <- py_tuple shape ;;
          Ok (AsField (py_str name) inner (Some shape))
    end
| _ => unknown
end.

Definition numpy_byteorder_to_asdf_byteorder (byteorder : byteorder_char)
           (override : option string) : string :=
  match override with
  | Some o => o
  | None =>
      match byteorder with
      | BoNative => endian_name sys_byteorder
      | BoLittle => "little"
      | _ => "big"
      end
  end.

(** The entry emitted for one field of a structured dtype. *)
Definition field_entry (include_byteorder : bool) (name : string)
           (field : np_dtype) (field_dtype : node) (byteorder : string) : node :=
NDict ([("name"%string, NStr name); ("datatype"%string, field_dtype)]
       ++ (if include_byteorder then [("byteorder"%string, NStr byteorder)] else [])
       ++ (match dtype_shape field with
           | [] => []
           | s => [("shape"%string, NList (map NInt s))]
           end)).

Fixpoint numpy_dtype_to_asdf_datatype (dtype : np_dtype)
         (include_byteorder : bool) (override_byteorder : option string)
         {struct dtype} : result (node * string) :=
let order :=
  numpy_byteorder_to_asdf_byteorder (dtype_byteorder dtype) override_byteorder in
match dtype with
| DStruct names_fields _ =>
    fields <-
      for_each (fun name_field : string * (np_dtype * Z) =>
                  let name := fst name_field in
                  let field := fst (snd name_field) in
                  ' (field_dtype, byteorder) <-
                    numpy_dtype_to_asdf_datatype field true override_byteorder ;;
                  Ok (field_entry include_byteorder name field field_dtype byteorder))
               names_fields ;;
    Ok (NList fields, order)
| DSubarray base _ =>
    numpy_dtype_to_asdf_datatype base true override_byteorder
| _ =>
    let name := dtype_name dtype in
    if table_has name _datatype_names then Ok (NStr name, order)
    else if String.eqb name "bool" then Ok (NStr "bool8", order)
    else if prefix "string" name || prefix "bytes" name
    then Ok (NList [NStr "ascii"; NInt (itemsize dtype)], "big"%string)
    else if prefix "unicode" name || prefix "str" name
    then Ok (NList [NStr "ucs4"; NInt (Z.quot (itemsize dtype) 4)], order)
    else Raise (ValueError "Unknown dtype")
end.

(** The dtype of a field without its shape. *)
Definition field_base (field : np_dtype) : np_dtype :=
match field with DSubarray base _ => base | _ => field end.

(** *** Native types the descriptor grammar can express

    The byte order numpy stores on a dtype: none (['|']) on a single-byte
    kind; on a multi-byte kind ['='] for the host's order and the explicit
    character for the other one. *)
Definition stored_byteorder (single : bool) (bo : byteorder_char) : bool :=
match bo with
| BoNA => single
| BoNative => negb single
| BoLittle | BoBig => negb single && negb (eqb_endian_bo sys_byteorder bo)
end.

(** The scalar kinds the format names: the keys of [_datatype_names], and
    [bool]. *)
Definition named_kind (k : scalar_kind) : bool :=
table_has (kind_name k) _datatype_names || String.eqb (kind_name k) "bool".

(** Field names as numpy keeps them: not empty, and no name twice. *)
Fixpoint names_ok (seen : list string) (fs : list (string * (np_dtype * Z))) : bool :=
match fs with
| [] => true
| (name, _) :: rest =>
    negb (String.eqb name "") && negb (existsb (String.eqb name) seen)
    && names_ok (name :: seen) rest
end.

(** The layout [np.dtype] gives to a list of fields: each field starts
    where the one before ends, and the item size is the end of the last. *)
Fixpoint packed (offset : Z) (fs : list (string * (np_dtype * Z))) (size : Z) : bool :=
match fs with
| [] => size =? offset
| (_, (d, o)) :: rest => (o =? offset) && packed (offset + itemsize d) rest size
end.

(** A representable native type: a named scalar kind, a fixed-width string
    or character type, or a packed record of named fields, each one
    representable and possibly carrying a shape. *)
Fixpoint representable (d : np_dtype) : bool :=
match d with
| DScalar k bo => named_kind k && stored_byteorder (kind_itemsize k =? 1) bo
| DBytes n => 0 <=? n
| DUnicode n bo => (0 <=? n) && stored_byteorder false bo
| DSubarray _ _ => false
| DStruct fs size =>
    names_ok [] fs && packed 0 fs size
    && (fix all (l : list (string * (np_dtype * Z))) : bool :=
          match l with
          | [] => true
          | (_, (field, _)) :: rest =>
              match field with
              | DSubarray base shape =>
                  match shape with [] => false | _ => true end
                  && forallb (Z.leb 0) shape && representable base
              | _ => representable field
              end && all rest
          end) fs
end.

(** What [representable] asks of a field: a representable type, or a
    sub-array of one with a shape of at least one non-negative size. *)
Definition field_ok (field : np_dtype) : bool :=
match field with
| DSubarray base shape =>
    match shape with [] => false | _ => true end
    && forallb (Z.leb 0) shape && representable base
| _ => representable field
end.

(** The body of the loop over [dtype.names]. *)
Definition encode_field (include_byteorder : bool) (override_byteorder : option string)
           (name_field : string * (np_dtype * Z)) : result node :=
let name := fst name_field in
let field := fst (snd name_field) in
' (field_dtype, byteorder) <-
  numpy_dtype_to_asdf_datatype field true override_byteorder ;;
Ok (field_entry include_byteorder name field field_dtype byteorder).

(** The body of the loop over the entries of a record descriptor. *)
Definition decode_entry (byteorder : node) (subdatatype : node)
  : result (string * dtype_like * option (list node)) :=
np_dtype <- asdf_datatype_to_numpy_dtype subdatatype byteorder ;;
Ok (record_entry np_dtype).

(** The shape emitted for a field, as the decoder reads it back. *)
Definition field_shape_arg (field : np_dtype) : option (list node) :=
match dtype_shape field with [] => None | s => Some (map NInt s) end.

(** [byteorder] once [None] is replaced by [sys.byteorder]. *)
Definition norm_byteorder (byteorder : node) : node :=
if is_none byteorder then NStr (endian_name sys_byteorder) else byteorder.

(** Decoding the descriptor and byte order that encoding [d] produced
    gives [d] back (its base type, for a field with a shape). *)
Definition roundtrips (d : np_dtype) : Prop :=
  field_ok d = true ->
  exists desc bo,
    numpy_dtype_to_asdf_datatype d true None = Ok (desc, bo)
    /\ asdf_datatype_to_numpy_dtype desc (NStr bo) = Ok (AsDtype (field_base d)).

(** The field tuple the decoder hands to [np.dtype] for one field. *)
Definition field_spec (nf : string * (np_dtype * Z))
  : string * dtype_like * option (list node) :=
(fst nf, AsDtype (field_base (fst (snd nf))), field_shape_arg (fst (snd nf))).

(** ** Shape resolver *)

Definition star : node := NStr "*".

Definition is_star (x : node) : bool :=
match x with NStr s => String.eqb s "*" | _ => false end.

(** [shape.count("*")] *)
Definition count_star (shape : list node) : nat := List.length (filter is_star shape).

(** Integers that a 64-bit integer holds, and integers below 2^53 in size,
    each of which binary64 holds exactly. *)
Definition fits_int64 (z : Z) : bool := (- 2 ^ 63 <=? z) && (z <? 2 ^ 63).

Definition exact_float (z : Z) : bool := Z.abs z <? 2 ^ 53.

(** The 64-bit integer an integer wraps around to. *)
Definition wrap64 (z : Z) : Z := (z + 2 ^ 63) mod 2 ^ 64 - 2 ^ 63.

(** The sizes in a list all of whose entries are Python integers that
    64-bit integers hold; numpy multiplies such a list in 64-bit
    integers. *)
Fixpoint int64_sizes (dims : list node) : option (list Z) :=
match dims with
| [] => Some []
| NInt z :: rest =>
    if fits_int64 z
    then match int64_sizes rest with
         | Some sizes => Some (z :: sizes)
         | None => None
         end
    else None
| _ => None
end.

(** The stride by which the block size is divided: an entry of the
    recorded strides, which is a Python object, or the first entry of an
    object of the tree; or a number of numpy, the 64-bit integer [z], the
    float nearest to the integer [z], or the product
    [np.prod(dims) * itemsize] where it is not spelled out. *)
Inductive stride : Type :=
| PyStride (x : node)
| FirstOf (ref : nat)
| NpInt64 (z : Z)
| NpFloat64 (z : Z)
| NpProduct (dims : list node) (itemsize : Z).

(** Taken as given: whether [np.prod(dims)] raises, for a list that is not
    made of integers that 64-bit integers hold; and [int(block_size / stride)]
    where the operands are not both integers below 2^53 in size, so that
    the result depends on how the operands are converted and on the
    rounding of the binary64 quotient. *)
Variable np_prod_other : list node -> result unit.
Variable float_quotient : Z -> stride -> result Z.

(** [dtype.itemsize] on the view's element type, which may be [None]. *)
Definition dtype_itemsize (dtype : option dtype_like) : result Z :=
match dtype with
| Some (AsDtype d) => Ok (itemsize d)
| Some (AsField _ _ _) =>
    Raise (AttributeError "'tuple' object has no attribute 'itemsize'")
| None => Raise (AttributeError "'NoneType' object has no attribute 'itemsize'")
end.

(** [np.prod(dims) * dtype.itemsize].  The product of 64-bit integers,
    the default integers of numpy where a C long has 64 bits, is a 64-bit
    integer and wraps around; the product of no sizes is the float 1.0, so
    that the stride is the item size as a float. *)
Definition np_stride (dims : list node) (dtype : option dtype_like) : result stride :=
match int64_sizes dims with
| Some [] => i <- dtype_itemsize dtype ;; Ok (NpFloat64 i)
| Some sizes =>
    i <- dtype_itemsize dtype ;;
    Ok (if fits_int64 i then NpInt64 (wrap64 (prod_Z sizes * i))
        else NpProduct dims i)
| None =>
    _ <- np_prod_other dims ;;
    i <- dtype_itemsize dtype ;;
    Ok (NpProduct dims i)
end.

(** [strides[0]] *)
Definition strides_first (strides : node) : result stride :=
match strides with
| NList (x :: _) => Ok (PyStride x)
| NList [] => Raise (IndexError "list index out of range")
| NStr (String c _) => Ok (PyStride (NStr (String c EmptyString)))
| NStr EmptyString => Raise (IndexError "string index out of range")
| NDict _ => Raise (KeyError "0")
| NObj ref => Ok (FirstOf ref)
| _ => Raise (TypeError "object is not subscriptable")
end.

(** [int(block_size / stride)].  The quotient is a binary64 float, and
    [int] truncates it; while both operands are integers below 2^53 in
    size it truncates to the integer quotient.  A zero Python divisor
    raises [ZeroDivisionError]; a zero divisor of numpy yields an infinity
    or a NaN, which [int] refuses.  [None], a string, a list and a mapping
    divide nothing; a float and an object of the tree are left to
    [float_quotient]. *)
Definition int_truediv (block_size : Z) (stride : stride) : result Z :=
let exact (z : Z) : result Z :=
  if exact_float block_size && exact_float z
  then Ok (Z.quot block_size z)
  else float_quotient block_size stride in
let python (z : Z) : result Z :=
  if z =? 0 then Raise ZeroDivisionError else exact z in
let numpy (z : Z) : result Z :=
  if z =? 0 then
    if fits_int64 block_size then
      if block_size =? 0
      then Raise (ValueError "cannot convert float NaN to integer")
      else Raise OverflowError
    else float_quotient block_size stride
  else exact z in
match stride with
| PyStride (NInt z) => python z
| PyStride (NBool b) => python (Z.b2z b)
| PyStride (NNone | NStr _ | NList _ | NDict _) =>
    Raise (TypeError "unsupported operand type(s) for /")
| NpInt64 z => numpy z
| NpFloat64 z => numpy z
| _ => float_quotient block_size stride
end.

Definition get_actual_shape (shape : list node) (strides : node)
           (dtype : option dtype_like) (block_size : Z) : result (list node) :=
let num_stars := count_star shape in
if Nat.eqb num_stars 0 then Ok shape
else if Nat.eqb num_stars 1 then
  match shape with
  | first :: rest =>
      if negb (is_star first)
      then Raise (ValueError "'*' may only be in first entry of shape")
      else
        stride <- (if negb (is_none strides)
                   then strides_first strides
                   else np_stride rest dtype) ;;
        missing <- int_truediv block_size stride ;;
        Ok (NInt missing :: rest)
  | [] => Raise (IndexError "list index out of range")
  end
else Raise (ValueError "Invalid shape").

(** ** The world of objects

    Arrays and views are Python objects: creating one draws a fresh identity
    from the world.  The world also records which memory maps are closed,
    which documents have been released, and every call made to a storage
    source or to the block provider (latest first). *)

Inductive event : Type :=
| CallSource (callback : nat) (attr : string)
| SetArrayStorage (object : nat) (storage : string)
| GetDataCallback (source : Z)
| AssignBlock (view : nat) (source : Z)
| AssignCallback (view : nat) (callback : nat)
| OpenExternal (name : string)
| GetOptions (array : nat)
| SetOptions (array : nat) (storage : string)
| SetStreamedBlock (base : nat) (array : nat)
| MakeWriteBlock (base : nat) (storage : string) (object : nat).

Record world : Type := mk_world {
  w_next : nat;
  w_closed : list nat;
  w_released : list nat;
  w_events : list event
}.

(** A computation that reads and updates a state and may raise; the state
    reached when it raises is kept. *)
Definition St (S A : Type) : Type := S -> result A * S.

Definition ret {S A : Type} (a : A) : St S A := fun s => (Ok a, s).

Definition raise {S A : Type} (e : exn) : St S A := fun s => (Raise e, s).

Definition lift {S A : Type} (r : result A) : St S A := fun s => (r, s).

Definition bindS {S A B : Type} (m : St S A) (k : A -> St S B) : St S B :=
fun s =>
  match m s with
  | (Ok a, s') => k a s'
  | (Raise e, s') => (Raise e, s')
  end.

(** [try: m except Exception as e: handler(e)] *)
Definition try_except {S A : Type} (m : St S A) (handler : exn -> St S A) : St S A :=
fun s =>
  match m s with
  | (Ok a, s') => (Ok a, s')
  | (Raise e, s') => handler e s'
  end.

Notation "x <~ m ;; k" := (bindS m (fun x => k))
  (at level 61, m at next level, right associativity).

Definition M (A : Type) : Type := St world A.

Definition fresh : M nat :=
fun w => (Ok (w_next w),
          mk_world (S (w_next w)) (w_closed w) (w_released w) (w_events w)).

Definition emit (e : event) : M unit :=
fun w => (Ok tt, mk_world (w_next w) (w_closed w) (w_released w) (e :: w_events w)).

(** [m.closed] on a memory map. *)
Definition mmap_closed (m : nat) (w : world) : bool :=
existsb (Nat.eqb m) (w_closed w).

(** A new array object with the contents of [a]. *)
Definition alloc (a : ndarray) : M ndarray :=
i <~ fresh ;; ret (with_id i a).

(** What a storage source yields: the cached data of a block, or its header
    (of which the data size is read); a source that is not callable is
    itself the data. *)
Inductive source_value : Type :=
| SvArray (a : ndarray)
| SvHeader (data_size : Z)
| SvNode (n : node).

(** A data callback: [cb_call attr] is the call [callback(_attr=attr)]. *)
Record callback : Type := mk_callback {
  cb_id : nat;
  cb_call : string -> M source_value
}.

(** [self._source]: a tree node (a list for inline data) or a callable. *)
Inductive source : Type :=
| SrcNode (n : node)
| SrcCallback (cb : callback).

Definition call_source (cb : callback) (attr : string) : M source_value :=
_ <~ emit (CallSource (cb_id cb) attr) ;; cb_call cb attr.

(** An [NDArrayType] instance. *)
Record view : Type := mk_view {
  v_id : nat;
  _source : source;
  _array : option ndarray;
  _mask : node;
  _shape : node;
  _dtype : option dtype_like;
  _offset : node;
  _strides : node;
  _order : node
}.

Definition set_array (v : view) (a : option ndarray) : view :=
mk_view (v_id v) (_source v) a (_mask v) (_shape v) (_dtype v)
        (_offset v) (_strides v) (_order v).

(** A method of a view: the state is the view and the world. *)
Definition V (A : Type) : Type := St (view * world) A.

Definition in_world {A : Type} (m : M A) : V A :=
fun s => let (r, w) := m (snd s) in (r, (fst s, w)).

Definition self : V view := fun s => (Ok (fst s), s).

Definition assign_array (a : option ndarray) : V unit :=
fun s => (Ok tt, (set_array (fst s) a, snd s)).

Definition the_world : V world := fun s => (Ok (snd s), s).

(** ** Inline literals *)

(** What [handle_mask] returns: the literal with each list that holds a
    [None] replaced by a masked array. *)
Inductive handled : Type :=
| HLeaf (x : node)
| HList (l : list handled)
| HMasked (data : list node) (mask : list bool).

(** What [convert_to_tuples] returns. *)
Inductive tupled : Type :=
| TTuple (items : list node)
| TList (l : list tupled).

(** The conversions numpy performs, taken as given: [np.ma.asarray] of a
    handled literal; [np.asarray(tuple(line), dtype)] for one candidate
    record (only whether it raises matters); [np.asarray] of a literal with
    tuples at the record depth; the contents of [np.ndarray] laid over a
    buffer; the contents after [array.__setitem__]; [array.tolist()] (with
    byte strings turned into text); [np.can_cast(a, b, "safe")]; and the
    elements and the mask of [ma.masked_values(array, value)] for the arrays
    and values that [masked_values_bits] does not spell out. *)
Variable np_ma_asarray : handled -> option np_dtype -> result ndarray.
Variable np_struct_scalar : list node -> np_dtype -> result unit.
Variable np_asarray_tuples : tupled -> np_dtype -> result ndarray.
Variable np_ndarray_data : list Z -> np_dtype -> ndarray -> Z -> list Z -> result elems.
Variable np_setitem : ndarray -> list node -> result elems.
Variable np_tolist : ndarray -> node.
Variable np_can_cast : np_dtype -> np_dtype -> bool.
Variable np_masked_values : ndarray -> scalar -> result (elems * list bool).

(** The arrays among the objects of the tree: [array_objects ref] is the
    computation that yields the array behind the object (materializing it
    when the object is a lazy view), or nothing for any other object. *)
Variable array_objects : nat -> option (M ndarray).

Definition is_list (x : node) : bool :=
match x with NList _ => true | _ => false end.

Fixpoint handle_mask (inline : node) : result handled :=
match inline with
| NList l =>
    if existsb is_none l then
      if existsb is_list l
      then Raise (ValueError "setting an array element with a sequence")
      else Ok (HMasked (map (fun x => if is_none x then NInt 0 else x) l)
                       (map is_none l))
    else
      hs <- for_each handle_mask l ;;
      Ok (HList hs)
| _ => Ok (HLeaf inline)
end.

Fixpoint find_innermost_match (dtype : np_dtype) (line : node) (depth : nat)
  : result nat :=
let no_match := Raise (ValueError "data can not be converted to structured array") in
match line with
| NList [] => no_match
| NList (first :: rest) =>
    match np_struct_scalar (first :: rest) dtype with
    | Ok _ => Ok depth
    | Raise (ValueError _) => find_innermost_match dtype first (S depth)
    | Raise e => Raise e
    end
| _ => no_match
end.

(** [data_depth] counts the levels left down to the records. *)
Fixpoint convert_to_tuples (line : node) (data_depth : nat) : result tupled :=
match data_depth with
| O => items <- py_tuple line ;; Ok (TTuple items)
| S below =>
    items <- py_tuple line ;;
    converted <- for_each (fun x => convert_to_tuples x below) items ;;
    Ok (TList converted)
end.

(** [array.data] of a masked array: the plain array underneath. *)
Definition unmasked (a : ndarray) : ndarray :=
mk_ndarray (a_id a) (a_shape a) (a_dtype a) (a_strides a) (a_data a) NotMasked
           (a_base a) (a_memmap a) (a_address a).

(** [dtype.fields] on the element type handed to the view. *)
Definition fields_of (dtype : option dtype_like) : result (option np_dtype) :=
match dtype with
| None => Ok None
| Some (AsDtype d) => Ok (Some d)
| Some (AsField _ _ _) =>
    Raise (AttributeError "'tuple' object has no attribute 'fields'")
end.

Definition inline_data_asarray (inline : node) (dtype : option dtype_like)
  : M ndarray :=
dt <~ lift (fields_of dtype) ;;
match dt with
| Some (DStruct fs size) =>
    let dtype := DStruct fs size in
    depth <~ lift (find_innermost_match dtype inline 0) ;;
    inline <~ lift (convert_to_tuples inline depth) ;;
    a <~ lift (np_asarray_tuples inline dtype) ;;
    alloc a
| _ =>
    inline <~ lift (handle_mask inline) ;;
    inline <~ lift (np_ma_asarray inline dt) ;;
    if negb (any_masked inline) then alloc (unmasked inline) else alloc inline
end.

(** ** The lazy array view *)

(** [np.isscalar(mask)] *)
Definition scalar_of_node (x : node) : option scalar :=
match x with
| NInt z => Some (SInt z)
| NBool b => Some (SBool b)
| NFloat f => Some (SFloat f)
| NStr s => Some (SStr s)
| _ => None
end.

Fixpoint or_bits (old new : list bool) : list bool :=
match old, new with
| o :: old', n :: new' => (o || n) :: or_bits old' new'
| _, _ => new
end.

(** [ma.array(array, mask=bits)]: a masked view of [array].  A mask of one
    bit is spread over the array; a mask of another size is refused; the
    mask the array already has is kept. *)
Definition ma_array (array : ndarray) (bits : list bool) : M ndarray :=
let nd := elems_count (a_data array) in
let nm := List.length bits in
bits <~ (if Nat.eqb nm 1 then ret (repeat (hd false bits) nd)
         else if Nat.eqb nm nd then ret bits
         else raise MaskError) ;;
let bits := match a_mask array with Mask old => or_bits old bits | _ => bits end in
alloc (mk_ndarray 0 (a_shape array) (a_dtype array) (a_strides array)
                  (a_data array) (Mask bits) (BaseArray array) false
                  (a_address array)).

(** [ma.masked_values(array, value)]: a masked copy of [array], in which a
    plain array keeps its elements and a masked one has its masked elements
    filled with the value; a mask without any bit set shrinks to [nomask]. *)
Definition ma_masked_values (array : ndarray) (value : scalar) : M ndarray :=
found <~ lift (match masked_values_bits array value with
               | Some bits => Ok (a_data array, bits)
               | None => np_masked_values array value
               end) ;;
let data := match a_mask array with
            | NotMasked => a_data array
            | _ => fst found
            end in
let bits := snd found in
alloc (mk_ndarray 0 (a_shape array) (a_dtype array)
                  (c_strides (a_shape array) (itemsize (a_dtype array)))
                  data
                  (if existsb (fun b => b) bits then Mask bits else NoMask)
                  BaseNone false 0).

(** [mask.view()] *)
Definition array_view (m : ndarray) : M ndarray :=
alloc (mk_ndarray 0 (a_shape m) (a_dtype m) (a_strides m) (a_data m) (a_mask m)
                  (BaseArray m) false (a_address m)).

Definition _apply_mask (array : ndarray) (mask : node) : M ndarray :=
match mask with
| NObj ref =>
    match array_objects ref with
    | Some materialize =>
        m <~ materialize ;;
        m <~ array_view m ;;
        ma_array array (elems_truth (a_data m))
    | None => ret array
    end
| _ =>
    match scalar_of_node mask with
    | Some value =>
        nan <~ lift (scalar_isnan value) ;;
        if nan then
          bits <~ lift (np_isnan (a_data array)) ;;
          ma_array array bits
        else ma_masked_values array value
    | None => ret array
    end
end.

(** [x == n] between a tree node and an integer. *)
Definition node_eq_int (x : node) (n : Z) : bool :=
match x with
| NInt z => z =? n
| NBool b => Z.b2z b =? n
| NFloat f => float_eq_Z f n
| _ => false
end.

(** [array.shape == tuple(items)] *)
Fixpoint shape_eq (dims : list Z) (items : list node) : bool :=
match dims, items with
| [], [] => true
| n :: dims', x :: items' => node_eq_int x n && shape_eq dims' items'
| _, _ => false
end.

(** The items of a shape that can be indexed and sliced. *)
Definition shape_items (shape : node) : result (list node) :=
match shape with
| NList l => Ok l
| NStr s => Ok (map (fun c => NStr (String c EmptyString)) (list_ascii_of_string s))
| NDict _ => Raise (KeyError "0")
| _ => Raise (TypeError "object is not subscriptable")
end.

(** The test of [__init__] on inline data: true when the constructor
    raises. *)
Definition inline_shape_mismatch (array : ndarray) (shape : node) : result bool :=
if is_none shape then Ok false
else
  items <- shape_items shape ;;
  match items with
  | [] => Raise (IndexError "list index out of range")
  | first :: rest =>
      Ok ((is_star first && negb (shape_eq (tl (a_shape array)) rest))
          || negb (shape_eq (a_shape array) items))
  end.

Definition __init__ (source : source) (shape : node) (dtype : option dtype_like)
           (offset strides order mask : node) : M view :=
id <~ fresh ;;
array <~ match source with
         | SrcNode (NList l) =>
             a <~ inline_data_asarray (NList l) dtype ;;
             a <~ _apply_mask a mask ;;
             bad <~ lift (inline_shape_mismatch a shape) ;;
             if bad then raise (ValueError "inline data doesn't match the given shape")
             else ret (Some a)
         | _ => ret None
         end ;;
ret (mk_view id source array mask shape dtype offset strides order).

(** Modelled from the spec: [util.get_array_base] lies outside the source
    tree; it follows the chain of [.base] arrays up to the array that owns
    the memory. *)
Fixpoint get_array_base (a : ndarray) : ndarray :=
match a_base a with
| BaseArray b => get_array_base b
| _ => a
end.

(** [isinstance(a.base, mmap.mmap) and a.base.closed] *)
Definition on_closed_mmap (a : ndarray) (w : world) : bool :=
match a_base a with
| BaseMmap m => mmap_closed m w
| _ => false
end.

(** The shape of a view as a list; [None] has no [count]. *)
Definition shape_list (shape : node) : result (list node) :=
match shape with
| NList l => Ok l
| NNone => Raise (AttributeError "'NoneType' object has no attribute 'count'")
| _ => Raise (TypeError "shape is not a list")
end.

Definition int_of_node (x : node) : result Z :=
match x with
| NInt z => Ok z
| NBool b => Ok (Z.b2z b)
| _ => Raise (TypeError "an integer is required")
end.

(** [np.ndarray(shape, dtype, buffer, offset, strides, order)]: a new array
    laid over [buffer]. *)
Definition np_ndarray (shape : list node) (dtype : option dtype_like)
           (buffer : ndarray) (offset strides order : node) : M ndarray :=
dims <~ lift (dims_of_nodes shape) ;;
dt <~ lift (match dtype with
            | None => Ok (DScalar Float64 BoNative)
            | Some (AsDtype d) => Ok d
            | Some (AsField _ _ _) => Raise (TypeError "data type not understood")
            end) ;;
off <~ lift (int_of_node offset) ;;
st <~ lift (match strides with
            | NNone =>
                Ok (if match order with NStr o => String.eqb o "F" | _ => false end
                    then f_strides dims (itemsize dt)
                    else c_strides dims (itemsize dt))
            | NList l => for_each int_of_node l
            | _ => Raise (TypeError "strides must be a sequence")
            end) ;;
data <~ lift (np_ndarray_data dims dt buffer off st) ;;
alloc (mk_ndarray 0 dims dt st data NotMasked (BaseArray buffer) false
                  (a_address buffer + off)).

Definition _make_array : V ndarray :=
v <~ self ;;
w <~ the_world ;;
_ <~ match _array v with
     | Some a =>
         let base := get_array_base a in
         if a_memmap base && on_closed_mmap base w then assign_array None else ret tt
     | None => ret tt
     end ;;
v <~ self ;;
match _array v with
| Some a => ret a
| None =>
    data <~ in_world match _source v with
                     | SrcCallback cb => call_source cb "cached_data"
                     | SrcNode n => ret (SvNode n)
                     end ;;
    w <~ the_world ;;
    match data with
    | SvArray data =>
        if on_closed_mmap data w
        then raise (OSError "Attempt to read data from a closed file")
        else
          shape <~ lift (l <- shape_list (_shape v) ;;
                         get_actual_shape l (_strides v) (_dtype v) (a_size data)) ;;
          a <~ in_world (np_ndarray shape (_dtype v) data
                                    (_offset v) (_strides v) (_order v)) ;;
          _ <~ assign_array (Some a) ;;
          a <~ in_world (_apply_mask a (_mask v)) ;;
          _ <~ assign_array (Some a) ;;
          ret a
    | _ => raise (AttributeError "object has no attribute 'size'")
    end
end.

Definition __array__ : V ndarray := _make_array.

(** ["*" in self._shape] *)
Definition contains_star (shape : node) : result bool :=
match shape with
| NList l => Ok (existsb is_star l)
| NStr s => Ok (match index 0 "*" s with Some _ => true | None => false end)
| NDict d => Ok (dict_has "*" d)
| _ => Raise (TypeError "argument is not iterable")
end.

(** The [shape] property; the tuple it returns is given as a list. *)
Definition shape : V (list node) :=
v <~ self ;;
if is_none (_shape v) || match _array v with Some _ => true | None => false end
then a <~ __array__ ;; ret (map NInt (a_shape a))
else
  starred <~ lift (contains_star (_shape v)) ;;
  if starred then
    match _source v with
    | SrcNode (NStr _) => a <~ _make_array ;; ret (map NInt (a_shape a))
    | SrcNode _ => raise (TypeError "object is not callable")
    | SrcCallback cb =>
        header <~ in_world (call_source cb "header") ;;
        data_size <~ lift match header with
                          | SvHeader n => Ok n
                          | SvArray _ => Raise (IndexError "only integers and slices are valid indices")
                          | SvNode _ => Raise (TypeError "indices must be integers")
                          end ;;
        if data_size =? 0
        then a <~ _make_array ;; ret (map NInt (a_shape a))
        else lift (l <- shape_list (_shape v) ;;
                   get_actual_shape l (_strides v) (_dtype v) data_size)
    end
  else lift (py_tuple (_shape v)).

(** The [dtype] property. *)
Definition dtype : V (option dtype_like) :=
v <~ self ;;
match _array v with
| None => ret (_dtype v)
| Some _ => a <~ _make_array ;; ret (Some (AsDtype (a_dtype a)))
end.

Definition with_data (a : ndarray) (data : elems) : ndarray :=
mk_ndarray (a_id a) (a_shape a) (a_dtype a) (a_strides a) data (a_mask a)
           (a_base a) (a_memmap a) (a_address a).

(** [__setitem__]: the assignment changes the cached array in place. *)
Definition __setitem__ (args : list node) : V unit :=
try_except
  (a <~ _make_array ;;
   data <~ lift (np_setitem a args) ;;
   assign_array (Some (with_data a data)))
  (fun e => _ <~ assign_array None ;; raise e).

(** [self._shape[0]] *)
Definition shape_first (shape : node) : result node :=
items <- shape_items shape ;;
match items with
| first :: _ => Ok first
| [] => Raise (IndexError "index out of range")
end.

(** [__len__]: what the method returns, which on a view that is not
    materialized is the first entry of the declared shape as it stands. *)
Definition __len__ : V node :=
v <~ self ;;
match _array v with
| None => lift (shape_first (_shape v))
| Some _ =>
    a <~ _make_array ;;
    lift match a_shape a with
         | n :: _ => Ok (NInt n)
         | [] => Raise (TypeError "len() of unsized object")
         end
end.

(** The text of a view, given by its parts: the summary of a view that is
    not loaded, or the [repr] or [str] of an array. *)
Inductive text : Type :=
| Unloaded (masked : bool) (shape : node) (dtype : option dtype_like)
| ReprOf (a : ndarray)
| StrOf (a : ndarray).

Definition __repr__ : V text :=
v <~ self ;;
match _array v with
| None => ret (Unloaded (negb (is_none (_mask v))) (_shape v) (_dtype v))
| Some _ => a <~ _make_array ;; ret (ReprOf a)
end.

Definition __str__ : V text :=
v <~ self ;;
match _array v with
| None => ret (Unloaded (negb (is_none (_mask v))) (_shape v) (_dtype v))
| Some _ => a <~ _make_array ;; ret (StrOf a)
end.

(** [getattr(array, attr)] on a numpy array, taken as given. *)
Variable attribute : Type.
Variable np_getattr : ndarray -> string -> result attribute.

Definition __getattr__ (attr : string) : V attribute :=
if String.eqb attr "__array_struct__" then raise (AttributeError "")
else if String.eqb attr "__asdf_traverse__" then raise (AttributeError "")
else a <~ _make_array ;; lift (np_getattr a attr).

(** ** Reading a view from the tree *)

(** [Options]: how an array is to be stored. *)
Record Options : Type := mk_options {
  storage_type : string;
  compression : node;
  compression_kwargs : node
}.

(** The configuration read inside [config_context()]. *)
Record config : Type := mk_config {
  all_array_storage : option string;
  all_array_compression : node;
  all_array_compression_kwargs : node;
  array_inline_threshold : option Z
}.

(** The document ([ctx]) and what its block provider answers.

    Modelled from the spec: the block provider lies outside the source
    tree.  [make_write_block] answers with the source to write for a block:
    the index of the block or, for external storage, the name of the file
    that holds it. *)
Record asdf_file : Type := mk_asdf_file {
  ctx_id : nat;
  lazy_load : bool;
  _get_data_callback : Z -> result callback;
  open_external : string -> result ndarray;
  lookup_by_object : nat -> option Options;
  get_options : nat -> Options;
  make_write_block : nat -> Options -> nat -> result node
}.

(** Runs a method on a view; the view comes back with the result. *)
Definition call_method {A : Type} (m : V A) (v : view) : M (A * view) :=
fun w =>
  match m (v, w) with
  | (Ok a, (v', w')) => (Ok (a, v'), w')
  | (Raise e, (_, w')) => (Raise e, w')
  end.

(** The closure [data] that [from_tree] builds for an external block: it
    ignores its argument, and fails once the document is released. *)
Definition external_callback (id : nat) (ctx : asdf_file) (name : string) : callback :=
mk_callback id (fun _attr =>
  w <~ (fun w => (Ok w, w)) ;;
  if existsb (Nat.eqb (ctx_id ctx)) (w_released w)
  then raise (OSError "Failed to resolve reference to AsdfFile to read external block")
  else
    _ <~ emit (OpenExternal name) ;;
    array <~ lift (open_external ctx name) ;;
    _ <~ emit (SetArrayStorage (a_id array) "external") ;;
    ret (SvArray array)).

Definition from_tree (node : node) (ctx : asdf_file) : M view :=
match node with
| NList l =>
    instance <~ __init__ (SrcNode (NList l)) NNone None NNone NNone NNone NNone ;;
    _ <~ emit (SetArrayStorage (v_id instance) "inline") ;;
    ret instance
| NDict d =>
    let source := dict_get_default "source" NNone d in
    let data := dict_get_default "data" NNone d in
    if truthy source && truthy data
    then raise (ValueError "Both source and data may not be provided at the same time")
    else
      let source := if truthy data then data else source in
      let shape := dict_get_default "shape" NNone d in
      byteorder <~ lift (if negb (is_none data)
                         then Ok (NStr (endian_name sys_byteorder))
                         else match dict_get "byteorder" d with
                              | Some b => Ok b
                              | None => Raise (KeyError "byteorder")
                              end) ;;
      dtype <~ lift match dict_get "datatype" d with
                    | Some datatype =>
                        t <- asdf_datatype_to_numpy_dtype datatype byteorder ;;
                        Ok (Some t)
                    | None => Ok None
                    end ;;
      let offset := dict_get_default "offset" (NInt 0) d in
      let strides := dict_get_default "strides" NNone d in
      let mask := dict_get_default "mask" NNone d in
      instance <~
        (if is_int source then
           index <~ lift (int_of_node source) ;;
           _ <~ emit (GetDataCallback index) ;;
           data <~ lift (_get_data_callback ctx index) ;;
           instance <~ __init__ (SrcCallback data) shape dtype offset strides (NStr "A") mask ;;
           _ <~ emit (AssignBlock (v_id instance) index) ;;
           _ <~ emit (AssignCallback (v_id instance) (cb_id data)) ;;
           ret instance
         else
           match source with
           | NStr name =>
               id <~ fresh ;;
               __init__ (SrcCallback (external_callback id ctx name))
                        shape dtype offset strides (NStr "A") mask
           | _ =>
               instance <~ __init__ (SrcNode source) shape dtype offset strides (NStr "A") mask ;;
               _ <~ emit (SetArrayStorage (v_id instance) "inline") ;;
               ret instance
           end) ;;
      if negb (lazy_load ctx)
      then r <~ call_method _make_array instance ;; ret (snd r)
      else ret instance
| _ => raise (TypeError "Invalid ndarray description.")
end.

(** ** Writing an array to the tree *)

(** What [to_tree] receives: a concrete array or a view. *)
Inductive array_like : Type :=
| ObjArray (a : ndarray)
| ObjView (v : view).

(** [np.ascontiguousarray(a)]: a plain array of at least one dimension in
    row-major order; [a] itself when it already is one.  The address of a
    fresh buffer is not tracked. *)
Definition np_ascontiguousarray (a : ndarray) : M ndarray :=
let plain := match a_mask a with NotMasked => negb (a_memmap a) | _ => false end in
let one_dim := match a_shape a with [] => false | _ => true end in
if c_contiguous a && one_dim then
  if plain then ret a
  else alloc (mk_ndarray 0 (a_shape a) (a_dtype a) (a_strides a) (a_data a)
                         NotMasked (BaseArray a) false (a_address a))
else
  let shape := match a_shape a with [] => [1] | s => s end in
  alloc (mk_ndarray 0 shape (a_dtype a) (c_strides shape (itemsize (a_dtype a)))
                    (a_data a) NotMasked BaseNone false 0).

Fixpoint ascii_to_unicode (x : node) : node :=
match x with
| NList l => NList (map ascii_to_unicode l)
| _ => x
end.

Fixpoint tolist (x : node) : node :=
match x with
| NList l => NList (map tolist l)
| _ => x
end.

Definition numpy_array_to_list (array : ndarray) : node :=
ascii_to_unicode (tolist (np_tolist array)).

(** The storage options [to_tree] settles on. *)
Definition settle_options (cfg : config) (options : Options) (size : Z) : Options :=
let options :=
  match all_array_storage cfg with
  | Some kind => mk_options kind (compression options) (compression_kwargs options)
  | None => options
  end in
let options :=
  if match all_array_compression cfg with
     | NStr c => String.eqb c "input"
     | _ => false
     end
  then options
  else mk_options (storage_type options) (all_array_compression cfg)
                  (all_array_compression_kwargs cfg) in
match array_inline_threshold cfg with
| Some inline_threshold =>
    if String.eqb (storage_type options) "inline"
       || String.eqb (storage_type options) "internal"
    then mk_options (if size <? inline_threshold then "inline" else "internal")
                    (compression options) (compression_kwargs options)
    else options
| None => options
end.

(** [result["shape"][0] = "*"] *)
Definition set_first_star (shape : list node) : result (list node) :=
match shape with
| [] => Raise (IndexError "list assignment index out of range")
| _ :: rest => Ok (star :: rest)
end.

Definition to_tree (obj : array_like) (cfg : config) (ctx : asdf_file)
  : M (list (string * node)) :=
(* [data = obj]: its identity, the array behind it, whether it is a view *)
start <~ match obj with
         | ObjArray a => ret (a_id a, a, false)
         | ObjView v => r <~ call_method _make_array v ;; ret (v_id v, fst r, true)
         end ;;
let '(data_id, data, is_view) := start in
step <~ (if existsb (Z.eqb 0) (a_strides data)
         then a <~ np_ascontiguousarray data ;; ret (a_id a, a, false)
         else ret (data_id, data, is_view)) ;;
let '(data_id, data, is_view) := step in
let base_of_data (data_id : nat) (data : ndarray) :=
  match a_base data with
  | BaseArray b => let base := get_array_base b in (a_id base, base)
  | _ => (data_id, data)
  end in
step <~ (let '(base_id, base) := base_of_data data_id data in
         if negb (forc base)
         then a <~ np_ascontiguousarray data ;;
              ret (a_id a, a, false, base_of_data (a_id a) a)
         else ret (data_id, data, is_view, (base_id, base))) ;;
let '(data_id, data, is_view, (base_id, base)) := step in
let shape := a_shape data in
options <~ match obj with
           | ObjView v =>
               match _source v with
               | SrcNode (NStr _) =>
                   ret match lookup_by_object ctx data_id with
                       | Some o => o
                       | None => mk_options "external" NNone NNone
                       end
               | _ => _ <~ emit (GetOptions data_id) ;; ret (get_options ctx data_id)
               end
           | ObjArray _ => _ <~ emit (GetOptions data_id) ;; ret (get_options ctx data_id)
           end ;;
let options := settle_options cfg options (a_size data) in
_ <~ emit (SetOptions data_id (storage_type options)) ;;
let offset := a_address data - a_address base in
let strides := if c_contiguous data then None else Some (a_strides data) in
let inline := String.eqb (storage_type options) "inline" in
let streamed := String.eqb (storage_type options) "streamed" in
encoded <~ lift (numpy_dtype_to_asdf_datatype (a_dtype data) (negb inline) None) ;;
let '(dtype, byteorder) := encoded in
let result_shape := map NInt shape in
result_shape <~ lift (if streamed then set_first_star result_shape else Ok result_shape) ;;
result <~
  (if inline then
     let listdata := numpy_array_to_list data in
     ret [("shape"%string, NList result_shape); ("data"%string, listdata);
          ("datatype"%string, dtype)]
   else
     result_shape <~ lift (if streamed then set_first_star (map NInt shape)
                           else Ok (map NInt shape)) ;;
     source <~ (if streamed then
                  _ <~ emit (SetStreamedBlock base_id data_id) ;;
                  ret (NInt (-1))
                else
                  _ <~ emit (MakeWriteBlock base_id (storage_type options)
                                            match obj with
                                            | ObjArray a => a_id a
                                            | ObjView v => v_id v
                                            end) ;;
                  lift (make_write_block ctx base_id options
                                         match obj with
                                         | ObjArray a => a_id a
                                         | ObjView v => v_id v
                                         end)) ;;
     ret ([("shape"%string, NList result_shape); ("source"%string, source);
           ("datatype"%string, dtype); ("byteorder"%string, NStr byteorder)]
          ++ (if 0 <? offset then [("offset"%string, NInt offset)] else [])
          ++ match strides with
             | Some st => [("strides"%string, NList (map NInt st))]
             | None => []
             end)) ;;
if negb is_view && match a_mask data with NotMasked => false | _ => true end
   && any_masked data
then
  _ <~ (if inline then
          m <~ fresh ;; emit (SetArrayStorage m "inline")
        else ret tt) ;;
  m <~ fresh ;;
  ret (result ++ [("mask"%string, NObj m)])
else ret result.

(** ** Schema validators *)

(** [x == y] on tree nodes.  Mappings are equal when they hold the same
    keys with equal values, in any order. *)
Fixpoint node_eqb (x y : node) {struct x} : bool :=
match x, y with
| NNone, NNone => true
| NBool a, NBool b => Bool.eqb a b
| NBool a, NInt z => Z.b2z a =? z
| NInt z, NBool a => Z.b2z a =? z
| NInt a, NInt b => a =? b
| NFloat a, NFloat b => PrimFloat.eqb a b
| NFloat f, NInt z => float_eq_Z f z
| NInt z, NFloat f => float_eq_Z f z
| NFloat f, NBool b => float_eq_Z f (Z.b2z b)
| NBool b, NFloat f => float_eq_Z f (Z.b2z b)
| NStr a, NStr b => String.eqb a b
| NList a, NList b =>
    (fix all2 (a b : list node) : bool :=
       match a, b with
       | [], [] => true
       | x :: a', y :: b' => node_eqb x y && all2 a' b'
       | _, _ => false
       end) a b
| NDict a, NDict b =>
    Nat.eqb (List.length a) (List.length b)
    && (fix all (a : list (string * node)) : bool :=
          match a with
          | [] => true
          | (k, v) :: a' =>
              match dict_get k b with
              | Some v' => node_eqb v v'
              | None => false
              end && all a'
          end) a
| NObj a, NObj b => Nat.eqb a b
| _, _ => false
end.

(** The value handed to a validator. *)
Inductive instance : Type :=
| INode (n : node)
| IArray (a : ndarray)
| IView (v : view).

(** A validator is a generator: it yields diagnostics (the messages of its
    [ValidationError]s, in order) and may raise; what it yielded before
    raising stays yielded. *)
Record run : Type := mk_run {
  yielded : list string;
  candidate : instance;
  r_world : world
}.

Definition G (A : Type) : Type := St run A.

Definition yield (message : string) : G unit :=
fun r => (Ok tt, mk_run (yielded r ++ [message]) (candidate r) (r_world r)).

Definition the_candidate : G instance := fun r => (Ok (candidate r), r).

Definition in_world_g {A : Type} (m : M A) : G A :=
fun r => let (res, w) := m (r_world r) in (res, mk_run (yielded r) (candidate r) w).

(** A property of the candidate view; the view keeps what the property
    cached. *)
Definition on_view {A : Type} (m : V A) (v : view) : G A :=
fun r =>
  match m (v, r_world r) with
  | (res, (v', w)) => (res, mk_run (yielded r) (IView v') w)
  end.

(** [len(x)] *)
Definition py_len (x : node) : result Z :=
match x with
| NList l => Ok (Z.of_nat (List.length l))
| NDict d => Ok (Z.of_nat (List.length d))
| NStr s => Ok (Z.of_nat (String.length s))
| _ => Raise (TypeError "object has no len()")
end.

Definition _get_ndim : G (option Z) :=
instance <~ the_candidate ;;
match instance with
| INode (NList l) =>
    array <~ in_world_g (inline_data_asarray (NList l) None) ;;
    ret (Some (a_ndim array))
| INode (NDict d) =>
    match dict_get "shape" d with
    | Some shape => n <~ lift (py_len shape) ;; ret (Some n)
    | None =>
        match dict_get "data" d with
        | Some data =>
            array <~ in_world_g (inline_data_asarray data None) ;;
            ret (Some (a_ndim array))
        | None => ret None
        end
    end
| IArray a => ret (Some (a_ndim a))
| IView v => s <~ on_view shape v ;; ret (Some (Z.of_nat (List.length s)))
| INode _ => ret None
end.

(** [in_ndim != ndim] *)
Definition ndim_differs (in_ndim : option Z) (ndim : node) : bool :=
match in_ndim with
| None => negb (is_none ndim)
| Some n => negb (node_eq_int ndim n)
end.

(** [in_ndim > max_ndim] *)
Definition ndim_exceeds (in_ndim : option Z) (max_ndim : node) : result bool :=
match in_ndim, max_ndim with
| Some n, NInt m => Ok (m <? n)
| Some n, NBool b => Ok (Z.b2z b <? n)
| Some n, NFloat f => Ok (float_lt_Z f n)
| _, _ => Raise (TypeError "'>' not supported between these instances")
end.

(** The validators; their first argument, the validation engine, is not
    used by any of them and is left out. *)
Definition validate_ndim (ndim : node) (schema : list (string * node)) : G unit :=
in_ndim <~ _get_ndim ;;
if ndim_differs in_ndim ndim
then yield "Wrong number of dimensions"
else ret tt.

Definition validate_max_ndim (max_ndim : node) (schema : list (string * node))
  : G unit :=
in_ndim <~ _get_ndim ;;
exceeds <~ lift (ndim_exceeds in_ndim max_ndim) ;;
if exceeds
then yield "Wrong number of dimensions: Expected max"
else ret tt.

(** [np.dtype(x)] on what a [dtype] property returns. *)
Definition np_dtype_of (x : option dtype_like) : result np_dtype :=
match x with
| None => Ok (DScalar Float64 BoNative)
| Some (AsDtype d) => Ok d
| Some (AsField _ _ _) => Raise (TypeError "data type not understood")
end.

(** [x.fields] on a decoded descriptor. *)
Definition fields_attr (x : dtype_like)
  : result (option (list (string * (np_dtype * Z)))) :=
match x with
| AsDtype d => Ok (dtype_fields d)
| AsField _ _ _ => Raise (AttributeError "'tuple' object has no attribute 'fields'")
end.

(** [bool(x.fields)]: absent and empty both count as false. *)
Definition has_fields (fields : option (list (string * (np_dtype * Z)))) : bool :=
match fields with
| Some (_ :: _) => true
| _ => false
end.

(** [len(x.fields)] *)
Definition len_fields (fields : option (list (string * (np_dtype * Z)))) : result nat :=
match fields with
| Some fs => Ok (List.length fs)
| None => Raise (TypeError "object of type 'NoneType' has no len()")
end.

(** [dtype[i]] *)
Definition field_at (fields : option (list (string * (np_dtype * Z)))) (i : nat)
  : result np_dtype :=
match fields with
| Some fs =>
    match nth_error fs i with
    | Some f => Ok (fst (snd f))
    | None => Raise (IndexError "Field index out of range")
    end
| None => Raise (KeyError "There are no fields in dtype")
end.

(** The loop over the fields of the expected type. *)
Fixpoint check_fields (in_fields out_fields : option (list (string * (np_dtype * Z))))
         (i count : nat) : G unit :=
match count with
| O => ret tt
| S count' =>
    in_type <~ lift (field_at in_fields i) ;;
    out_type <~ lift (field_at out_fields i) ;;
    _ <~ (if negb (np_can_cast in_type out_type)
          then _ <~ lift (numpy_dtype_to_asdf_datatype out_type true None) ;;
               _ <~ lift (numpy_dtype_to_asdf_datatype in_type true None) ;;
               yield "Can not safely cast to expected datatype"
          else ret tt) ;;
    check_fields in_fields out_fields (S i) count'
end.

Definition validate_datatype (datatype : node) (schema : list (string * node))
  : G unit :=
instance <~ the_candidate ;;
let from_array (d : np_dtype) : G node :=
  encoded <~ lift (numpy_dtype_to_asdf_datatype d true None) ;; ret (fst encoded) in
let not_an_array : G node := raise (ValidationError "Not an array") in
in_datatype <~
  match instance with
  | INode (NList l) =>
      array <~ in_world_g (inline_data_asarray (NList l) None) ;;
      from_array (a_dtype array)
  | INode (NDict d) =>
      match dict_get "datatype" d with
      | Some in_datatype => ret in_datatype
      | None =>
          match dict_get "data" d with
          | Some data =>
              array <~ in_world_g (inline_data_asarray data None) ;;
              from_array (a_dtype array)
          | None => not_an_array
          end
      end
  | IArray a => from_array (a_dtype a)
  | IView v =>
      d <~ on_view dtype v ;;
      d <~ lift (np_dtype_of d) ;;
      from_array d
  | INode _ => not_an_array
  end ;;
if node_eqb datatype in_datatype then ret tt
else
  _ <~ (if truthy (dict_get_default "exact_datatype" (NBool false) schema)
        then yield "Expected datatype"
        else ret tt) ;;
  np_datatype <~ lift (asdf_datatype_to_numpy_dtype datatype NNone) ;;
  np_in_datatype <~ lift (asdf_datatype_to_numpy_dtype in_datatype NNone) ;;
  out_fields <~ lift (fields_attr np_datatype) ;;
  if negb (has_fields out_fields) then
    in_fields <~ lift (fields_attr np_in_datatype) ;;
    _ <~ (if has_fields in_fields
          then yield "Expected scalar datatype"
          else ret tt) ;;
    match np_in_datatype, np_datatype with
    | AsDtype d_in, AsDtype d_out =>
        if negb (np_can_cast d_in d_out)
        then yield "Can not safely cast"
        else ret tt
    | _, _ => raise (TypeError "data type not understood")
    end
  else
    in_fields <~ lift (fields_attr np_in_datatype) ;;
    _ <~ (if negb (has_fields in_fields)
          then yield "Expected structured datatype"
          else ret tt) ;;
    n_in <~ lift (len_fields in_fields) ;;
    n_out <~ lift (len_fields out_fields) ;;
    _ <~ (if negb (Nat.eqb n_in n_out)
          then yield "Mismatch in number of columns"
          else ret tt) ;;
    check_fields in_fields out_fields 0 n_out.

(** ** Notions used in the properties *)

(** A computation of the world that never takes an identity back. *)
Definition grows {A : Type} (m : M A) : Prop :=
forall w, (w_next w <= w_next (snd (m w)))%nat.

(** The cached array of [v] is a memory map that has been closed. *)
Definition stale (a : ndarray) (w : world) : bool :=
a_memmap (get_array_base a) && on_closed_mmap (get_array_base a) w.

(** The storage source of a view never takes an identity back. *)
Definition source_grows (v : view) : Prop :=
match _source v with
| SrcCallback cb => forall attr, grows (cb_call cb attr)
| SrcNode _ => True
end.

(** The element type [from_tree] decodes for a mapping with inline data. *)
Definition declared_dtype (d : list (string * node)) (dtype : option dtype_like) : Prop :=
match dict_get "datatype" d with
| Some datatype =>
    exists t,
      asdf_datatype_to_numpy_dtype datatype (NStr (endian_name sys_byteorder)) = Ok t
      /\ dtype = Some t
| None => dtype = None
end.

(** A candidate that is not array-like: a tree node that is neither a list
    nor a mapping. *)
Definition not_array_like (x : instance) : Prop :=
match x with
| INode (NList _) | INode (NDict _) | IArray _ | IView _ => False
| INode _ => True
end.

(** What a validator run ends with: no exception, and at most one more
    diagnostic than before. *)
Definition yields_at_most_one (before : run) (after : result unit * run) : Prop :=
fst after = Ok tt
/\ candidate (snd after) = candidate before
/\ r_world (snd after) = r_world before
/\ exists more, yielded (snd after) = yielded before ++ more
                /\ (List.length more <= 1)%nat.

(** ** Notions used in the further properties

    Descriptors that can be written, records without field names, the
    lines of a literal, and what a run of the world or of a validator
    leaves behind. *)

(** A dtype whose scalar kinds all have a name in the format. *)
Fixpoint encodable (d : np_dtype) : bool :=
match d with
| DScalar k _ => named_kind k
| DBytes _ | DUnicode _ _ => true
| DSubarray base _ => encodable base
| DStruct fs _ =>
    (fix all (l : list (string * (np_dtype * Z))) : bool :=
       match l with
       | [] => true
       | f :: rest => encodable (fst (snd f)) && all rest
       end) fs
end.

(** [d] is encoded when all its kinds are named, and refused otherwise. *)
Definition encodes_or_unknown (d : np_dtype) : Prop :=
forall ib ov,
  (encodable d = true ->
   exists desc order, numpy_dtype_to_asdf_datatype d ib ov = Ok (desc, order))
  /\ (encodable d = false ->
      numpy_dtype_to_asdf_datatype d ib ov = Raise (ValueError "Unknown dtype")).

(** The name numpy gives to the field at position [i] when none is given. *)
Definition anonymous_name (i : nat) : string :=
String.append "f" (str_of_int (Z.of_nat i)).

(** Fields without names, laid out one after the other from [offset]. *)
Fixpoint anonymous_fields (i : nat) (offset : Z) (ds : list np_dtype)
  : list (string * (np_dtype * Z)) :=
match ds with
| [] => []
| d :: rest =>
    (anonymous_name i, (d, offset)) :: anonymous_fields (S i) (offset + itemsize d) rest
end.

Definition total_size (ds : list np_dtype) : Z :=
fold_right (fun d total => itemsize d + total) 0 ds.

(** The line reached from [line] by taking the first element [n] times. *)
Fixpoint first_line (line : node) (n : nat) : option node :=
match n with
| O => Some line
| S n' =>
    match line with
    | NList (first :: _) => first_line first n'
    | _ => None
    end
end.

(** What [np.asarray(tuple(line), dtype)] does with the line [n] levels
    down the first elements. *)
Definition record_at (dtype : np_dtype) (line : node) (n : nat) : option (result unit) :=
match first_line line n with
| Some (NList items) => Some (np_struct_scalar items dtype)
| _ => None
end.

(** The array that [to_tree] writes for the array [a], with its identity:
    [a] itself, or the contiguous copy that [to_tree] makes of an array
    with a zero stride or over a base that is not contiguous. *)
Definition written (a : ndarray) (w : world) : result (nat * ndarray) :=
fst ((step <~ (if existsb (Z.eqb 0) (a_strides a)
               then x <~ np_ascontiguousarray a ;; ret (a_id x, x)
               else ret (a_id a, a)) ;;
      let '(data_id, data) := step in
      let base := match a_base data with
                  | BaseArray b => get_array_base b
                  | _ => data
                  end in
      if negb (forc base)
      then x <~ np_ascontiguousarray data ;; ret (a_id x, x)
      else ret (data_id, data)) w).

(** The world after [e] has been recorded. *)
Definition logged (e : event) (w : world) : world :=
mk_world (w_next w) (w_closed w) (w_released w) (e :: w_events w).

(** The world after [n] identities have been drawn. *)
Definition drawn (n : nat) (w : world) : world :=
mk_world (n + w_next w) (w_closed w) (w_released w) (w_events w).

(** The storage kind the configuration asks for, before the threshold. *)
Definition requested_storage (cfg : config) (options : Options) : string :=
match all_array_storage cfg with
| Some kind => kind
| None => storage_type options
end.


(** The events by which [to_tree] hands data to the block provider. *)
Definition requests_block (e : event) : bool :=
match e with
| MakeWriteBlock _ _ _ | SetStreamedBlock _ _ => true
| _ => false
end.

(** A run with [messages] yielded after those of [r]. *)
Definition with_yielded (r : run) (messages : list string) : run :=
mk_run (yielded r ++ messages) (candidate r) (r_world r).

(** A step of a validator that leaves the candidate and the world alone. *)
Definition keeps {A : Type} (m : G A) : Prop :=
forall r, candidate (snd (m r)) = candidate r /\ r_world (snd (m r)) = r_world r.

(** * Properties *)

(** ** Type-descriptor codec *)

(** Induction over dtypes that reaches the fields of a structured dtype. *)
Lemma np_dtype_nested_ind (P : np_dtype -> Prop) :
  (forall k bo, P (DScalar k bo)) ->
  (forall n, P (DBytes n)) ->
  (forall n bo, P (DUnicode n bo)) ->
  (forall base shape, P base -> P (DSubarray base shape)) ->
  (forall fields size,
     Forall (fun f => P (fst (snd f))) fields -> P (DStruct fields size)) ->
  forall d, P d.
Proof.
intros Hs Hb Hu Hsub Hst. fix IH 1. intros [k bo|n|n bo|base shape|fields size].
- apply Hs.
- apply Hb.
- apply Hu.
- apply Hsub, IH.
- apply Hst. induction fields as [|[name [f o]] fields IHf]; constructor.
  + apply IH.
  + exact IHf.
Qed.

Lemma representable_struct fs size :
  representable (DStruct fs size)
  = names_ok [] fs && packed 0 fs size && forallb (fun f => field_ok (fst (snd f))) fs.
Proof.
simpl. f_equal.
induction fs as [|[name [f o]] fs IH]; [reflexivity|].
simpl. rewrite IH. destruct f; reflexivity.
Qed.

Lemma dict_get_with_get {B} (g : node -> B) key d :
  dict_get_with g key d = option_map g (dict_get key d).
Proof.
induction d as [|[k v] d IH]; [reflexivity|].
simpl. destruct (String.eqb k key); [reflexivity|exact IH].
Qed.

Lemma decode_record_dicts d rest bo :
  asdf_datatype_to_numpy_dtype (NList (NDict d :: rest)) bo
  = (entries <- for_each (decode_entry (norm_byteorder bo)) (NDict d :: rest) ;;
     t <- dtype_of_list entries ;; Ok (AsDtype t)).
Proof.
destruct rest as [|y [|z t]]; reflexivity.
Qed.

Lemma decode_dict d bo :
  asdf_datatype_to_numpy_dtype (NDict d) bo
  = match dict_get "datatype" d with
    | None => Raise (ValueError "Field entry has no datatype")
    | Some v =>
       inner <- asdf_datatype_to_numpy_dtype v (dict_get_default "byteorder" (norm_byteorder bo) d) ;;
       let shape := dict_get_default "shape" NNone d in
       let name := dict_get_default "name" (NStr "") d in
        if is_none shape then Ok (AsField (py_str name) inner None)
        else
          shape <- py_tuple shape ;;
          Ok (AsField (py_str name) inner (Some shape))
    end.
Proof.
cbn [asdf_datatype_to_numpy_dtype]. rewrite dict_get_with_get.
destruct (dict_get "datatype" d); reflexivity.
Qed.

Lemma decode_field_entry name field desc bo other base :
  asdf_datatype_to_numpy_dtype desc (NStr bo) = Ok (AsDtype base) ->
  asdf_datatype_to_numpy_dtype (field_entry true name field desc bo) other
  = Ok (AsField name (AsDtype base) (field_shape_arg field)).
Proof.
intros H. unfold field_entry. rewrite decode_dict.
unfold field_shape_arg.
destruct (dtype_shape field) as [|z s]; cbn -[asdf_datatype_to_numpy_dtype]; rewrite H; cbn; rewrite py_str_of_str; reflexivity.
Qed.

Lemma host_cases : sys_byteorder = Little \/ sys_byteorder = Big.
Proof. destruct sys_byteorder; auto. Qed.

Lemma roundtrips_scalar k bo : roundtrips (DScalar k bo).
Proof.
unfold roundtrips.
destruct host_cases as [E|E];
destruct k, bo; cbn; rewrite ?E; cbn; intros H; try discriminate H;
  eexists; eexists; (split; [reflexivity|]); cbn; rewrite ?E; reflexivity.
Qed.

Lemma prefix_empty (s : string) : prefix "" s = true.
Proof. destruct s; reflexivity. Qed.

Lemma prefix_ing_digits (z : Z) : prefix "ing" (str_of_int z) = false.
Proof.
unfold str_of_int, NilZero.string_of_int.
destruct (Z.to_int z) as [d|d]; [destruct d; reflexivity | reflexivity].
Qed.

Lemma roundtrips_bytes n : roundtrips (DBytes n).
Proof.
unfold roundtrips. cbn. intros H. apply Z.leb_le in H.
exists (NList [NStr "ascii"; NInt n]), "big"%string. split.
- destruct (n =? 0); [reflexivity|]. cbn. rewrite prefix_empty. reflexivity.
- cbn. unfold dtype_of_flexible.
  destruct (Z.ltb_spec n 0) as [L|L]; [lia|]. reflexivity.
Qed.

Lemma roundtrips_unicode n bo : roundtrips (DUnicode n bo).
Proof.
unfold roundtrips. cbn -[Z.quot Z.mul]. intros H.
apply andb_prop in H. destruct H as [Hn Hbo]. apply Z.leb_le in Hn.
assert (Hq : Z.quot (4 * n) 4 = n) by (rewrite Z.mul_comm; apply Z.quot_mul; lia).
exists (NList [NStr "ucs4"; NInt n]), (numpy_byteorder_to_asdf_byteorder bo None). split.
- destruct (n =? 0); cbn -[Z.quot Z.mul]; rewrite ?prefix_ing_digits; cbn -[Z.quot Z.mul]; rewrite ?prefix_empty, Hq; reflexivity.
- unfold stored_byteorder in Hbo.
  destruct host_cases as [E|E]; destruct bo; cbn in *; rewrite ?E in *; cbn in *;
    try discriminate Hbo;
  unfold dtype_of_flexible;
  destruct (Z.ltb_spec n 0) as [L|L]; try lia; cbn; rewrite ?E; reflexivity.
Qed.

Lemma representable_not_subarray d :
  representable d = true -> field_base d = d /\ field_ok d = true /\ dtype_shape d = [].
Proof. destruct d; cbn; intros H; try discriminate H; auto. Qed.

Lemma roundtrips_subarray base shape : roundtrips base -> roundtrips (DSubarray base shape).
Proof.
unfold roundtrips. intros IH H. cbn in H.
apply andb_prop in H. destruct H as [_ Hb].
destruct (representable_not_subarray _ Hb) as [Eb [Ho _]].
destruct (IH Ho) as [desc [bo [He Hd]]].
exists desc, bo. split.
- exact He.
- rewrite Hd, Eb. reflexivity.
Qed.

Lemma dims_of_sizes (s : list Z) :
  forallb (Z.leb 0) s = true -> dims_of_nodes (map NInt s) = Ok s.
Proof.
induction s as [|z s IH]; [reflexivity|].
cbn. intros H. apply andb_prop in H. destruct H as [Hz Hs].
apply Z.leb_le in Hz. destruct (Z.ltb_spec z 0) as [L|L]; [lia|].
cbn. rewrite (IH Hs). reflexivity.
Qed.

Lemma field_dtype_of_field (f : np_dtype) :
  field_ok f = true ->
  field_dtype (AsDtype (field_base f)) (field_shape_arg f) = Ok f.
Proof.
destruct f as [k bo|n|n bo|base shape|fs size]; try reflexivity.
cbn. intros H. apply andb_prop in H. destruct H as [H Hb].
apply andb_prop in H. destruct H as [Hne Hdims].
destruct shape as [|z shape]; [discriminate Hne|].
unfold field_shape_arg. cbn [dtype_shape]. cbn [field_dtype].
rewrite (dims_of_sizes _ Hdims). cbn.
destruct base; try reflexivity. discriminate Hb.
Qed.

Lemma pack_fields_packed (fs : list (string * (np_dtype * Z))) :
  forall (i : nat) (offset : Z) (seen : list string) (size : Z),
    names_ok seen fs = true ->
    packed offset fs size = true ->
    forallb (fun f => field_ok (fst (snd f))) fs = true ->
    pack_fields i offset seen (map field_spec fs) = Ok (fs, size).
Proof.
induction fs as [|[name [f o]] fs IH]; intros i offset seen size Hn Hp Hf.
- cbn in *. apply Z.eqb_eq in Hp. subst. reflexivity.
- cbn in Hn, Hp, Hf.
  apply andb_prop in Hn. destruct Hn as [Hn Hrest].
  apply andb_prop in Hn. destruct Hn as [Hne Hseen].
  apply andb_prop in Hp. destruct Hp as [Ho Hp]. apply Z.eqb_eq in Ho. subst o.
  apply andb_prop in Hf. destruct Hf as [Hf Hfs].
  cbn [map pack_fields field_spec fst snd].
  rewrite (field_dtype_of_field _ Hf). cbn [bind].
  apply negb_true_iff in Hne. rewrite Hne.
  apply negb_true_iff in Hseen. rewrite Hseen.
  rewrite (IH _ _ _ _ Hrest Hp Hfs). reflexivity.
Qed.

Lemma fields_roundtrip (fs : list (string * (np_dtype * Z))) :
  Forall (fun f => roundtrips (fst (snd f))) fs ->
  forallb (fun f => field_ok (fst (snd f))) fs = true ->
  exists entries,
    for_each (encode_field true None) fs = Ok entries
    /\ (fs <> [] -> exists d rest, entries = NDict d :: rest)
    /\ forall bo,
         for_each (decode_entry bo) entries = Ok (map field_spec fs).
Proof.
induction fs as [|[name [f o]] fs IH]; intros Hall Hok.
- exists []. repeat split; congruence.
- inversion Hall as [|x l Hf Hfs]; subst.
  cbn in Hok. apply andb_prop in Hok. destruct Hok as [Hokf Hokfs].
  destruct (IH Hfs Hokfs) as [entries [He [_ Hd]]].
  destruct (Hf Hokf) as [desc [bo [Henc Hdec]]]. cbn [fst snd] in Henc, Hdec.
  exists (field_entry true name f desc bo :: entries). repeat split.
  + cbn [for_each]. unfold encode_field at 1. cbn [fst snd]. rewrite Henc.
    cbn [bind]. rewrite He. reflexivity.
  + intros _. unfold field_entry. eauto.
  + intros other. cbn [for_each]. unfold decode_entry at 1.
    rewrite (decode_field_entry name f desc bo other _ Hdec). cbn [bind record_entry].
    rewrite Hd. reflexivity.
Qed.

Lemma encode_struct fs size ib ov :
  numpy_dtype_to_asdf_datatype (DStruct fs size) ib ov
  = (fields <- for_each (encode_field ib ov) fs ;;
     Ok (NList fields, numpy_byteorder_to_asdf_byteorder BoNA ov)).
Proof. reflexivity. Qed.

Lemma roundtrips_struct fs size :
  Forall (fun f => roundtrips (fst (snd f))) fs -> roundtrips (DStruct fs size).
Proof.
intros Hall. unfold roundtrips. unfold field_ok. rewrite representable_struct.
intros H. apply andb_prop in H. destruct H as [H Hok].
apply andb_prop in H. destruct H as [Hn Hp].
destruct (fields_roundtrip fs Hall Hok) as [entries [He [Hd Hdec]]].
exists (NList entries), "big"%string. split.
- rewrite encode_struct, He. reflexivity.
- cbn [field_base]. destruct fs as [|nf fs].
  + cbn in He. injection He as <-. cbn in Hp. apply Z.eqb_eq in Hp. subst size.
    reflexivity.
  + destruct Hd as [d [rest ->]]; [discriminate|].
    rewrite decode_record_dicts, Hdec. cbn [bind]. unfold dtype_of_list.
    rewrite (pack_fields_packed _ _ _ _ _ Hn Hp Hok). reflexivity.
Qed.

(** C1: round trip of the type-descriptor codec.  For every representable
    native type [T], [numpy_dtype_to_asdf_datatype] succeeds, and
    [asdf_datatype_to_numpy_dtype] applied to the descriptor and byte order
    it returned yields [T] again. *)
Theorem codec_roundtrip (T : np_dtype) :
  representable T = true ->
  exists desc byteorder,
    numpy_dtype_to_asdf_datatype T true None = Ok (desc, byteorder)
    /\ asdf_datatype_to_numpy_dtype desc (NStr byteorder) = Ok (AsDtype T).
Proof.
intros H. destruct (representable_not_subarray _ H) as [Eb [Hok _]].
assert (R : roundtrips T).
{ clear H Eb Hok. induction T using np_dtype_nested_ind.
  - apply roundtrips_scalar.
  - apply roundtrips_bytes.
  - apply roundtrips_unicode.
  - apply roundtrips_subarray; assumption.
  - apply roundtrips_struct; assumption. }
destruct (R Hok) as [desc [bo [He Hd]]]. rewrite Eb in Hd. eauto.
Qed.

(** ** Shape resolver *)

Lemma count_star_sizes (dims : list Z) : count_star (map NInt dims) = 0%nat.
Proof. induction dims as [|z dims IH]; [reflexivity | exact IH]. Qed.

Lemma count_star_head (first : node) (rest : list node) :
  count_star (first :: rest)
  = ((if is_star first then 1 else 0) + count_star rest)%nat.
Proof. unfold count_star. simpl. destruct (is_star first); reflexivity. Qed.

Lemma is_star_true (x : node) : is_star x = true -> x = star.
Proof.
destruct x as [| | | |s| | |]; simpl; try discriminate.
intros H. apply String.eqb_eq in H. subst s. reflexivity.
Qed.

Lemma fits_int64_spec (z : Z) :
  fits_int64 z = true <-> - 2 ^ 63 <= z < 2 ^ 63.
Proof.
unfold fits_int64. rewrite andb_true_iff, Z.leb_le, Z.ltb_lt. reflexivity.
Qed.

Lemma exact_float_spec (z : Z) : exact_float z = true <-> Z.abs z < 2 ^ 53.
Proof. unfold exact_float. apply Z.ltb_lt. Qed.

Lemma exact_float_fits (z : Z) : exact_float z = true -> fits_int64 z = true.
Proof.
rewrite exact_float_spec, fits_int64_spec. intros H.
change (2 ^ 53) with 9007199254740992 in H.
change (2 ^ 63) with 9223372036854775808. lia.
Qed.

Lemma wrap64_fits (z : Z) : fits_int64 z = true -> wrap64 z = z.
Proof.
rewrite fits_int64_spec. unfold wrap64.
change (2 ^ 63) with 9223372036854775808.
change (2 ^ 64) with 18446744073709551616.
intros H. rewrite Z.mod_small; lia.
Qed.

Lemma int64_sizes_ints (dims : list Z) :
  forallb fits_int64 dims = true -> int64_sizes (map NInt dims) = Some dims.
Proof.
induction dims as [|z dims IH]; [reflexivity|]. cbn [forallb map int64_sizes].
intros H. apply andb_prop in H. destruct H as [Hz Hrest].
rewrite Hz, (IH Hrest). reflexivity.
Qed.

(** The factors of a product that is not zero are no larger than it. *)
Lemma factors_fit (dims : list Z) (i : Z) :
  prod_Z dims * i <> 0 ->
  exact_float (prod_Z dims * i) = true ->
  forallb fits_int64 dims = true /\ exact_float i = true.
Proof.
induction dims as [|z dims IH]; cbn [prod_Z fold_right forallb].
- rewrite Z.mul_1_l. auto.
- fold (prod_Z dims). intros Hne Hex.
  replace (z * prod_Z dims * i) with (z * (prod_Z dims * i)) in * by ring.
  set (q := prod_Z dims * i) in *.
  rewrite exact_float_spec in Hex. rewrite Z.abs_mul in Hex.
  assert (Hz : z <> 0) by (intros ->; apply Hne; ring).
  assert (Hq : q <> 0) by (intros E; apply Hne; rewrite E; ring).
  assert (Hq' : exact_float q = true) by (apply exact_float_spec; nia).
  destruct (IH Hq Hq') as [H1 H2]. rewrite H1, andb_true_r. split; [|exact H2].
  apply exact_float_fits. apply exact_float_spec. nia.
Qed.

Lemma np_stride_sizes (dims : list Z) (d : np_dtype) :
  forallb fits_int64 dims = true ->
  fits_int64 (itemsize d) = true ->
  np_stride (map NInt dims) (Some (AsDtype d))
  = Ok match dims with
       | [] => NpFloat64 (itemsize d)
       | _ => NpInt64 (wrap64 (prod_Z dims * itemsize d))
       end.
Proof.
intros Hd Hi. unfold np_stride. rewrite (int64_sizes_ints dims Hd).
destruct dims as [|z dims]; cbn [dtype_itemsize bind]; [reflexivity|].
rewrite Hi. reflexivity.
Qed.

(** The resolver on sizes without recorded strides, where the stride is
    below 2^53 in size: the quotient, and what a zero stride raises. *)
Lemma get_actual_shape_product (dims : list Z) (d : np_dtype) (block_size : Z) :
  prod_Z dims * itemsize d <> 0 ->
  exact_float (prod_Z dims * itemsize d) = true ->
  exact_float block_size = true ->
  get_actual_shape (star :: map NInt dims) NNone (Some (AsDtype d)) block_size
  = Ok (NInt (Z.quot block_size (prod_Z dims * itemsize d)) :: map NInt dims).
Proof.
intros Hne Hex Hb. destruct (factors_fit dims (itemsize d) Hne Hex) as [Hd Hi].
unfold get_actual_shape. rewrite count_star_head, count_star_sizes.
cbn [is_star star String.eqb Ascii.eqb Bool.eqb Nat.add Nat.eqb negb is_none].
rewrite (np_stride_sizes dims d Hd (exact_float_fits _ Hi)). cbn [bind].
destruct dims as [|z dims].
- cbn [prod_Z fold_right] in *. rewrite Z.mul_1_l in *.
  unfold int_truediv. destruct (Z.eqb_spec (itemsize d) 0) as [E|_]; [contradiction|].
  rewrite Hb, Hex. reflexivity.
- rewrite (wrap64_fits _ (exact_float_fits _ Hex)).
  unfold int_truediv.
  destruct (Z.eqb_spec (prod_Z (z :: dims) * itemsize d) 0) as [E|_]; [contradiction|].
  rewrite Hb, Hex. reflexivity.
Qed.

Lemma get_actual_shape_zero_product (dims : list Z) (d : np_dtype) (block_size : Z) :
  forallb fits_int64 dims = true ->
  fits_int64 (itemsize d) = true ->
  prod_Z dims * itemsize d = 0 ->
  fits_int64 block_size = true ->
  get_actual_shape (star :: map NInt dims) NNone (Some (AsDtype d)) block_size
  = Raise (if block_size =? 0
           then ValueError "cannot convert float NaN to integer"
           else OverflowError).
Proof.
intros Hd Hi Hz Hb.
unfold get_actual_shape. rewrite count_star_head, count_star_sizes.
cbn [is_star star String.eqb Ascii.eqb Bool.eqb Nat.add Nat.eqb negb is_none].
rewrite (np_stride_sizes dims d Hd Hi). cbn [bind].
destruct dims as [|z dims].
- cbn [prod_Z fold_right] in Hz. rewrite Z.mul_1_l in Hz. rewrite Hz.
  unfold int_truediv. cbn [Z.eqb]. rewrite Hb.
  destruct (block_size =? 0); reflexivity.
- rewrite Hz. change (wrap64 0) with 0.
  unfold int_truediv. cbn [Z.eqb]. rewrite Hb.
  destruct (block_size =? 0); reflexivity.
Qed.

(** The resolver on sizes with recorded strides whose first entry is an
    integer. *)
Lemma get_actual_shape_strides
  (dims : list Z) (stride : Z) (more : list node) (dtype : option dtype_like)
  (block_size : Z) :
  get_actual_shape (star :: map NInt dims) (NList (NInt stride :: more)) dtype block_size
  = if stride =? 0 then Raise ZeroDivisionError
    else if exact_float block_size && exact_float stride
         then Ok (NInt (Z.quot block_size stride) :: map NInt dims)
         else (missing <- float_quotient block_size (PyStride (NInt stride)) ;;
               Ok (NInt missing :: map NInt dims)).
Proof.
unfold get_actual_shape. rewrite count_star_head, count_star_sizes.
cbn [is_star star String.eqb Ascii.eqb Bool.eqb Nat.add Nat.eqb negb is_none
     strides_first bind].
unfold int_truediv. destruct (stride =? 0); [reflexivity|].
destruct (exact_float block_size && exact_float stride); reflexivity.
Qed.


(** ** The lazy array view *)

(** C9: on an unmaterialized view whose shape spec holds no wildcard, the
    [shape] accessor returns the spec and leaves the view and the world as
    they were: the cache stays empty and no call to the storage source is
    recorded. *)
Theorem shape_without_wildcard_is_lazy (v : view) (w : world) (spec : list node) :
  _array v = None ->
  _shape v = NList spec ->
  existsb is_star spec = false ->
  shape (v, w) = (Ok spec, (v, w))
  /\ _array (fst (snd (shape (v, w)))) = None
  /\ w_events (snd (snd (shape (v, w)))) = w_events w.
Proof.
intros Ha Hs Hstar.
assert (E : shape (v, w) = (Ok spec, (v, w))).
{ unfold shape, bindS, self, lift. cbn [fst snd].
  rewrite Ha, Hs. cbn. rewrite Hstar. reflexivity. }
rewrite E. cbn. auto.
Qed.

(** C7: the three outcomes of [__setitem__].  When the assignment on the
    materialized array raises, the same exception is raised and the cache is
    cleared; so it is when materializing raises; when the assignment
    succeeds the cache holds the array that was assigned to. *)
Theorem setitem_clears_cache_on_failure (v : view) (w : world) (args : list node) :
  (forall a v1 w1 e,
     _make_array (v, w) = (Ok a, (v1, w1)) ->
     np_setitem a args = Raise e ->
     __setitem__ args (v, w) = (Raise e, (set_array v1 None, w1)))
  /\ (forall v1 w1 e,
        _make_array (v, w) = (Raise e, (v1, w1)) ->
        __setitem__ args (v, w) = (Raise e, (set_array v1 None, w1)))
  /\ (forall a v1 w1 data,
        _make_array (v, w) = (Ok a, (v1, w1)) ->
        np_setitem a args = Ok data ->
        __setitem__ args (v, w)
        = (Ok tt, (set_array v1 (Some (with_data a data)), w1))
        /\ a_id (with_data a data) = a_id a).
Proof.
split; [|split].
- intros a v1 w1 e Hm Hs. unfold __setitem__, try_except, bindS.
  rewrite Hm. unfold lift. rewrite Hs. reflexivity.
- intros v1 w1 e Hm. unfold __setitem__, try_except, bindS.
  rewrite Hm. reflexivity.
- intros a v1 w1 data Hm Hs. split; [|reflexivity].
  unfold __setitem__, try_except, bindS.
  rewrite Hm. unfold lift. rewrite Hs. reflexivity.
Qed.

Lemma bindS_ok {S A B : Type} (m : St S A) (k : A -> St S B) (s s' : S) (b : B) :
  bindS m k s = (Ok b, s') ->
  exists a s1, m s = (Ok a, s1) /\ k a s1 = (Ok b, s').
Proof.
unfold bindS. destruct (m s) as [[a|e] s1]; intros H; [eauto | discriminate H].
Qed.

Lemma lift_ok {S A : Type} (r : result A) (s s' : S) (a : A) :
  lift r s = (Ok a, s') -> r = Ok a /\ s' = s.
Proof. unfold lift. intros H. inversion H. auto. Qed.

Lemma alloc_ok (a r : ndarray) (w w' : world) :
  alloc a w = (Ok r, w') ->
  r = with_id (w_next w) a /\ w_next w' = S (w_next w).
Proof. unfold alloc, bindS, fresh, ret. intros H. inversion H. auto. Qed.

Lemma in_world_ok {A : Type} (m : M A) (s s' : view * world) (a : A) :
  in_world m s = (Ok a, s') ->
  m (snd s) = (Ok a, snd s') /\ fst s' = fst s.
Proof.
unfold in_world. destruct (m (snd s)) as [r w1] eqn:E. intros H.
inversion H. subst. auto.
Qed.

Lemma ma_array_fresh (a r : ndarray) (bits : list bool) (w w' : world) :
  ma_array a bits w = (Ok r, w') ->
  a_id r = w_next w /\ w_next w' = S (w_next w).
Proof.
unfold ma_array. intros H. apply bindS_ok in H. destruct H as [b [w1 [H1 H2]]].
assert (w1 = w).
{ destruct (Nat.eqb (List.length bits) 1); [inversion H1; reflexivity|].
  destruct (Nat.eqb (List.length bits) (elems_count (a_data a)));
    inversion H1; reflexivity. }
subst w1. apply alloc_ok in H2. destruct H2 as [-> H2]. auto.
Qed.

Lemma apply_mask_fresh (a r : ndarray) (mask : node) (w w' : world) :
  (forall ref m, array_objects ref = Some m -> grows m) ->
  _apply_mask a mask w = (Ok r, w') ->
  (r = a /\ w' = w) \/ ((w_next w <= a_id r)%nat /\ (a_id r < w_next w')%nat).
Proof.
intros Hobj H. unfold _apply_mask in H.
assert (Hscalar : forall value,
  (nan <~ lift (scalar_isnan value) ;;
   if nan then bits <~ lift (np_isnan (a_data a)) ;; ma_array a bits
   else ma_masked_values a value) w = (Ok r, w') ->
  (w_next w <= a_id r)%nat /\ (a_id r < w_next w')%nat).
{ intros value Hv. apply bindS_ok in Hv. destruct Hv as [nan [w1 [H1 H2]]].
  apply lift_ok in H1. destruct H1 as [_ ->].
  destruct nan.
  - apply bindS_ok in H2. destruct H2 as [bits [w2 [H2 H3]]].
    apply lift_ok in H2. destruct H2 as [_ ->].
    apply ma_array_fresh in H3. lia.
  - unfold ma_masked_values in H2. apply bindS_ok in H2.
    destruct H2 as [bits [w2 [H2 H3]]]. apply lift_ok in H2. destruct H2 as [_ ->].
    apply alloc_ok in H3. destruct H3 as [-> H3]. cbn. lia. }
destruct mask as [|b|z|f|s|l|d|ref]; cbv beta iota delta [scalar_of_node] in H;
  try (inversion H; subst; left; split; reflexivity);
  try (right; eapply Hscalar; exact H).
destruct (array_objects ref) as [m|] eqn:Em.
- right. apply bindS_ok in H. destruct H as [x [w1 [H1 H2]]].
  apply bindS_ok in H2. destruct H2 as [y [w2 [H2 H3]]].
  apply alloc_ok in H2. destruct H2 as [_ H2].
  apply ma_array_fresh in H3. destruct H3 as [H3 H4].
  pose proof (Hobj ref m Em w) as G. rewrite H1 in G. cbn in G. lia.
- inversion H; subst. left. split; reflexivity.
Qed.

Lemma np_ndarray_fresh shape dt buffer offset strides order (r : ndarray) (w w' : world) :
  np_ndarray shape dt buffer offset strides order w = (Ok r, w') ->
  a_id r = w_next w /\ w_next w' = S (w_next w).
Proof.
unfold np_ndarray. intros H.
do 5 (apply bindS_ok in H; destruct H as [? [? [H1 H]]];
      apply lift_ok in H1; destruct H1 as [_ ->]).
apply alloc_ok in H. destruct H as [-> H]. auto.
Qed.

Lemma make_array_rebuilds (v : view) (w : world) (r : ndarray) (s : view * world) :
  _array v = None ->
  _make_array (v, w) = (Ok r, s) ->
  _array (fst s) = Some r
  /\ _source (fst s) = _source v
  /\ (source_grows v ->
      (forall ref m, array_objects ref = Some m -> grows m) ->
      (w_next w <= a_id r)%nat).
Proof.
intros Hnone H. unfold _make_array in H.
unfold bindS at 1 in H. cbn [self fst] in H.
unfold bindS at 1 in H. cbn [the_world snd] in H.
rewrite Hnone in H.
unfold bindS at 1 in H. cbn [ret] in H.
unfold bindS at 1 in H. cbn [self fst] in H. rewrite Hnone in H.
apply bindS_ok in H. destruct H as [data [[v1 w1] [Hd H]]].
apply in_world_ok in Hd. cbn [fst snd] in Hd. destruct Hd as [Hd ->].
unfold bindS at 1 in H. cbn [the_world snd] in H.
destruct data as [d|n|n]; try discriminate H.
destruct (on_closed_mmap d w1); [discriminate H|].
apply bindS_ok in H. destruct H as [shape [[v2 w2] [Hs H]]].
apply lift_ok in Hs. destruct Hs as [_ Hs]. inversion Hs. subst v2 w2. clear Hs.
apply bindS_ok in H. destruct H as [a [[v2 w2] [Ha H]]].
apply in_world_ok in Ha. cbn [fst snd] in Ha. destruct Ha as [Ha ->].
apply np_ndarray_fresh in Ha. destruct Ha as [Hid Hw2].
unfold bindS at 1 in H. cbn [assign_array fst snd] in H.
apply bindS_ok in H. destruct H as [a' [[v3 w3] [Hm H]]].
apply in_world_ok in Hm. cbn [fst snd] in Hm. destruct Hm as [Hm ->].
unfold bindS at 1 in H. cbn [assign_array fst snd ret] in H.
inversion H. subst. cbn. split; [reflexivity|]. split; [reflexivity|].
intros Hsrc Hobj.
assert (Hw1 : (w_next w <= w_next w1)%nat).
{ unfold source_grows in Hsrc. destruct (_source v) as [n|cb].
  - inversion Hd.
  - unfold call_source, bindS, emit in Hd.
    match type of Hd with cb_call cb ?a ?w0 = _ =>
      pose proof (Hsrc a w0) as G; rewrite Hd in G; cbn in G end. exact G. }
apply (apply_mask_fresh _ _ _ _ _ Hobj) in Hm.
destruct Hm as [[-> ->]|[Hm _]]; lia.
Qed.

Lemma make_array_stale (v : view) (w : world) (a : ndarray) :
  _array v = Some a ->
  stale a w = true ->
  _make_array (v, w) = _make_array (set_array v None, w).
Proof.
intros Ha Hst. unfold stale in Hst.
unfold _make_array at 1. unfold bindS at 1. cbn [self fst].
unfold bindS at 1. cbn [the_world snd]. rewrite Ha, Hst.
unfold bindS at 1. cbn [assign_array fst snd].
unfold _make_array. unfold bindS at 4. cbn [self fst].
unfold bindS at 4. cbn [the_world snd]. cbn [set_array _array].
unfold bindS at 4. cbn [ret]. reflexivity.
Qed.

Lemma make_array_fresh_cache (v : view) (w : world) (a : ndarray) :
  _array v = Some a ->
  stale a w = false ->
  _make_array (v, w) = (Ok a, (v, w)).
Proof.
intros Ha Hst. unfold stale in Hst.
unfold _make_array, bindS, self, the_world. cbn [fst snd].
rewrite Ha, Hst. cbn. rewrite Ha. reflexivity.
Qed.

Lemma make_array_caches (v : view) (w : world) (r : ndarray) (s : view * world) :
  _make_array (v, w) = (Ok r, s) ->
  _array (fst s) = Some r /\ _source (fst s) = _source v.
Proof.
intros H. destruct (_array v) as [a|] eqn:Ha.
- destruct (stale a w) eqn:Hst.
  + rewrite (make_array_stale v w a Ha Hst) in H.
    apply make_array_rebuilds in H; [|reflexivity].
    destruct H as [H1 [H2 _]]. split; [exact H1 | exact H2].
  + rewrite (make_array_fresh_cache v w a Ha Hst) in H.
    inversion H. subst. cbn. auto.
- apply make_array_rebuilds in H; [|exact Ha].
  destruct H as [H1 [H2 _]]. auto.
Qed.

(** C5: the cache of [_make_array].  A successful call leaves its result in
    the cache.  While the cached array does not rest on a closed memory map,
    every call returns that very array and changes nothing.  Once its memory
    map is closed, the call behaves as on a view that was never
    materialized: it builds the array again from the storage source, and
    the array it returns is a new object, not the cached one. *)
Theorem make_array_cache (v : view) (w : world) :
  (forall r s, _make_array (v, w) = (Ok r, s) -> _array (fst s) = Some r)
  /\ (forall a,
        _array v = Some a ->
        stale a w = false ->
        _make_array (v, w) = (Ok a, (v, w)))
  /\ (forall a,
        _array v = Some a ->
        stale a w = true ->
        _make_array (v, w) = _make_array (set_array v None, w)
        /\ ((a_id a < w_next w)%nat ->
            source_grows v ->
            (forall ref m, array_objects ref = Some m -> grows m) ->
            forall r s,
              _make_array (v, w) = (Ok r, s) ->
              (a_id a < a_id r)%nat /\ _array (fst s) = Some r)).
Proof.
split; [|split].
- intros r s H. exact (proj1 (make_array_caches v w r s H)).
- intros a Ha Hst. exact (make_array_fresh_cache v w a Ha Hst).
- intros a Ha Hst. split; [exact (make_array_stale v w a Ha Hst)|].
  intros Hid Hsrc Hobj r s Hr.
  rewrite (make_array_stale v w a Ha Hst) in Hr.
  apply make_array_rebuilds in Hr; [|reflexivity].
  destruct Hr as [Hc [_ Hn]]. specialize (Hn Hsrc Hobj). split; [lia | exact Hc].
Qed.

Lemma shape_eq_star (dims : list Z) (rest : list node) :
  shape_eq dims (star :: rest) = false.
Proof. destruct dims as [|n dims]; reflexivity. Qed.

Lemma inline_shape_mismatch_star (a : ndarray) (rest : list node) :
  inline_shape_mismatch a (NList (star :: rest)) = Ok true.
Proof.
unfold inline_shape_mismatch. cbn [is_none shape_items bind].
rewrite shape_eq_star. cbn [negb]. rewrite orb_true_r. reflexivity.
Qed.

(** C2: what [__init__] does with inline data and a declared shape that
    starts with the wildcard.  The constructor never returns a view: once
    the literal is materialized and masked, the shape test raises
    [ValueError] whatever the dimensions of the array are, also when its
    trailing dimensions equal the declared ones, because the array's shape
    is compared with the whole declared shape, wildcard included. *)
Theorem init_inline_wildcard_shape_raises
  (l rest : list node) (dtype : option dtype_like)
  (offset strides order mask : node) (w : world) :
  (exists e,
     fst (__init__ (SrcNode (NList l)) (NList (star :: rest)) dtype
                   offset strides order mask w) = Raise e)
  /\ (forall a a' w1 w2,
        inline_data_asarray (NList l) dtype
          (mk_world (S (w_next w)) (w_closed w) (w_released w) (w_events w))
        = (Ok a, w1) ->
        _apply_mask a mask w1 = (Ok a', w2) ->
        shape_eq (tl (a_shape a')) rest = true ->
        __init__ (SrcNode (NList l)) (NList (star :: rest)) dtype
                 offset strides order mask w
        = (Raise (ValueError "inline data doesn't match the given shape"), w2)).
Proof.
assert (Hm : forall a a' w1 w2,
        inline_data_asarray (NList l) dtype
          (mk_world (S (w_next w)) (w_closed w) (w_released w) (w_events w))
        = (Ok a, w1) ->
        _apply_mask a mask w1 = (Ok a', w2) ->
        __init__ (SrcNode (NList l)) (NList (star :: rest)) dtype
                 offset strides order mask w
        = (Raise (ValueError "inline data doesn't match the given shape"), w2)).
{ intros a a' w1 w2 Ha Hm. unfold __init__.
  unfold bindS at 1. cbn [fresh].
  unfold bindS at 1. unfold bindS at 1. rewrite Ha.
  unfold bindS at 1. rewrite Hm.
  unfold bindS at 1. unfold lift. rewrite inline_shape_mismatch_star.
  reflexivity. }
split.
- destruct (inline_data_asarray (NList l) dtype
      (mk_world (S (w_next w)) (w_closed w) (w_released w) (w_events w)))
    as [[a|e] w1] eqn:Ha.
  + destruct (_apply_mask a mask w1) as [[a'|e] w2] eqn:Hk.
    * rewrite (Hm a a' w1 w2 eq_refl Hk). cbn. eauto.
    * unfold __init__. unfold bindS at 1. cbn [fresh].
      unfold bindS at 1. unfold bindS at 1. rewrite Ha.
      unfold bindS at 1. rewrite Hk. cbn. eauto.
  + unfold __init__. unfold bindS at 1. cbn [fresh].
    unfold bindS at 1. unfold bindS at 1. rewrite Ha. cbn. eauto.
- intros a a' w1 w2 Ha Hk _. exact (Hm a a' w1 w2 Ha Hk).
Qed.

(** ** Mask application *)

Lemma length_or_false (bits : list bool) :
  existsb (fun b => b) bits = false -> bits = repeat false (List.length bits).
Proof.
induction bits as [|b bits IH]; [reflexivity|].
cbn. destruct b; [discriminate|]. intros H. rewrite <- (IH H). reflexivity.
Qed.

Lemma ma_array_bits (a : ndarray) (bits : list bool) (w : world) :
  a_mask a = NotMasked ->
  List.length bits = elems_count (a_data a) ->
  exists r w',
    ma_array a bits w = (Ok r, w')
    /\ mask_bits r = bits /\ a_data r = a_data a /\ a_base r = BaseArray a.
Proof.
intros Hm Hl. unfold ma_array. rewrite Hm, Hl.
destruct (Nat.eqb (elems_count (a_data a)) 1) eqn:E1.
- apply Nat.eqb_eq in E1. rewrite E1 in Hl.
  destruct bits as [|b [|c bits]]; try discriminate Hl.
  rewrite E1. cbn. eexists. eexists. repeat split.
- rewrite Nat.eqb_refl. cbn. eexists. eexists. repeat split.
Qed.

Lemma ma_masked_values_bits (a : ndarray) (value : scalar) (bits : list bool) (w : world) :
  masked_values_bits a value = Some bits ->
  List.length bits = elems_count (a_data a) ->
  exists r w',
    ma_masked_values a value w = (Ok r, w')
    /\ mask_bits r = bits /\ a_data r = a_data a.
Proof.
intros Hb Hl. unfold ma_masked_values, bindS, lift. rewrite Hb.
cbn. eexists. eexists. split; [reflexivity|].
assert (Hd : match a_mask a with NotMasked => a_data a | _ => a_data a end = a_data a)
  by (destruct (a_mask a); reflexivity).
split.
- unfold mask_bits. cbn. rewrite Hd.
  destruct (existsb (fun b => b) bits) eqn:E; [reflexivity|].
  rewrite <- Hl. symmetry. apply length_or_false. exact E.
- cbn. exact Hd.
Qed.

Lemma np_isnan_length (e : elems) (bits : list bool) :
  np_isnan e = Ok bits -> List.length bits = elems_count e.
Proof.
destruct e; cbn; intros H; inversion H; apply length_map.
Qed.

Lemma int_range_isnan (k : scalar_kind) (lo hi z : Z) :
  int_range k = Some (lo, hi) -> lo <= z <= hi -> scalar_isnan (SInt z) = Ok false.
Proof.
intros Hr Hz. unfold scalar_isnan.
assert (H : - 2 ^ 63 <= z < 2 ^ 64) by (destruct k; inversion Hr; subst; cbn in *; lia).
destruct H as [H1 H2]. apply Z.leb_le in H1. apply Z.ltb_lt in H2.
rewrite H1, H2. reflexivity.
Qed.

Lemma float_of_Z_isnan (z : Z) (y : float) :
  float_of_Z z = Some y -> scalar_isnan (SInt z) = Ok false.
Proof.
unfold float_of_Z, scalar_isnan.
destruct (Z.ltb_spec (Z.abs z) (2 ^ 63)) as [H|H]; [|discriminate]. intros _.
assert (H1 : - 2 ^ 63 <= z) by lia.
assert (H2 : z < 2 ^ 64) by (change (2 ^ 64) with (2 * 2 ^ 63); lia).
apply Z.leb_le in H1. apply Z.ltb_lt in H2. rewrite H1, H2. reflexivity.
Qed.

(** C6, as the code has it: what [_apply_mask] does to a plain array.  An
    absent mask returns the array itself and creates nothing.  A NaN mask
    marks exactly the elements that are NaN, which on an array of integers
    or booleans is none.  An integer that the element type of an integer
    array holds marks exactly the elements equal to it.  On an array of
    binary64 floats a float that is not NaN, or an integer of less than 64
    bits, marks the elements that [np.isclose] finds close to it (relative
    tolerance 1e-5, absolute tolerance 1e-8), not only the equal ones. *)
Theorem apply_mask_cases (array : ndarray) (w : world) :
  a_mask array = NotMasked ->
  _apply_mask array NNone w = (Ok array, w)
  /\ (forall f bits,
        PrimFloat.is_nan f = true ->
        np_isnan (a_data array) = Ok bits ->
        exists r w',
          _apply_mask array (NFloat f) w = (Ok r, w')
          /\ mask_bits r = bits)
  /\ (forall z l k bo lo hi,
        a_data array = IntElems l ->
        a_dtype array = DScalar k bo ->
        int_range k = Some (lo, hi) ->
        lo <= z <= hi ->
        exists r w',
          _apply_mask array (NInt z) w = (Ok r, w')
          /\ mask_bits r = map (fun x => x =? z) l)
  /\ (forall f l bo,
        PrimFloat.is_nan f = false ->
        a_data array = FloatElems l ->
        a_dtype array = DScalar Float64 bo ->
        exists r w',
          _apply_mask array (NFloat f) w = (Ok r, w')
          /\ mask_bits r = map (fun x => isclose x f) l)
  /\ (forall z y l bo,
        float_of_Z z = Some y ->
        a_data array = FloatElems l ->
        a_dtype array = DScalar Float64 bo ->
        exists r w',
          _apply_mask array (NInt z) w = (Ok r, w')
          /\ mask_bits r = map (fun x => isclose x y) l).
Proof.
intros Hm. split; [reflexivity|]. split; [|split; [|split]].
- intros f bits Hnan Hbits.
  destruct (ma_array_bits array bits w Hm (np_isnan_length _ _ Hbits))
    as [r [w' [H1 [H2 _]]]].
  exists r, w'. split; [|exact H2].
  unfold _apply_mask. cbn [scalar_of_node]. unfold bindS at 1. cbn [lift scalar_isnan].
  rewrite Hnan. unfold bindS at 1. rewrite Hbits. cbn [lift]. exact H1.
- intros z l k bo lo hi Hd Ht Hr Hz.
  destruct (ma_masked_values_bits array (SInt z) (map (fun x => x =? z) l) w)
    as [r [w' [H1 [H2 _]]]].
  { unfold masked_values_bits. rewrite Hm, Ht, Hd.
    destruct Hz as [Hlo Hhi]. apply Z.leb_le in Hlo. apply Z.leb_le in Hhi.
    destruct k; try discriminate Hr; rewrite Hr, Hlo, Hhi; reflexivity. }
  { rewrite Hd. cbn. apply length_map. }
  exists r, w'. split; [|exact H2].
  unfold _apply_mask. cbn [scalar_of_node]. unfold bindS at 1.
  rewrite (int_range_isnan k lo hi z Hr Hz). cbn [lift]. exact H1.
- intros f l bo Hnan Hd Ht.
  destruct (ma_masked_values_bits array (SFloat f) (map (fun x => isclose x f) l) w)
    as [r [w' [H1 [H2 _]]]].
  { unfold masked_values_bits. rewrite Hm, Ht, Hd. reflexivity. }
  { rewrite Hd. cbn. apply length_map. }
  exists r, w'. split; [|exact H2].
  unfold _apply_mask. cbn [scalar_of_node]. unfold bindS at 1. cbn [lift scalar_isnan].
  rewrite Hnan. exact H1.
- intros z y l bo Hy Hd Ht.
  destruct (ma_masked_values_bits array (SInt z) (map (fun x => isclose x y) l) w)
    as [r [w' [H1 [H2 _]]]].
  { unfold masked_values_bits. rewrite Hm, Ht, Hd, Hy. reflexivity. }
  { rewrite Hd. cbn. apply length_map. }
  exists r, w'. split; [|exact H2].
  unfold _apply_mask. cbn [scalar_of_node]. unfold bindS at 1.
  rewrite (float_of_Z_isnan z y Hy). cbn [lift]. exact H1.
Qed.

(** ** Serializer *)

Lemma np_ascontiguousarray_keeps (a : ndarray) (w : world) :
  a_shape a <> [] ->
  exists r w',
    np_ascontiguousarray a w = (Ok r, w')
    /\ a_shape r = a_shape a /\ a_dtype r = a_dtype a.
Proof.
intros Hs. unfold np_ascontiguousarray.
destruct (a_shape a) as [|n s] eqn:Es; [contradiction|].
destruct (c_contiguous a && true);
  [destruct (match a_mask a with NotMasked => negb (a_memmap a) | _ => false end)|];
  cbn; eexists; eexists; repeat split; auto.
Qed.

Lemma np_ascontiguousarray_shape (a : ndarray) (w : world) :
  exists r w',
    np_ascontiguousarray a w = (Ok r, w')
    /\ a_dtype r = a_dtype a
    /\ (a_shape a <> [] -> a_shape r = a_shape a).
Proof.
unfold np_ascontiguousarray.
destruct (a_shape a) as [|n s] eqn:Es.
- rewrite andb_false_r. cbn. eexists. eexists.
  split; [reflexivity|]. split; [reflexivity|]. intros H. contradiction.
- destruct (c_contiguous a && true);
    [destruct (match a_mask a with NotMasked => negb (a_memmap a) | _ => false end)|];
    cbn; eexists; eexists; repeat split; auto.
Qed.

Lemma to_tree_writes (a : ndarray) (cfg : config) (ctx : asdf_file) (w : world) :
  exists id d idb b w2,
    written a w = Ok (id, d)
    /\ a_dtype d = a_dtype a
    /\ (a_shape a <> [] -> a_shape d = a_shape a)
    /\ forall k : nat * ndarray * bool * (nat * ndarray) -> M (list (string * node)),
         (start <~ ret (a_id a, a, false) ;;
          let '(data_id, data, is_view) := start in
          step <~ (if existsb (Z.eqb 0) (a_strides data)
                   then x <~ np_ascontiguousarray data ;; ret (a_id x, x, false)
                   else ret (data_id, data, is_view)) ;;
          let '(data_id, data, is_view) := step in
          let base_of_data (data_id : nat) (data : ndarray) :=
            match a_base data with
            | BaseArray b => let base := get_array_base b in (a_id base, base)
            | _ => (data_id, data)
            end in
          step <~ (let '(base_id, base) := base_of_data data_id data in
                   if negb (forc base)
                   then x <~ np_ascontiguousarray data ;;
                        ret (a_id x, x, false, base_of_data (a_id x) x)
                   else ret (data_id, data, is_view, (base_id, base))) ;;
          k step) w
         = k (id, d, false, (idb, b)) w2.
Proof.
unfold written.
destruct (existsb (Z.eqb 0) (a_strides a)) eqn:Ez.
- destruct (np_ascontiguousarray_shape a w) as [r [w1 [H1 [H2 H3]]]].
  destruct (forc match a_base r with
                 | BaseArray b => get_array_base b
                 | _ => r
                 end) eqn:Ef.
  + exists (a_id r), r,
      (a_id match a_base r with BaseArray b => get_array_base b | _ => r end),
      match a_base r with BaseArray b => get_array_base b | _ => r end, w1.
    split; [|split; [exact H2|split; [exact H3|]]].
    * unfold bindS. rewrite H1. cbn [ret]. rewrite Ef. reflexivity.
    * intros k. unfold bindS at 1. cbn [ret]. rewrite Ez.
      unfold bindS at 1. unfold bindS at 1. rewrite H1. cbn [ret].
      unfold bindS at 1. destruct (a_base r); cbn [fst snd] in *; rewrite Ef; reflexivity.
  + destruct (np_ascontiguousarray_shape r w1) as [r2 [w2 [H4 [H5 H6]]]].
    exists (a_id r2), r2,
      (a_id match a_base r2 with BaseArray b => get_array_base b | _ => r2 end),
      match a_base r2 with BaseArray b => get_array_base b | _ => r2 end, w2.
    split; [|split; [congruence|split]].
    * unfold bindS. rewrite H1. cbn [ret]. rewrite Ef. cbn [negb]. rewrite H4. reflexivity.
    * intros Hs. rewrite H6; [exact (H3 Hs)|]. rewrite (H3 Hs). exact Hs.
    * intros k. unfold bindS at 1. cbn [ret]. rewrite Ez.
      unfold bindS at 1. unfold bindS at 1. rewrite H1. cbn [ret].
      unfold bindS at 1.
      destruct (a_base r); cbn [fst snd] in *; rewrite Ef; cbn [negb];
        unfold bindS at 1; rewrite H4; cbn [ret]; destruct (a_base r2); reflexivity.
- destruct (forc match a_base a with
                 | BaseArray b => get_array_base b
                 | _ => a
                 end) eqn:Ef.
  + exists (a_id a), a,
      (a_id match a_base a with BaseArray b => get_array_base b | _ => a end),
      match a_base a with BaseArray b => get_array_base b | _ => a end, w.
    split; [|split; [reflexivity|split; [reflexivity|]]].
    * unfold bindS. cbn [ret]. rewrite Ef. reflexivity.
    * intros k. unfold bindS at 1. cbn [ret]. rewrite Ez.
      unfold bindS at 1. cbn [ret].
      unfold bindS at 1. destruct (a_base a); cbn [fst snd] in *; rewrite Ef; reflexivity.
  + destruct (np_ascontiguousarray_shape a w) as [r2 [w2 [H4 [H5 H6]]]].
    exists (a_id r2), r2,
      (a_id match a_base r2 with BaseArray b => get_array_base b | _ => r2 end),
      match a_base r2 with BaseArray b => get_array_base b | _ => r2 end, w2.
    split; [|split; [exact H5|split; [exact H6|]]].
    * unfold bindS. cbn [ret]. rewrite Ef. cbn [negb]. rewrite H4. reflexivity.
    * intros k. unfold bindS at 1. cbn [ret]. rewrite Ez.
      unfold bindS at 1. cbn [ret].
      unfold bindS at 1.
      destruct (a_base a); cbn [fst snd] in *; rewrite Ef; cbn [negb];
        unfold bindS at 1; rewrite H4; cbn [ret]; destruct (a_base r2); reflexivity.
Qed.

Lemma set_first_star_ok (shape out : list node) :
  set_first_star shape = Ok out -> exists rest, out = star :: rest.
Proof. destruct shape; cbn; intros H; inversion H; eauto. Qed.

Lemma to_tree_streamed_payload (a : ndarray) (cfg : config) (ctx : asdf_file)
      (w w' : world) (result : list (string * node)) :
  (forall i data,
     written a w = Ok (i, data) ->
     storage_type (settle_options cfg (get_options ctx i) (a_size data))
     = "streamed"%string) ->
  to_tree (ObjArray a) cfg ctx w = (Ok result, w') ->
  (exists rest, dict_get "shape" result = Some (NList (star :: rest)))
  /\ dict_get "source" result = Some (NInt (-1)).
Proof.
intros Hst H.
destruct (to_tree_writes a cfg ctx w) as [id [d [idb [b [w2 [Hw [_ [_ Hk]]]]]]]].
specialize (Hst id d Hw).
unfold to_tree in H. rewrite Hk in H. clear Hk.
apply bindS_ok in H. destruct H as [opts [w3 [E3 H]]].
unfold bindS at 1 in E3. cbn [emit ret] in E3. inversion E3. subst opts w3. clear E3.
apply bindS_ok in H. destruct H as [u [w4 [E4 H]]]. clear E4 u.
rewrite Hst in H.
change (String.eqb "streamed" "inline") with false in H.
change (String.eqb "streamed" "streamed") with true in H.
cbn [negb] in H.
apply bindS_ok in H. destruct H as [[dt bo] [w5 [E5 H]]]. clear E5.
apply bindS_ok in H. destruct H as [sh [w6 [E6 H]]]. clear E6 sh.
apply bindS_ok in H. destruct H as [res [w7 [E7 H]]].
apply bindS_ok in E7. destruct E7 as [sh [w8 [E8 E7]]].
apply lift_ok in E8. destruct E8 as [E8 _].
apply set_first_star_ok in E8. destruct E8 as [rest ->].
apply bindS_ok in E7. destruct E7 as [src [w9 [E9 E7]]].
unfold bindS at 1 in E9. cbn [emit ret] in E9. inversion E9. subst src. clear E9.
inversion E7. subst res. clear E7.
match type of H with (if ?c then _ else _) _ = _ => destruct c end.
- apply bindS_ok in H. destruct H as [u [w10 [_ H]]].
  apply bindS_ok in H. destruct H as [m [w11 [_ H]]].
  inversion H. subst result. split; [exists rest|]; reflexivity.
- inversion H. subst result. split; [exists rest|]; reflexivity.
Qed.

Lemma to_tree_streamed_returns (a : ndarray) (cfg : config) (ctx : asdf_file)
        (w : world) (datatype : node) (byteorder : string) :
  (forall i data,
     written a w = Ok (i, data) ->
     storage_type (settle_options cfg (get_options ctx i) (a_size data))
     = "streamed"%string) ->
  a_shape a <> [] ->
  numpy_dtype_to_asdf_datatype (a_dtype a) true None = Ok (datatype, byteorder) ->
  exists result w',
    to_tree (ObjArray a) cfg ctx w = (Ok result, w')
    /\ dict_get "shape" result = Some (NList (star :: map NInt (tl (a_shape a))))
    /\ dict_get "source" result = Some (NInt (-1)).
Proof.
intros Hst Hshape Henc.
destruct (to_tree_writes a cfg ctx w) as [id [d [idb [b [w2 [Hw [Hdt [Hsh Hk]]]]]]]].
specialize (Hst id d Hw). specialize (Hsh Hshape).
unfold to_tree. rewrite Hk. clear Hk.
unfold bindS at 1. unfold bindS at 1. cbn [emit ret].
unfold bindS at 1. cbn [emit].
rewrite Hst.
change (String.eqb "streamed" "inline") with false.
change (String.eqb "streamed" "streamed") with true.
cbn [negb]. rewrite Hdt, Henc.
unfold bindS at 1. cbn [lift].
rewrite Hsh.
destruct (a_shape a) as [|n s] eqn:Es; [contradiction|].
cbn [map set_first_star tl].
unfold bindS at 1. cbn [lift].
unfold bindS at 1. unfold bindS at 1. cbn [lift].
unfold bindS at 1. unfold bindS at 1. cbn [emit ret].
match goal with |- context [if ?c then _ else ret ?res] =>
  destruct c; [cbn; eexists; eexists; split; [reflexivity|] | exists res; eexists; split; [reflexivity|]]
end.
- split; reflexivity.
- split; reflexivity.
Qed.

(** C8: serializing a concrete array whose storage kind comes out as
    "streamed".  [to_tree] writes the array it is given or a contiguous
    copy of it; when the options of the array it writes settle on
    "streamed", then, whatever the array and its size, a payload that
    [to_tree] returns has a ["shape"] that starts with the wildcard and the
    sentinel [-1] as ["source"]; and [to_tree] does return one for every
    array of at least one dimension whose element type has a descriptor,
    with the array's trailing dimensions after the wildcard. *)
Theorem to_tree_streamed (a : ndarray) (cfg : config) (ctx : asdf_file) (w : world) :
  (forall i data,
     written a w = Ok (i, data) ->
     storage_type (settle_options cfg (get_options ctx i) (a_size data))
     = "streamed"%string) ->
  (forall result w',
     to_tree (ObjArray a) cfg ctx w = (Ok result, w') ->
     (exists rest, dict_get "shape" result = Some (NList (star :: rest)))
     /\ dict_get "source" result = Some (NInt (-1)))
  /\ (forall datatype byteorder,
        a_shape a <> [] ->
        numpy_dtype_to_asdf_datatype (a_dtype a) true None = Ok (datatype, byteorder) ->
        exists result w',
          to_tree (ObjArray a) cfg ctx w = (Ok result, w')
          /\ dict_get "shape" result = Some (NList (star :: map NInt (tl (a_shape a))))
          /\ dict_get "source" result = Some (NInt (-1))).
Proof.
intros Hst. split.
- intros result w' H. exact (to_tree_streamed_payload a cfg ctx w w' result Hst H).
- intros datatype byteorder Hs He.
  exact (to_tree_streamed_returns a cfg ctx w datatype byteorder Hst Hs He).
Qed.

(** ** Reading a view from the tree *)

Lemma init_inline_source (l : list node) (shape : node) (dtype : option dtype_like)
      (offset strides order mask : node) (w w' : world) (v : view) :
  __init__ (SrcNode (NList l)) shape dtype offset strides order mask w = (Ok v, w') ->
  _source v = SrcNode (NList l) /\ exists a, _array v = Some a.
Proof.
unfold __init__. intros H.
apply bindS_ok in H. destruct H as [id [w1 [_ H]]].
apply bindS_ok in H. destruct H as [arr [w2 [Ha H]]].
inversion H. subst v w'. cbn. split; [reflexivity|].
apply bindS_ok in Ha. destruct Ha as [a [w3 [_ Ha]]].
apply bindS_ok in Ha. destruct Ha as [a' [w4 [_ Ha]]].
apply bindS_ok in Ha. destruct Ha as [bad [w5 [_ Ha]]].
destruct bad; [discriminate Ha|]. inversion Ha. eauto.
Qed.

Lemma call_method_ok {A : Type} (m : V A) (v v' : view) (w w' : world) (a : A) :
  call_method m v w = (Ok (a, v'), w') -> m (v, w) = (Ok a, (v', w')).
Proof.
unfold call_method. destruct (m (v, w)) as [[x|e] [v1 w1]]; intros H; inversion H.
reflexivity.
Qed.

(** A mapping node handed to [from_tree], where it carries its data as
    the format describes.  When ["source"] and ["data"] are both present
    with truthy values, [from_tree] raises [ValueError] and creates
    nothing.  When ["data"] is a list that is not empty and ["source"] is
    absent or falsy, the list is the inline source: a view that [from_tree]
    returns has that list as its source and holds the array materialized
    from it, and [from_tree] does return the view that [__init__] builds
    from the list when the document loads lazily. *)
Lemma from_tree_source_and_data (d : list (string * node)) (ctx : asdf_file) (w : world) :
  (truthy (dict_get_default "source" NNone d) = true ->
   truthy (dict_get_default "data" NNone d) = true ->
   from_tree (NDict d) ctx w
   = (Raise (ValueError "Both source and data may not be provided at the same time"), w))
  /\ (forall x l,
        dict_get "data" d = Some (NList (x :: l)) ->
        truthy (dict_get_default "source" NNone d) = false ->
        (forall v w',
           from_tree (NDict d) ctx w = (Ok v, w') ->
           _source v = SrcNode (NList (x :: l)) /\ exists a, _array v = Some a)
        /\ (forall dtype v w1,
              declared_dtype d dtype ->
              lazy_load ctx = true ->
              __init__ (SrcNode (NList (x :: l))) (dict_get_default "shape" NNone d)
                       dtype (dict_get_default "offset" (NInt 0) d)
                       (dict_get_default "strides" NNone d) (NStr "A")
                       (dict_get_default "mask" NNone d) w
              = (Ok v, w1) ->
              from_tree (NDict d) ctx w
              = (Ok v, mk_world (w_next w1) (w_closed w1) (w_released w1)
                               (SetArrayStorage (v_id v) "inline" :: w_events w1)))).
Proof.
split.
- intros Hs Hd. unfold from_tree. rewrite Hs, Hd. reflexivity.
- intros x l Hdata Hsrc.
  assert (Hd : dict_get_default "data" NNone d = NList (x :: l)).
  { unfold dict_get_default. rewrite Hdata. reflexivity. }
  split.
  + intros v w' H. unfold from_tree in H. rewrite Hsrc, Hd in H.
    cbn [andb truthy is_none negb is_int] in H.
    apply bindS_ok in H. destruct H as [bo [w1 [_ H]]].
    apply bindS_ok in H. destruct H as [dtype [w2 [_ H]]].
    apply bindS_ok in H. destruct H as [inst [w3 [Hi H]]].
    apply bindS_ok in Hi. destruct Hi as [inst' [w4 [Hi Hr]]].
    apply init_inline_source in Hi.
    apply bindS_ok in Hr. destruct Hr as [u [w5 [_ Hr]]].
    inversion Hr. subst inst' w5. clear Hr.
    destruct (negb (lazy_load ctx)).
    * apply bindS_ok in H. destruct H as [[r v'] [w6 [Hm H]]].
      inversion H. subst v w6. clear H. cbn [snd].
      apply call_method_ok in Hm. apply make_array_caches in Hm.
      cbn [fst] in Hm. destruct Hm as [Hc Hs]. rewrite Hs.
      split; [exact (proj1 Hi) | eauto].
    * inversion H. subst. exact Hi.
  + intros dtype v w1 Hdt Hlazy Hi. unfold from_tree. rewrite Hsrc, Hd.
    cbn [andb truthy is_none negb is_int].
    unfold bindS at 1. cbn [lift].
    unfold declared_dtype in Hdt.
    unfold bindS at 1.
    destruct (dict_get "datatype" d) as [datatype|].
    * destruct Hdt as [t [Ht ->]]. rewrite Ht. cbn [bind lift].
      unfold bindS at 1. unfold bindS at 1. rewrite Hi.
      unfold bindS at 1. cbn [emit ret]. rewrite Hlazy. reflexivity.
    * subst dtype. cbn [lift].
      unfold bindS at 1. unfold bindS at 1. rewrite Hi.
      unfold bindS at 1. cbn [emit ret]. rewrite Hlazy. reflexivity.
Qed.

(** C10: a mapping in which only ["data"] is present, with a value that
    is falsy without being [None]: an empty list, say.  [from_tree] takes
    the node for an inline one, since it tests [data is not None]: it asks
    for no byte order and marks the view as "inline".  But the source of
    the view is chosen by the truth of the data, so the view is built with
    [None] as its source and holds no array; and materializing it raises
    [AttributeError], for [None] has no size.  So [from_tree] returns a
    view that cannot be read when the document loads lazily, and raises
    [AttributeError] when it does not: the data is not treated as the
    inline source. *)
Theorem from_tree_loses_falsy_data
  (d : list (string * node)) (data : node) (dtype : option dtype_like)
  (ctx : asdf_file) (w : world) :
  dict_get "data" d = Some data ->
  is_none data = false ->
  truthy data = false ->
  dict_get "source" d = None ->
  declared_dtype d dtype ->
  let v := mk_view (w_next w) (SrcNode NNone) None
                   (dict_get_default "mask" NNone d)
                   (dict_get_default "shape" NNone d) dtype
                   (dict_get_default "offset" (NInt 0) d)
                   (dict_get_default "strides" NNone d) (NStr "A") in
  let w' := mk_world (S (w_next w)) (w_closed w) (w_released w)
                     (SetArrayStorage (w_next w) "inline" :: w_events w) in
  _make_array (v, w')
  = (Raise (AttributeError "object has no attribute 'size'"), (v, w'))
  /\ from_tree (NDict d) ctx w
     = if lazy_load ctx then (Ok v, w')
       else (Raise (AttributeError "object has no attribute 'size'"), w').
Proof.
intros Hdata Hnone Hfalsy Hsrc Hdt v w'.
assert (Hmake : _make_array (v, w')
                = (Raise (AttributeError "object has no attribute 'size'"), (v, w')))
  by reflexivity.
split; [exact Hmake|].
assert (Hs : dict_get_default "source" NNone d = NNone).
{ unfold dict_get_default. rewrite Hsrc. reflexivity. }
assert (Hd : dict_get_default "data" NNone d = data).
{ unfold dict_get_default. rewrite Hdata. reflexivity. }
unfold from_tree. rewrite Hs, Hd, Hfalsy, Hnone.
cbn [andb truthy is_none negb is_int].
unfold bindS at 1. cbn [lift].
unfold declared_dtype in Hdt.
unfold bindS at 1.
assert (Hrest :
  (if negb (lazy_load ctx)
   then r <~ call_method _make_array v ;; ret (snd r)
   else ret v) w'
  = if lazy_load ctx then (Ok v, w')
    else (Raise (AttributeError "object has no attribute 'size'"), w')).
{ destruct (lazy_load ctx); cbn [negb]; [reflexivity|].
  unfold bindS, call_method. rewrite Hmake. reflexivity. }
destruct (dict_get "datatype" d) as [datatype|].
- destruct Hdt as [t [Ht ->]]. rewrite Ht. cbn [bind lift].
  unfold bindS at 1. exact Hrest.
- subst dtype. cbn [lift].
  unfold bindS at 1. exact Hrest.
Qed.

(** ** Schema validators *)

Lemma get_ndim_not_array_like (r : run) :
  not_array_like (candidate r) -> _get_ndim r = (Ok None, r).
Proof.
unfold _get_ndim, bindS, the_candidate.
destruct (candidate r) as [[| | | | | | |]|a|v]; cbn; intros H; try contradiction; reflexivity.
Qed.

Lemma get_ndim_declared_shape (r : run) (d : list (string * node)) (shape : list node) :
  candidate r = INode (NDict d) ->
  dict_get "shape" d = Some (NList shape) ->
  _get_ndim r = (Ok (Some (Z.of_nat (List.length shape))), r).
Proof.
intros Hc Hs. unfold _get_ndim, bindS, the_candidate. rewrite Hc, Hs. reflexivity.
Qed.

Lemma get_ndim_array (r : run) (a : ndarray) :
  candidate r = IArray a -> _get_ndim r = (Ok (Some (a_ndim a)), r).
Proof.
intros Hc. unfold _get_ndim, bindS, the_candidate. rewrite Hc. reflexivity.
Qed.

Lemma validate_ndim_determined (r : run) (in_ndim : option Z)
      (ndim : node) (schema : list (string * node)) :
  _get_ndim r = (Ok in_ndim, r) ->
  yields_at_most_one r (validate_ndim ndim schema r).
Proof.
intros H. unfold validate_ndim, bindS. rewrite H.
destruct (ndim_differs in_ndim ndim); cbn; unfold yields_at_most_one; cbn;
  repeat split; auto.
- exists ["Wrong number of dimensions"%string]. auto.
- exists []. rewrite app_nil_r. auto.
Qed.

Lemma validate_max_ndim_determined (r : run) (n m : Z) (schema : list (string * node)) :
  _get_ndim r = (Ok (Some n), r) ->
  yields_at_most_one r (validate_max_ndim (NInt m) schema r).
Proof.
intros H. unfold validate_max_ndim, bindS. rewrite H. cbn.
destruct (m <? n); cbn; unfold yields_at_most_one; cbn; repeat split; auto.
- exists ["Wrong number of dimensions: Expected max"%string]. auto.
- exists []. rewrite app_nil_r. auto.
Qed.

(** C4, as the code has it.  The dimension-count validator never raises on
    a candidate that is not array-like, on a mapping whose declared shape
    is a list, or on a concrete array: it yields at most one diagnostic.
    The maximum-dimension validator, given an integer bound, never raises
    on a mapping whose declared shape is a list or on a concrete array.
    The datatype validator raises [ValidationError] ("Not an array"),
    without a diagnostic, on a candidate that is not array-like and on a
    mapping that has neither ["datatype"] nor ["data"]; on a mapping whose
    ["datatype"] equals the expected one it yields nothing and does not
    raise. *)
Theorem validators_raise_only_on_non_arrays (r : run) (schema : list (string * node)) :
  (forall ndim,
     not_array_like (candidate r) ->
     yields_at_most_one r (validate_ndim ndim schema r))
  /\ (forall ndim d shape,
        candidate r = INode (NDict d) ->
        dict_get "shape" d = Some (NList shape) ->
        yields_at_most_one r (validate_ndim ndim schema r)
        /\ forall m, yields_at_most_one r (validate_max_ndim (NInt m) schema r))
  /\ (forall ndim a,
        candidate r = IArray a ->
        yields_at_most_one r (validate_ndim ndim schema r)
        /\ forall m, yields_at_most_one r (validate_max_ndim (NInt m) schema r))
  /\ (forall datatype,
        not_array_like (candidate r) ->
        validate_datatype datatype schema r = (Raise (ValidationError "Not an array"), r))
  /\ (forall datatype d,
        candidate r = INode (NDict d) ->
        dict_get "datatype" d = None ->
        dict_get "data" d = None ->
        validate_datatype datatype schema r = (Raise (ValidationError "Not an array"), r))
  /\ (forall datatype d in_datatype,
        candidate r = INode (NDict d) ->
        dict_get "datatype" d = Some in_datatype ->
        node_eqb datatype in_datatype = true ->
        validate_datatype datatype schema r = (Ok tt, r)).
Proof.
repeat apply conj.
- intros ndim H. apply (validate_ndim_determined r None).
  apply get_ndim_not_array_like. exact H.
- intros ndim d shape Hc Hs. split.
  + apply (validate_ndim_determined r (Some (Z.of_nat (List.length shape)))).
    apply (get_ndim_declared_shape r d shape Hc Hs).
  + intros m. apply (validate_max_ndim_determined r (Z.of_nat (List.length shape))).
    apply (get_ndim_declared_shape r d shape Hc Hs).
- intros ndim a Hc. split.
  + apply (validate_ndim_determined r (Some (a_ndim a))). apply get_ndim_array. exact Hc.
  + intros m. apply (validate_max_ndim_determined r (a_ndim a)).
    apply get_ndim_array. exact Hc.
- intros datatype H. unfold validate_datatype, bindS, the_candidate.
  destruct (candidate r) as [[| | | | | | |]|a|v]; cbn in H; try contradiction; reflexivity.
- intros datatype d Hc H1 H2. unfold validate_datatype, bindS, the_candidate.
  rewrite Hc, H1, H2. reflexivity.
- intros datatype d in_datatype Hc H1 He. unfold validate_datatype, bindS, the_candidate.
  rewrite Hc, H1. cbn [ret]. rewrite He. reflexivity.
Qed.

(** * Further properties of the code *)

(** ** Byte order names and descriptors *)

(** X1: [asdf_byteorder_to_numpy_byteorder] accepts exactly the names
    ["big"] and ["little"], and the name that
    [numpy_byteorder_to_asdf_byteorder] gives to a numpy byte order (without
    override) is always one of them: ['<'] and ['>'] come back as they
    were, and ['='] comes back as the host's own order. *)
Theorem byteorder_names_agree (bo : byteorder_char) (x : node) :
  (is_ok (asdf_byteorder_to_numpy_byteorder x) = true
   <-> x = NStr "big" \/ x = NStr "little")
  /\ exists c,
       asdf_byteorder_to_numpy_byteorder
         (NStr (numpy_byteorder_to_asdf_byteorder bo None)) = Ok c
       /\ (bo = BoLittle -> c = BoLittle)
       /\ (bo = BoBig -> c = BoBig)
       /\ (bo = BoNative -> eqb_endian_bo sys_byteorder c = true).
Proof.
split.
- split.
  + destruct x as [| | | |s| | |]; cbn; try discriminate.
    destruct (String.eqb_spec s "big") as [->|Hb]; [auto|].
    destruct (String.eqb_spec s "little") as [->|Hl]; [auto|]. discriminate.
  + intros [->| ->]; reflexivity.
- destruct host_cases as [E|E]; destruct bo; cbn; rewrite ?E; cbn;
    eexists; (split; [reflexivity|]); repeat split; try discriminate; auto.
Qed.

Lemma encodable_struct (fs : list (string * (np_dtype * Z))) (size : Z) :
  encodable (DStruct fs size) = forallb (fun f => encodable (fst (snd f))) fs.
Proof.
cbn. induction fs as [|f fs IH]; [reflexivity|]. cbn. rewrite IH. reflexivity.
Qed.

Lemma encode_leaf_named (k : scalar_kind) (bo : byteorder_char) (ib : bool)
      (ov : option string) :
  (named_kind k = true ->
   exists desc order, numpy_dtype_to_asdf_datatype (DScalar k bo) ib ov = Ok (desc, order))
  /\ (named_kind k = false ->
      numpy_dtype_to_asdf_datatype (DScalar k bo) ib ov = Raise (ValueError "Unknown dtype")).
Proof.
destruct k; cbn; split; intros H; try discriminate H; eauto.
Qed.

Lemma encode_bytes (n : Z) (ib : bool) (ov : option string) :
  numpy_dtype_to_asdf_datatype (DBytes n) ib ov
  = Ok (NList [NStr "ascii"; NInt n], "big"%string).
Proof.
cbn. destruct (n =? 0); [reflexivity|]. cbn. rewrite prefix_empty. reflexivity.
Qed.

Lemma encode_unicode (n : Z) (bo : byteorder_char) (ib : bool) (ov : option string) :
  numpy_dtype_to_asdf_datatype (DUnicode n bo) ib ov
  = Ok (NList [NStr "ucs4"; NInt (Z.quot (4 * n) 4)],
        numpy_byteorder_to_asdf_byteorder bo ov).
Proof.
cbn -[Z.quot Z.mul]. destruct (n =? 0); cbn -[Z.quot Z.mul];
  rewrite ?prefix_ing_digits; cbn -[Z.quot Z.mul]; rewrite ?prefix_empty; reflexivity.
Qed.

Lemma encode_fields_or_unknown (fs : list (string * (np_dtype * Z))) (ib : bool)
      (ov : option string) :
  Forall (fun f => encodes_or_unknown (fst (snd f))) fs ->
  (forallb (fun f => encodable (fst (snd f))) fs = true ->
   exists entries, for_each (encode_field ib ov) fs = Ok entries)
  /\ (forallb (fun f => encodable (fst (snd f))) fs = false ->
      for_each (encode_field ib ov) fs = Raise (ValueError "Unknown dtype")).
Proof.
induction 1 as [|f fs Hf Hfs IH]; cbn [forallb for_each].
- split; [eauto | discriminate].
- destruct (Hf true ov) as [Hy Hn]. unfold encode_field at 1 3.
  destruct (encodable (fst (snd f))).
  + destruct (Hy eq_refl) as [desc [order He]]. rewrite He. cbn [bind andb].
    destruct IH as [IHy IHn]. split; intros Hall.
    * destruct (IHy Hall) as [entries Hen]. rewrite Hen. eauto.
    * rewrite (IHn Hall). reflexivity.
  + rewrite (Hn eq_refl). cbn. split; [discriminate | reflexivity].
Qed.

Lemma encodes_or_unknown_all (d : np_dtype) : encodes_or_unknown d.
Proof.
induction d using np_dtype_nested_ind; intros ib ov.
- apply encode_leaf_named.
- split; [intros _; rewrite encode_bytes; eauto | discriminate].
- split; [intros _; rewrite encode_unicode; eauto | discriminate].
- exact (IHd true ov).
- rewrite encodable_struct, encode_struct.
  destruct (encode_fields_or_unknown fields ib ov H) as [Hy Hn]. split; intros Hall.
  + destruct (Hy Hall) as [entries He]. rewrite He. cbn. eauto.
  + rewrite (Hn Hall). reflexivity.
Qed.

(** X2: [numpy_dtype_to_asdf_datatype] returns a descriptor exactly for the
    dtypes whose scalar kinds all have a name in the format (strings and
    character types always have one); for every other dtype it raises
    [ValueError] ("Unknown dtype"), whatever the byte-order arguments. *)
Theorem encode_succeeds_iff_named (d : np_dtype) (ib : bool) (ov : option string) :
  (encodable d = true ->
   exists desc order, numpy_dtype_to_asdf_datatype d ib ov = Ok (desc, order))
  /\ (encodable d = false ->
      numpy_dtype_to_asdf_datatype d ib ov = Raise (ValueError "Unknown dtype")).
Proof. exact (encodes_or_unknown_all d ib ov). Qed.

Lemma table_get_in (key value : string) (t : list (string * string)) :
  table_get key t = Some value -> In (key, value) t.
Proof.
induction t as [|[k v] t IH]; [discriminate|].
cbn. destruct (String.eqb_spec k key) as [->|Hk].
- intros H. inversion H. auto.
- auto.
Qed.

(** X3: the round trip from a descriptor.  Every scalar name of the table,
    decoded under ["big"] or ["little"], gives a dtype that encodes back to
    the same name; the byte order comes back too, except that a
    single-byte kind always reports ["big"]. *)
Theorem scalar_name_roundtrip (name code : string) (order : string) :
  table_get name _datatype_names = Some code ->
  order = "big"%string \/ order = "little"%string ->
  exists d,
    asdf_datatype_to_numpy_dtype (NStr name) (NStr order) = Ok (AsDtype d)
    /\ numpy_dtype_to_asdf_datatype d true None
       = Ok (NStr name, if itemsize d =? 1 then "big"%string else order).
Proof.
intros Ht Ho. apply table_get_in in Ht.
destruct host_cases as [E|E];
  repeat (destruct Ht as [Ht|Ht]; [inversion Ht; subst name code; clear Ht|]);
  try contradiction;
  destruct Ho as [-> | ->]; cbn; rewrite ?E; cbn;
  eexists; (split; [reflexivity|]); cbn; rewrite ?E; reflexivity.
Qed.

(** X4: a byte order that is not ["big"], ["little"] or [None] makes the
    decoder fail with [ValueError] on every scalar name and on every
    string descriptor, also on the single-byte kinds and byte strings for
    which the order means nothing. *)
Theorem decode_checks_byteorder (byteorder : node) :
  byteorder <> NNone ->
  byteorder <> NStr "big" ->
  byteorder <> NStr "little" ->
  (forall name,
     table_has name _datatype_names = true ->
     asdf_datatype_to_numpy_dtype (NStr name) byteorder
     = Raise (ValueError "Invalid ASDF byteorder"))
  /\ (forall charset length,
        table_has charset _string_datatype_names = true ->
        asdf_datatype_to_numpy_dtype (NList [NStr charset; NInt length]) byteorder
        = Raise (ValueError "Invalid ASDF byteorder")).
Proof.
intros Hn Hb Hl.
assert (Hbad : asdf_byteorder_to_numpy_byteorder
                 (if is_none byteorder then NStr (endian_name sys_byteorder) else byteorder)
               = Raise (ValueError "Invalid ASDF byteorder")).
{ destruct byteorder as [| | | |s| | |]; try reflexivity; [contradiction|].
  cbn. destruct (String.eqb_spec s "big") as [->|H1]; [contradiction|].
  destruct (String.eqb_spec s "little") as [->|H2]; [contradiction|]. reflexivity. }
split.
- intros name Ht. unfold table_has in Ht.
  cbn [asdf_datatype_to_numpy_dtype].
  destruct (table_get name _datatype_names); [|discriminate Ht].
  rewrite Hbad. reflexivity.
- intros charset length Ht. unfold table_has in Ht.
  cbn [asdf_datatype_to_numpy_dtype is_int].
  destruct (table_get charset _string_datatype_names); [|discriminate Ht].
  rewrite Hbad. reflexivity.
Qed.

(** ** Record descriptors *)

Lemma str_of_int_inj (a b : Z) : str_of_int a = str_of_int b -> a = b.
Proof.
unfold str_of_int. intros H.
assert (Hn : forall z, Z.to_int z <> Decimal.Pos Decimal.Nil
                       /\ Z.to_int z <> Decimal.Neg Decimal.Nil).
{ intros [|p|p]; cbn; split; try discriminate;
    intros E; inversion E as [E']; exact (DecimalPos.Unsigned.to_uint_nonnil p E'). }
apply (f_equal NilZero.int_of_string) in H.
rewrite !NilZero.isi in H; try apply Hn.
inversion H as [E]. apply DecimalZ.to_int_inj. exact E.
Qed.

Lemma anonymous_name_inj (i j : nat) : anonymous_name i = anonymous_name j -> i = j.
Proof.
unfold anonymous_name. cbn. intros H. inversion H as [E].
apply str_of_int_inj in E. lia.
Qed.

Lemma anonymous_name_not_empty (i : nat) : String.eqb (anonymous_name i) "" = false.
Proof. reflexivity. Qed.

Lemma pack_anonymous (ds : list np_dtype) :
  forall (i : nat) (offset : Z) (seen : list string),
    (forall j, (i <= j)%nat -> existsb (String.eqb (anonymous_name j)) seen = false) ->
    pack_fields i offset seen (map (fun d => (EmptyString, AsDtype d, None)) ds)
    = Ok (anonymous_fields i offset ds, offset + total_size ds).
Proof.
induction ds as [|d ds IH]; intros i offset seen Hseen.
- cbn. rewrite Z.add_0_r. reflexivity.
- cbn [map pack_fields field_dtype bind String.eqb].
  fold (anonymous_name i). rewrite (Hseen i (Nat.le_refl i)).
  rewrite IH.
  + cbn [bind anonymous_fields total_size fold_right].
    fold (total_size ds). rewrite Z.add_assoc. reflexivity.
  + intros j Hj. cbn [existsb]. rewrite (Hseen j) by lia.
    destruct (String.eqb_spec (anonymous_name j) (anonymous_name i)) as [E|E].
    * apply anonymous_name_inj in E. lia.
    * reflexivity.
Qed.

Lemma decode_normalized (datatype byteorder : node) :
  asdf_datatype_to_numpy_dtype datatype (norm_byteorder byteorder)
  = asdf_datatype_to_numpy_dtype datatype byteorder.
Proof.
unfold norm_byteorder.
destruct datatype; destruct byteorder; reflexivity.
Qed.

Lemma decode_names_record (names : list string) (byteorder : node) :
  asdf_datatype_to_numpy_dtype (NList (map NStr names)) byteorder
  = (entries <- for_each (decode_entry (norm_byteorder byteorder)) (map NStr names) ;;
     t <- dtype_of_list entries ;; Ok (AsDtype t)).
Proof.
destruct names as [|a [|b [|c names]]]; reflexivity.
Qed.

(** X5: a bare list of scalar names is a record without field names.  When
    each name decodes on its own, the list decodes to the record of those
    types in the same order, one after the other without padding, under the
    names ["f0"], ["f1"], ... *)
Theorem anonymous_record (names : list string) (ds : list np_dtype) (byteorder : node) :
  Forall2 (fun name d =>
             asdf_datatype_to_numpy_dtype (NStr name) byteorder = Ok (AsDtype d))
          names ds ->
  asdf_datatype_to_numpy_dtype (NList (map NStr names)) byteorder
  = Ok (AsDtype (DStruct (anonymous_fields 0 0 ds) (total_size ds))).
Proof.
intros H. rewrite decode_names_record.
assert (E : for_each (decode_entry (norm_byteorder byteorder)) (map NStr names)
            = Ok (map (fun d => (EmptyString, AsDtype d, None)) ds)).
{ induction H as [|name d names ds Hd Hrest IH]; [reflexivity|].
  cbn [map for_each]. unfold decode_entry at 1.
  rewrite decode_normalized, Hd. cbn [bind record_entry]. rewrite IH. reflexivity. }
rewrite E. cbn [bind]. unfold dtype_of_list.
rewrite pack_anonymous by (intros; reflexivity). reflexivity.
Qed.

(** X6: one field entry without a ["datatype"] key spoils the whole record:
    when the entries before it decode, the record descriptor fails with
    [ValueError] ("Field entry has no datatype"), whatever follows it. *)
Theorem record_needs_every_datatype
  (before after : list node) (entry : list (string * node)) (byteorder : node) :
  dict_get "datatype" entry = None ->
  Forall (fun x => exists d, x = NDict d
                   /\ is_ok (asdf_datatype_to_numpy_dtype x (norm_byteorder byteorder))
                      = true) before ->
  asdf_datatype_to_numpy_dtype (NList (before ++ NDict entry :: after)) byteorder
  = Raise (ValueError "Field entry has no datatype").
Proof.
intros Hmiss Hbefore.
assert (Hentry : forall bo, asdf_datatype_to_numpy_dtype (NDict entry) bo
                 = Raise (ValueError "Field entry has no datatype")).
{ intros bo. rewrite decode_dict, Hmiss. reflexivity. }
assert (Hloop : for_each (decode_entry (norm_byteorder byteorder))
                         (before ++ NDict entry :: after)
                = Raise (ValueError "Field entry has no datatype")).
{ induction Hbefore as [|x before [d [-> Hx]] Hrest IH]; cbn [app for_each].
  - unfold decode_entry at 1. rewrite Hentry. reflexivity.
  - unfold decode_entry at 1.
    destruct (asdf_datatype_to_numpy_dtype (NDict d) (norm_byteorder byteorder));
      [|discriminate Hx].
    cbn [bind]. rewrite IH. reflexivity. }
destruct before as [|x before].
- cbn [app]. rewrite decode_record_dicts. cbn [app] in Hloop. rewrite Hloop. reflexivity.
- inversion Hbefore as [|? ? [d [-> _]] _]; subst.
  cbn [app]. rewrite decode_record_dicts. cbn [app] in Hloop. rewrite Hloop. reflexivity.
Qed.

(** ** The shape resolver *)

Lemma get_actual_shape_ok
  (shape : list node) (strides : node) (dtype : option dtype_like)
  (block_size : Z) (resolved : list node) :
  get_actual_shape shape strides dtype block_size = Ok resolved ->
  (count_star shape = 0%nat /\ resolved = shape)
  \/ (exists rest missing,
        shape = star :: rest /\ count_star rest = 0%nat
        /\ resolved = NInt missing :: rest).
Proof.
unfold get_actual_shape. intros H.
destruct (count_star shape) as [|[|n]] eqn:Hc; cbn [Nat.eqb] in H.
- left. inversion H. auto.
- right. destruct shape as [|first rest]; [discriminate H|].
  destruct (is_star first) eqn:Hf; cbn [negb] in H; [|discriminate H].
  apply is_star_true in Hf. subst first.
  rewrite count_star_head in Hc. cbn in Hc.
  match type of H with
  | (bind ?m _) = _ => destruct m as [s|e]
  end; [|discriminate H].
  cbn [bind] in H.
  destruct (int_truediv block_size s) as [missing|e]; [|discriminate H].
  cbn [bind] in H. inversion H. subst resolved.
  exists rest, missing. repeat split. lia.
- discriminate H.
Qed.

(** X7: whatever [get_actual_shape] returns is settled.  It holds no
    wildcard, it has as many entries as the given shape and the same
    entries after the first, and resolving it again, against any strides,
    element type and block size, gives it back. *)
Theorem resolved_shape_is_settled
  (shape : list node) (strides : node) (dtype : option dtype_like)
  (block_size : Z) (resolved : list node) :
  get_actual_shape shape strides dtype block_size = Ok resolved ->
  count_star resolved = 0%nat
  /\ List.length resolved = List.length shape
  /\ tl resolved = tl shape
  /\ forall strides' dtype' block_size',
       get_actual_shape resolved strides' dtype' block_size' = Ok resolved.
Proof.
intros H.
assert (Hc : count_star resolved = 0%nat
             /\ List.length resolved = List.length shape
             /\ tl resolved = tl shape).
{ apply get_actual_shape_ok in H.
  destruct H as [[Hc ->]|[rest [missing [-> [Hc ->]]]]].
  - auto.
  - rewrite count_star_head. cbn. auto. }
destruct Hc as [Hc [Hl Ht]]. repeat split; try assumption.
intros strides' dtype' block_size'. unfold get_actual_shape. rewrite Hc. reflexivity.
Qed.

(** X8: a stride of zero never gives a shape.  A zero taken from the
    recorded strides raises [ZeroDivisionError]; a zero product of the
    trailing sizes and the item size, all of them 64-bit integers as the
    block size is, raises [OverflowError] for a block that is not empty,
    and [ValueError] for an empty block. *)
Theorem zero_stride_gives_no_shape
  (dims : list Z) (strides : node) (dtype : option dtype_like) (block_size : Z) :
  (forall more,
     strides = NList (NInt 0 :: more) ->
     get_actual_shape (star :: map NInt dims) strides dtype block_size
     = Raise ZeroDivisionError)
  /\ (forall d,
        strides = NNone -> dtype = Some (AsDtype d) ->
        forallb fits_int64 dims = true ->
        fits_int64 (itemsize d) = true ->
        fits_int64 block_size = true ->
        prod_Z dims * itemsize d = 0 ->
        get_actual_shape (star :: map NInt dims) strides dtype block_size
        = Raise (if block_size =? 0
                 then ValueError "cannot convert float NaN to integer"
                 else OverflowError)).
Proof.
split.
- intros more ->. rewrite get_actual_shape_strides. reflexivity.
- intros d -> -> Hd Hi Hb Hz.
  exact (get_actual_shape_zero_product dims d block_size Hd Hi Hz Hb).
Qed.

(** X9: the rows that the resolver finds fit in the block.  Take a shape
    with a leading wildcard and no recorded strides, a block that is not
    negative and a row that is not empty, the block size and the row size
    both below 2^53, so that the binary64 quotient is the integer one and
    the product of the sizes does not wrap around.  Then the resolved shape
    takes up no more bytes than the block holds, and what is left over is
    less than one row; when the block is a whole number of rows, the
    resolved shape takes up the whole block. *)
Theorem resolved_shape_fits_block (dims : list Z) (d : np_dtype) (block_size : Z) :
  0 <= block_size < 2 ^ 53 ->
  0 < prod_Z dims * itemsize d < 2 ^ 53 ->
  exists missing,
    get_actual_shape (star :: map NInt dims) NNone (Some (AsDtype d)) block_size
    = Ok (NInt missing :: map NInt dims)
    /\ 0 <= block_size - prod_Z (missing :: dims) * itemsize d
         < prod_Z dims * itemsize d
    /\ ((prod_Z dims * itemsize d | block_size) ->
        prod_Z (missing :: dims) * itemsize d = block_size).
Proof.
intros Hb Hs. exists (Z.quot block_size (prod_Z dims * itemsize d)).
split.
- apply get_actual_shape_product.
  + lia.
  + apply exact_float_spec. lia.
  + apply exact_float_spec. lia.
- set (s := prod_Z dims * itemsize d) in *.
  assert (E : s <> 0) by lia.
  rewrite Z.quot_div_nonneg by lia.
  cbn [prod_Z fold_right]. change (fold_right Z.mul 1 dims) with (prod_Z dims).
  replace (block_size / s * prod_Z dims * itemsize d) with (s * (block_size / s))
    by (unfold s; ring).
  assert (Hs' : 0 < s) by lia.
  pose proof (Z.mod_pos_bound block_size s Hs') as Hm.
  pose proof (Z.div_mod block_size s E) as Hd.
  split; [lia|].
  intros Hdiv. apply Z.mod_divide in Hdiv; [|exact E]. lia.
Qed.

(** ** Inline literals and masks *)

Lemma node_nested_ind (P : node -> Prop) :
  P NNone -> (forall b, P (NBool b)) -> (forall z, P (NInt z)) ->
  (forall f, P (NFloat f)) -> (forall s, P (NStr s)) ->
  (forall l, Forall P l -> P (NList l)) ->
  (forall d, P (NDict d)) -> (forall ref, P (NObj ref)) ->
  forall x, P x.
Proof.
intros Hn Hb Hi Hf Hs Hl Hd Ho. fix IH 1. intros [|b|z|f|s|l|d|ref].
- exact Hn.
- apply Hb.
- apply Hi.
- apply Hf.
- apply Hs.
- apply Hl. induction l as [|x l IHl]; constructor.
  + apply IH.
  + exact IHl.
- apply Hd.
- apply Ho.
Qed.

(** X10: the depth that [find_innermost_match] settles on is the first
    one, going down the first elements of the literal, at which the line
    converts to a record; at every depth above it the line is a list that
    is not empty and whose conversion raised [ValueError]. *)
Theorem find_innermost_match_is_first (dtype : np_dtype) (line : node) (depth : nat) :
  find_innermost_match dtype line 0 = Ok depth ->
  (exists u, record_at dtype line depth = Some (Ok u))
  /\ forall above, (above < depth)%nat ->
       exists msg, record_at dtype line above = Some (Raise (ValueError msg)).
Proof.
assert (H : forall line start found,
  find_innermost_match dtype line start = Ok found ->
  exists n, found = (start + n)%nat
    /\ (exists u, record_at dtype line n = Some (Ok u))
    /\ forall above, (above < n)%nat ->
         exists msg, record_at dtype line above = Some (Raise (ValueError msg))).
{ clear line depth. intros line.
  induction line as [|b|z|f|s|l IHl|d|ref] using node_nested_ind;
    intros start found H; try discriminate H.
  destruct l as [|first rest]; [discriminate H|].
  cbn [find_innermost_match] in H.
  destruct (np_struct_scalar (first :: rest) dtype) as [u|e] eqn:E.
  - inversion H. subst found. exists 0%nat. split; [lia|]. split.
    + exists u. unfold record_at. cbn. rewrite E. reflexivity.
    + intros above Ha. lia.
  - destruct e; try discriminate H.
    inversion IHl as [|? ? Hfirst _]. subst.
    destruct (Hfirst _ _ H) as [n [-> [Hat Habove]]].
    exists (S n). split; [lia|]. split.
    + exact Hat.
    + intros [|above] Ha.
      * exists msg. unfold record_at. cbn. rewrite E. reflexivity.
      * apply (Habove above). lia. }
intros Hd. destruct (H line 0%nat depth Hd) as [n [-> [Hat Habove]]].
split; assumption.
Qed.

(** X11: what [inline_data_asarray] returns for an element type without
    fields is a new array that is masked only when it has to be: it either
    carries no mask at all or has at least one element masked. *)
Theorem inline_array_is_masked_only_when_needed
  (inline : node) (dtype : option dtype_like) (w w' : world) (a : ndarray) :
  (forall fs size, dtype <> Some (AsDtype (DStruct fs size))) ->
  inline_data_asarray inline dtype w = (Ok a, w') ->
  (a_mask a = NotMasked \/ any_masked a = true)
  /\ a_id a = w_next w
  /\ w_events w' = w_events w.
Proof.
intros Hplain H. unfold inline_data_asarray in H.
apply bindS_ok in H. destruct H as [dt [w1 [H1 H]]].
apply lift_ok in H1. destruct H1 as [Hdt ->].
assert (Hrest :
  (inline <~ lift (handle_mask inline) ;;
   inline <~ lift (np_ma_asarray inline dt) ;;
   if negb (any_masked inline) then alloc (unmasked inline) else alloc inline) w
  = (Ok a, w')).
{ destruct dt as [[k bo|n|n bo|base shape|fs size]|]; try exact H.
  destruct dtype as [[d|? ? ?]|]; try discriminate Hdt.
  inversion Hdt. subst d. exfalso. exact (Hplain fs size eq_refl). }
clear H. apply bindS_ok in Hrest. destruct Hrest as [h [w1 [H1 H]]].
apply lift_ok in H1. destruct H1 as [_ ->].
apply bindS_ok in H. destruct H as [m [w1 [H1 H]]].
apply lift_ok in H1. destruct H1 as [_ ->].
destruct (any_masked m) eqn:Hm; cbn [negb] in H;
  unfold alloc, bindS, fresh, ret in H; inversion H; subst; cbn.
- split; [right; exact Hm | split; reflexivity].
- split; [left; reflexivity | split; reflexivity].
Qed.

Lemma ma_array_keeps (a r : ndarray) (bits : list bool) (w w' : world) :
  ma_array a bits w = (Ok r, w') ->
  a_shape r = a_shape a /\ a_dtype r = a_dtype a /\ a_data r = a_data a
  /\ w_events w' = w_events w.
Proof.
unfold ma_array. intros H. apply bindS_ok in H. destruct H as [b [w1 [H1 H2]]].
assert (w1 = w).
{ destruct (Nat.eqb (List.length bits) 1); [inversion H1; reflexivity|].
  destruct (Nat.eqb (List.length bits) (elems_count (a_data a)));
    inversion H1; reflexivity. }
subst w1. unfold alloc, bindS, fresh, ret in H2. inversion H2. subst. cbn. auto.
Qed.

(** X12: masking hides elements and changes nothing else.  The array that
    [_apply_mask] returns has the shape and the element type of the array
    it was given, and, when that array is a plain one, its elements; an
    array that is masked already may come back with its masked elements
    filled.  A mask that is neither an array nor a scalar ([None], a list,
    a mapping) gives back the very array, with nothing created. *)
Theorem apply_mask_keeps_the_array (array m : ndarray) (mask : node) (w w' : world) :
  _apply_mask array mask w = (Ok m, w') ->
  (a_shape m = a_shape array /\ a_dtype m = a_dtype array
   /\ (a_mask array = NotMasked -> a_data m = a_data array))
  /\ (mask = NNone \/ is_list mask = true \/ (exists d, mask = NDict d) ->
      m = array /\ w' = w).
Proof.
intros H. split.
- unfold _apply_mask in H.
  assert (Hscalar : forall value,
    (nan <~ lift (scalar_isnan value) ;;
     if nan then bits <~ lift (np_isnan (a_data array)) ;; ma_array array bits
     else ma_masked_values array value) w = (Ok m, w') ->
    a_shape m = a_shape array /\ a_dtype m = a_dtype array
    /\ (a_mask array = NotMasked -> a_data m = a_data array)).
  { intros value Hv. apply bindS_ok in Hv. destruct Hv as [nan [w1 [H1 H2]]].
    apply lift_ok in H1. destruct H1 as [_ ->]. destruct nan.
    - apply bindS_ok in H2. destruct H2 as [bits [w1 [H1 H2]]].
      apply lift_ok in H1. destruct H1 as [_ ->].
      apply ma_array_keeps in H2. destruct H2 as [Ha [Hb [Hc _]]].
      split; [exact Ha|]. split; [exact Hb|]. intros _. exact Hc.
    - unfold ma_masked_values in H2.
      apply bindS_ok in H2. destruct H2 as [found [w1 [H1 H2]]].
      apply lift_ok in H1. destruct H1 as [_ ->].
      unfold alloc, bindS, fresh, ret in H2. inversion H2. subst. cbn.
      split; [reflexivity|]. split; [reflexivity|].
      intros Hplain. rewrite Hplain. reflexivity. }
  destruct mask as [|b|z|f|s|l|d|ref];
    try (apply Hscalar with (1 := H));
    try (inversion H; subst; split; [reflexivity|split; [reflexivity|intros _; reflexivity]]).
  destruct (array_objects ref) as [materialize|].
  + apply bindS_ok in H. destruct H as [m1 [w1 [_ H]]].
    apply bindS_ok in H. destruct H as [m2 [w2 [_ H]]].
    apply ma_array_keeps in H. destruct H as [Ha [Hb [Hc _]]].
    split; [exact Ha|]. split; [exact Hb|]. intros _. exact Hc.
  + inversion H. subst. split; [reflexivity|split; [reflexivity|intros _; reflexivity]].
- intros [->|[Hl|[d ->]]].
  + inversion H. auto.
  + destruct mask; try discriminate Hl. inversion H. auto.
  + inversion H. auto.
Qed.

(** ** Construction and accessors of the view *)

Lemma shape_eq_no_star (items : list node) :
  forall dims, shape_eq dims items = true -> existsb is_star items = false.
Proof.
induction items as [|x items IH]; intros dims H; [reflexivity|].
destruct dims as [|n dims]; [discriminate H|].
cbn [shape_eq] in H. apply andb_true_iff in H. destruct H as [Hx Hrest].
cbn [existsb]. rewrite (IH dims Hrest).
destruct x; try discriminate Hx; reflexivity.
Qed.

(** X13: a view built from an inline list holds its array from the start,
    and a declared shape that the constructor accepts is the shape of that
    array, entry by entry; so it holds no wildcard. *)
Theorem init_inline_holds_matching_array
  (l : list node) (declared : node) (dtype : option dtype_like)
  (offset strides order mask : node) (w w' : world) (v : view) :
  __init__ (SrcNode (NList l)) declared dtype offset strides order mask w = (Ok v, w') ->
  v_id v = w_next w
  /\ _shape v = declared
  /\ exists a,
       _array v = Some a
       /\ (declared = NNone
           \/ exists items,
                shape_items declared = Ok items
                /\ shape_eq (a_shape a) items = true
                /\ existsb is_star items = false).
Proof.
unfold __init__. intros H.
apply bindS_ok in H. destruct H as [id [w1 [Hid H]]].
unfold fresh in Hid. inversion Hid. subst id w1. clear Hid.
apply bindS_ok in H. destruct H as [arr [w2 [Ha H]]].
inversion H. subst v w'. cbn. split; [reflexivity|]. split; [reflexivity|].
apply bindS_ok in Ha. destruct Ha as [a [w3 [_ Ha]]].
apply bindS_ok in Ha. destruct Ha as [a' [w4 [_ Ha]]].
apply bindS_ok in Ha. destruct Ha as [bad [w5 [Hbad Ha]]].
apply lift_ok in Hbad. destruct Hbad as [Hbad _].
destruct bad; [discriminate Ha|]. inversion Ha. subst arr.
exists a'. split; [reflexivity|].
unfold inline_shape_mismatch in Hbad.
destruct (is_none declared) eqn:Hn.
- left. destruct declared; try discriminate Hn. reflexivity.
- right. destruct (shape_items declared) as [items|e] eqn:Hitems; [|discriminate Hbad].
  cbn [bind] in Hbad. destruct items as [|first rest]; [discriminate Hbad|].
  injection Hbad as Hb. apply orb_false_iff in Hb. destruct Hb as [_ Hb].
  apply negb_false_iff in Hb.
  exists (first :: rest). split; [reflexivity|]. split; [exact Hb|].
  exact (shape_eq_no_star _ _ Hb).
Qed.

(** X14: nothing is loaded for a view that is not materialized when its
    element type, its length or its text is asked for: [dtype], [__len__],
    [__repr__] and [__str__] answer from what was declared and leave the
    view and the world as they were.  [__getattr__] refuses the names
    [__array_struct__] and [__asdf_traverse__] with [AttributeError], also
    without loading anything. *)
Theorem unloaded_view_stays_unloaded (v : view) (w : world) :
  _array v = None ->
  dtype (v, w) = (Ok (_dtype v), (v, w))
  /\ __len__ (v, w) = (shape_first (_shape v), (v, w))
  /\ __repr__ (v, w)
     = (Ok (Unloaded (negb (is_none (_mask v))) (_shape v) (_dtype v)), (v, w))
  /\ __str__ (v, w) = __repr__ (v, w)
  /\ forall attr,
       attr = "__array_struct__"%string \/ attr = "__asdf_traverse__"%string ->
       __getattr__ attr (v, w) = (Raise (AttributeError ""), (v, w)).
Proof.
intros Ha.
unfold dtype, __len__, __repr__, __str__, bindS, self, lift, ret. cbn [fst snd].
rewrite Ha. repeat split.
intros attr [->| ->]; reflexivity.
Qed.

(** X15: [__len__] agrees with [shape].  On a view whose declared shape is
    a list without a wildcard, whenever [__len__] returns, [shape] returns
    too, its first entry is what [__len__] returned, and both leave the
    same view and world behind. *)
Theorem len_is_first_of_shape
  (v : view) (w : world) (l : list node) (n : node) (s : view * world) :
  _shape v = NList l ->
  existsb is_star l = false ->
  __len__ (v, w) = (Ok n, s) ->
  exists rest, shape (v, w) = (Ok (n :: rest), s).
Proof.
intros Hs Hstar H. unfold __len__ in H. unfold shape.
unfold bindS at 1 in H. unfold bindS at 1. cbn [self fst] in *.
rewrite Hs. rewrite Hs in H. cbn [is_none orb].
destruct (_array v) as [a|] eqn:Ha.
- apply bindS_ok in H. destruct H as [r [s1 [Hm H]]].
  apply lift_ok in H. destruct H as [H ->].
  unfold __array__, bindS. rewrite Hm. unfold ret.
  destruct (a_shape r) as [|first rest]; [discriminate H|].
  inversion H. subst n. exists (map NInt rest). reflexivity.
- apply lift_ok in H. destruct H as [H ->].
  unfold shape_first in H. cbn [shape_items bind] in H.
  destruct l as [|first rest]; [discriminate H|]. inversion H. subst n.
  exists rest. unfold bindS, lift. cbn [contains_star]. rewrite Hstar.
  reflexivity.
Qed.

(** X16: the shape of a streamed view is found from the block header
    alone.  On a view that is not materialized, whose declared shape holds
    a wildcard and whose source is a callback, [shape] asks the callback
    for the header; when the header gives a data size that is not zero the
    shape is resolved against that size, the data is never asked for and
    the view stays unloaded; when it gives zero, [shape] goes on to
    materialize the array. *)
Theorem shape_of_streamed_view_reads_header
  (v : view) (w w1 : world) (cb : callback) (l : list node) (data_size : Z) :
  _array v = None ->
  _shape v = NList l ->
  existsb is_star l = true ->
  _source v = SrcCallback cb ->
  call_source cb "header" w = (Ok (SvHeader data_size), w1) ->
  (data_size <> 0 ->
   shape (v, w)
   = (get_actual_shape l (_strides v) (_dtype v) data_size, (v, w1)))
  /\ (data_size = 0 ->
      shape (v, w)
      = (a <~ _make_array ;; ret (map NInt (a_shape a))) (v, w1)).
Proof.
intros Ha Hs Hstar Hsrc Hcall.
assert (E :
  shape (v, w)
  = (if data_size =? 0 then a <~ _make_array ;; ret (map NInt (a_shape a))
     else lift (l <- shape_list (_shape v) ;;
                get_actual_shape l (_strides v) (_dtype v) data_size)) (v, w1)).
{ unfold shape. unfold bindS at 1. cbn [self fst].
  rewrite Ha, Hs. cbn [is_none orb]. unfold bindS at 1. cbn [lift contains_star].
  rewrite Hstar, Hsrc. unfold bindS at 1. unfold in_world. cbn [snd fst].
  rewrite Hcall. unfold bindS at 1. cbn [lift]. reflexivity. }
split.
- intros Hn. rewrite E. destruct (Z.eqb_spec data_size 0) as [E0|_]; [contradiction|].
  rewrite Hs. reflexivity.
- intros ->. rewrite E. reflexivity.
Qed.

Lemma set_array_none (v : view) : _array v = None -> set_array v None = v.
Proof. destruct v. cbn. intros ->. reflexivity. Qed.

Lemma make_array_unloaded (v : view) (w : world) :
  _array v = None ->
  _make_array (v, w)
  = (data <~ in_world match _source v with
                      | SrcCallback cb => call_source cb "cached_data"
                      | SrcNode n => ret (SvNode n)
                      end ;;
     w <~ the_world ;;
     match data with
     | SvArray data =>
         if on_closed_mmap data w
         then raise (OSError "Attempt to read data from a closed file")
         else
           shape <~ lift (l <- shape_list (_shape v) ;;
                          get_actual_shape l (_strides v) (_dtype v) (a_size data)) ;;
           a <~ in_world (np_ndarray shape (_dtype v) data
                                     (_offset v) (_strides v) (_order v)) ;;
           _ <~ assign_array (Some a) ;;
           a <~ in_world (_apply_mask a (_mask v)) ;;
           _ <~ assign_array (Some a) ;;
           ret a
     | _ => raise (AttributeError "object has no attribute 'size'")
     end) (v, w).
Proof.
intros Ha. unfold _make_array.
unfold bindS at 1. cbn [self fst].
unfold bindS at 1. cbn [the_world snd]. rewrite Ha.
unfold bindS at 1. cbn [ret].
unfold bindS at 1. cbn [self fst]. rewrite Ha. reflexivity.
Qed.

(** X17: data of a closed file is not read.  When the source of a view
    hands out data that rests on a closed memory map, [_make_array] raises
    [OSError]; the view is left without a cached array, also when it held
    one that had gone stale. *)
Theorem make_array_refuses_closed_file
  (v : view) (w w1 : world) (cb : callback) (data : ndarray) :
  _source v = SrcCallback cb ->
  (forall a, _array v = Some a -> stale a w = true) ->
  call_source cb "cached_data" w = (Ok (SvArray data), w1) ->
  on_closed_mmap data w1 = true ->
  _make_array (v, w)
  = (Raise (OSError "Attempt to read data from a closed file"),
     (set_array v None, w1)).
Proof.
intros Hsrc Hstale Hcall Hclosed.
assert (E : _make_array (v, w) = _make_array (set_array v None, w)).
{ destruct (_array v) as [a|] eqn:Ha.
  - apply (make_array_stale v w a Ha). apply Hstale. reflexivity.
  - rewrite (set_array_none v Ha). reflexivity. }
rewrite E. rewrite make_array_unloaded by reflexivity.
cbn [set_array _source]. rewrite Hsrc.
unfold bindS at 1. unfold in_world. cbn [snd fst]. rewrite Hcall.
unfold bindS at 1. cbn [the_world snd]. rewrite Hclosed. reflexivity.
Qed.

(** X18: a mask that cannot be applied leaves the array without it.  When
    a view that is not materialized gets its data and lays the array over
    it, and applying the mask then raises, [_make_array] raises the same
    exception but the view keeps the array without its mask; the next call
    returns that array as if it were the result. *)
Theorem make_array_keeps_unmasked_array
  (v : view) (w w1 w2 w3 : world) (cb : callback) (data a : ndarray)
  (resolved : list node) (e : exn) :
  _array v = None ->
  _source v = SrcCallback cb ->
  call_source cb "cached_data" w = (Ok (SvArray data), w1) ->
  on_closed_mmap data w1 = false ->
  (l <- shape_list (_shape v) ;;
   get_actual_shape l (_strides v) (_dtype v) (a_size data)) = Ok resolved ->
  np_ndarray resolved (_dtype v) data (_offset v) (_strides v) (_order v) w1
  = (Ok a, w2) ->
  _apply_mask a (_mask v) w2 = (Raise e, w3) ->
  _make_array (v, w) = (Raise e, (set_array v (Some a), w3))
  /\ a_mask a = NotMasked
  /\ (stale a w3 = false ->
      _make_array (set_array v (Some a), w3)
      = (Ok a, (set_array v (Some a), w3))).
Proof.
intros Ha Hsrc Hcall Hopen Hshape Hnew Hmask. split; [|split].
- rewrite make_array_unloaded by exact Ha. rewrite Hsrc.
  unfold bindS at 1. unfold in_world. cbn [snd fst]. rewrite Hcall.
  unfold bindS at 1. cbn [the_world snd]. rewrite Hopen.
  unfold bindS at 1. cbn [lift]. rewrite Hshape.
  unfold bindS at 1. cbn [snd fst]. rewrite Hnew.
  unfold bindS at 1. cbn [assign_array fst snd].
  unfold bindS at 1. cbn [snd fst]. rewrite Hmask.
  reflexivity.
- unfold np_ndarray in Hnew.
  do 5 (apply bindS_ok in Hnew; destruct Hnew as [? [? [H1 Hnew]]];
        apply lift_ok in H1; destruct H1 as [_ ->]).
  apply alloc_ok in Hnew. destruct Hnew as [-> _]. reflexivity.
- intros Hst. apply make_array_fresh_cache; [reflexivity | exact Hst].
Qed.

(** ** Reading a view from the tree *)

(** X19: an array in an internal block is read lazily.  For a mapping
    with an integer source and no data, in a document that loads lazily,
    [from_tree] asks the block provider for the callback of that block and
    never calls it: the view comes back unloaded, with the declared shape,
    mask and strides, offset 0 unless one is given and order ["A"]; the
    only things recorded are the request for the callback and the two
    assignments of the view to its block and to its callback. *)
Theorem from_tree_block_is_lazy
  (d : list (string * node)) (ctx : asdf_file) (w : world)
  (index : Z) (byteorder datatype : node) (t : dtype_like) (cb : callback) :
  dict_get "source" d = Some (NInt index) ->
  dict_get "data" d = None ->
  dict_get "byteorder" d = Some byteorder ->
  dict_get "datatype" d = Some datatype ->
  asdf_datatype_to_numpy_dtype datatype byteorder = Ok t ->
  _get_data_callback ctx index = Ok cb ->
  lazy_load ctx = true ->
  from_tree (NDict d) ctx w
  = (Ok (mk_view (w_next w) (SrcCallback cb) None
                 (dict_get_default "mask" NNone d)
                 (dict_get_default "shape" NNone d) (Some t)
                 (dict_get_default "offset" (NInt 0) d)
                 (dict_get_default "strides" NNone d) (NStr "A")),
     logged (AssignCallback (w_next w) (cb_id cb))
       (logged (AssignBlock (w_next w) index)
          (logged (GetDataCallback index) (drawn 1 w)))).
Proof.
intros Hsrc Hdata Hbo Hdt Hdec Hcb Hlazy.
assert (Es : dict_get_default "source" NNone d = NInt index)
  by (unfold dict_get_default; rewrite Hsrc; reflexivity).
assert (Ed : dict_get_default "data" NNone d = NNone)
  by (unfold dict_get_default; rewrite Hdata; reflexivity).
unfold from_tree. rewrite Es, Ed.
cbn [truthy andb is_none negb is_int].
rewrite andb_false_r. rewrite Hbo, Hdt.
unfold bindS at 1. cbn [lift].
unfold bindS at 1. cbn [lift]. rewrite Hdec. cbn [bind].
unfold bindS at 1. unfold bindS at 1. cbn [lift int_of_node].
unfold bindS at 1. cbn [emit].
unfold bindS at 1. cbn [lift]. rewrite Hcb.
unfold bindS at 1. unfold __init__. unfold bindS at 1. cbn [fresh].
unfold bindS at 1. cbn [ret].
unfold bindS at 1. cbn [emit v_id].
unfold bindS at 1. cbn [emit v_id ret w_next w_closed w_released w_events].
rewrite Hlazy. reflexivity.
Qed.

(** X20: an external array is opened on first use only, and only while
    the document is there.  For a mapping whose source is a name, in a
    document that loads lazily, [from_tree] opens nothing and records
    nothing; the view it returns is unloaded.  Materializing that view
    once the document has been released raises [OSError], without any
    attempt to open the file and leaving the view unloaded. *)
Theorem from_tree_external_opens_on_use
  (d : list (string * node)) (ctx : asdf_file) (w w' : world)
  (name : string) (v : view) :
  dict_get "source" d = Some (NStr name) ->
  dict_get "data" d = None ->
  lazy_load ctx = true ->
  from_tree (NDict d) ctx w = (Ok v, w') ->
  w' = drawn 2 w
  /\ _array v = None
  /\ _source v = SrcCallback (external_callback (w_next w) ctx name)
  /\ forall later,
       existsb (Nat.eqb (ctx_id ctx)) (w_released later) = true ->
       _make_array (v, later)
       = (Raise (OSError "Failed to resolve reference to AsdfFile to read external block"),
          (v, logged (CallSource (w_next w) "cached_data") later)).
Proof.
intros Hsrc Hdata Hlazy H.
assert (Es : dict_get_default "source" NNone d = NStr name)
  by (unfold dict_get_default; rewrite Hsrc; reflexivity).
assert (Ed : dict_get_default "data" NNone d = NNone)
  by (unfold dict_get_default; rewrite Hdata; reflexivity).
unfold from_tree in H. rewrite Es, Ed in H.
cbn [truthy andb is_none negb is_int] in H. rewrite andb_false_r in H.
apply bindS_ok in H. destruct H as [bo [w1 [H1 H]]].
apply lift_ok in H1. destruct H1 as [_ ->].
apply bindS_ok in H. destruct H as [dt [w1 [H1 H]]].
apply lift_ok in H1. destruct H1 as [_ ->].
apply bindS_ok in H. destruct H as [inst [w1 [Hi H]]].
rewrite Hlazy in H. cbn [negb ret] in H. inversion H. subst inst w1. clear H.
unfold bindS, fresh, __init__, ret in Hi. cbn in Hi. inversion Hi. subst v w'.
clear Hi. cbn [_array _source]. repeat split.
intros later Hreleased.
rewrite make_array_unloaded by reflexivity. cbn [_source].
unfold bindS at 1. unfold in_world, call_source. cbn [snd fst].
unfold bindS at 1. cbn [emit cb_id external_callback cb_call].
unfold bindS at 1. cbn [w_released]. rewrite Hreleased. reflexivity.
Qed.

(** X21: the description is checked before anything is created.  A
    mapping without data and without a byte order makes [from_tree] raise
    [KeyError]; a datatype that does not decode makes it raise what the
    decoder raised; in both cases no view has been made and the block
    provider has not been asked for anything. *)
Theorem from_tree_checks_description_first
  (d : list (string * node)) (ctx : asdf_file) (w : world) :
  truthy (dict_get_default "source" NNone d)
  && truthy (dict_get_default "data" NNone d) = false ->
  (is_none (dict_get_default "data" NNone d) = true ->
   dict_get "byteorder" d = None ->
   from_tree (NDict d) ctx w = (Raise (KeyError "byteorder"), w))
  /\ (forall byteorder datatype e,
        (if is_none (dict_get_default "data" NNone d)
         then dict_get "byteorder" d = Some byteorder
         else byteorder = NStr (endian_name sys_byteorder)) ->
        dict_get "datatype" d = Some datatype ->
        asdf_datatype_to_numpy_dtype datatype byteorder = Raise e ->
        from_tree (NDict d) ctx w = (Raise e, w)).
Proof.
intros Hboth. split.
- intros Hnone Hbo. unfold from_tree. rewrite Hboth, Hnone, Hbo. reflexivity.
- intros byteorder datatype e Hbo Hdt Hdec. unfold from_tree. rewrite Hboth.
  destruct (is_none (dict_get_default "data" NNone d)); cbn [negb].
  + rewrite Hbo, Hdt. unfold bindS at 1. cbn [lift].
    unfold bindS at 1. cbn [lift]. rewrite Hdec. reflexivity.
  + subst byteorder. rewrite Hdt. unfold bindS at 1. cbn [lift].
    unfold bindS at 1. cbn [lift]. rewrite Hdec. reflexivity.
Qed.

(** X22: with lazy loading off, nothing that [from_tree] returns is left
    unloaded: whatever the node, the view holds its array. *)
Theorem from_tree_loads_eagerly
  (node : node) (ctx : asdf_file) (w w' : world) (v : view) :
  lazy_load ctx = false ->
  from_tree node ctx w = (Ok v, w') ->
  exists a, _array v = Some a.
Proof.
intros Hlazy H. destruct node as [|b|z|f|s|l|d|ref]; try discriminate H.
- cbn [from_tree] in H.
  apply bindS_ok in H. destruct H as [inst [w1 [Hi H]]].
  apply init_inline_source in Hi.
  apply bindS_ok in H. destruct H as [u [w2 [_ H]]].
  inversion H. subst. exact (proj2 Hi).
- cbn [from_tree] in H.
  destruct (truthy (dict_get_default "source" NNone d)
            && truthy (dict_get_default "data" NNone d)); [discriminate H|].
  apply bindS_ok in H. destruct H as [bo [w1 [_ H]]].
  apply bindS_ok in H. destruct H as [dt [w2 [_ H]]].
  apply bindS_ok in H. destruct H as [inst [w3 [_ H]]].
  rewrite Hlazy in H. cbn [negb] in H.
  apply bindS_ok in H. destruct H as [[r v'] [w4 [Hm H]]].
  inversion H. subst v w4. clear H. cbn [snd].
  apply call_method_ok in Hm. apply make_array_caches in Hm.
  cbn [fst] in Hm. exists r. exact (proj1 Hm).
Qed.

(** ** Writing an array to the tree *)

(** X23: how the storage kind is settled.  The kind set for all arrays in
    the configuration replaces the array's own.  With an inline threshold,
    a kind of ["inline"] or ["internal"] is then decided by the size alone:
    ["inline"] below the threshold and ["internal"] from it on, so that
    asking for inline storage does not keep a large array inline; every
    other kind is left alone.  Without a threshold the requested kind
    stands. *)
Theorem threshold_decides_inline (cfg : config) (options : Options) (size : Z) :
  let kind := requested_storage cfg options in
  let settled := storage_type (settle_options cfg options size) in
  (forall threshold,
     array_inline_threshold cfg = Some threshold ->
     (kind = "inline"%string \/ kind = "internal"%string ->
      settled = if size <? threshold then "inline"%string else "internal"%string)
     /\ (kind <> "inline"%string -> kind <> "internal"%string -> settled = kind))
  /\ (array_inline_threshold cfg = None -> settled = kind).
Proof.
intros kind settled. subst kind settled. unfold settle_options, requested_storage.
set (o1 := match all_array_storage cfg with
           | Some kind => mk_options kind (compression options) (compression_kwargs options)
           | None => options
           end).
assert (E1 : storage_type o1
             = match all_array_storage cfg with
               | Some kind => kind
               | None => storage_type options
               end)
  by (unfold o1; destruct (all_array_storage cfg); reflexivity).
set (o2 := if match all_array_compression cfg with
              | NStr c => String.eqb c "input"
              | _ => false
              end
           then o1
           else mk_options (storage_type o1) (all_array_compression cfg)
                           (all_array_compression_kwargs cfg)).
assert (E2 : storage_type o2 = storage_type o1)
  by (unfold o2; destruct (match all_array_compression cfg with
                           | NStr c => String.eqb c "input"
                           | _ => false
                           end); reflexivity).
rewrite <- E1, <- E2. split.
- intros threshold ->. split.
  + intros [E|E]; rewrite E; cbn; reflexivity.
  + intros Hi Hn.
    destruct (String.eqb_spec (storage_type o2) "inline") as [E|_]; [contradiction|].
    destruct (String.eqb_spec (storage_type o2) "internal") as [E|_]; [contradiction|].
    reflexivity.
- intros ->. reflexivity.
Qed.

Lemma dict_get_app (key : string) (a b : list (string * node)) :
  dict_get key (a ++ b)
  = match dict_get key a with Some x => Some x | None => dict_get key b end.
Proof.
induction a as [|[k x] a IH]; [reflexivity|]. cbn.
destruct (String.eqb k key); [reflexivity | exact IH].
Qed.

Lemma byteorder_name_cases (bo : byteorder_char) :
  numpy_byteorder_to_asdf_byteorder bo None = "big"%string
  \/ numpy_byteorder_to_asdf_byteorder bo None = "little"%string.
Proof.
destruct host_cases as [E|E]; destruct bo; cbn; rewrite ?E; cbn; auto.
Qed.

Lemma encoded_byteorder_cases (d : np_dtype) :
  forall ib desc order,
    numpy_dtype_to_asdf_datatype d ib None = Ok (desc, order) ->
    order = "big"%string \/ order = "little"%string.
Proof.
assert (Hleaf : forall d' desc order,
  (let name := dtype_name d' in
   if table_has name _datatype_names
   then Ok (NStr name, numpy_byteorder_to_asdf_byteorder (dtype_byteorder d') None)
   else if String.eqb name "bool"
   then Ok (NStr "bool8", numpy_byteorder_to_asdf_byteorder (dtype_byteorder d') None)
   else if prefix "string" name || prefix "bytes" name
   then Ok (NList [NStr "ascii"; NInt (itemsize d')], "big"%string)
   else if prefix "unicode" name || prefix "str" name
   then Ok (NList [NStr "ucs4"; NInt (Z.quot (itemsize d') 4)],
            numpy_byteorder_to_asdf_byteorder (dtype_byteorder d') None)
   else Raise (ValueError "Unknown dtype")) = Ok (desc, order) ->
  order = "big"%string \/ order = "little"%string).
{ intros d' desc order H. cbv zeta in H.
  repeat match type of H with
         | (if ?c then _ else _) = _ => destruct c
         end;
    inversion H; subst; try (left; reflexivity);
    exact (byteorder_name_cases (dtype_byteorder d')). }
induction d using np_dtype_nested_ind; intros ib desc order He.
- exact (Hleaf _ _ _ He).
- exact (Hleaf _ _ _ He).
- exact (Hleaf _ _ _ He).
- exact (IHd true desc order He).
- rewrite encode_struct in He.
  destruct (for_each (encode_field ib None) fields); [|discriminate He].
  inversion He. left. reflexivity.
Qed.

Ltac to_tree_step H x w :=
  apply bindS_ok in H; destruct H as [x [w [? H]]].

(** X24: what [to_tree] returns can be read back.  Every result has a
    shape and a datatype, and it is either inline, with the data and
    neither source nor byte order, or stored in a block, with a source, no
    data, and a byte order that is ["big"] or ["little"]; so it never holds
    both a source and data.  The source is the sentinel [-1] of a streamed
    block or what the block provider answered: an index or, for external
    storage, the name of a file. *)
Theorem to_tree_payload_is_readable
  (obj : array_like) (cfg : config) (ctx : asdf_file) (w w' : world)
  (result : list (string * node)) :
  to_tree obj cfg ctx w = (Ok result, w') ->
  (exists shape, dict_get "shape" result = Some (NList shape))
  /\ (exists datatype, dict_get "datatype" result = Some datatype)
  /\ ((exists data,
         dict_get "data" result = Some data
         /\ dict_get "source" result = None
         /\ dict_get "byteorder" result = None)
      \/ (exists source order,
            dict_get "source" result = Some source
            /\ (source = NInt (-1)
                \/ exists block options array_id,
                     make_write_block ctx block options array_id = Ok source)
            /\ dict_get "data" result = None
            /\ dict_get "byteorder" result = Some (NStr order)
            /\ (order = "big"%string \/ order = "little"%string))).
Proof.
intros H. unfold to_tree in H.
to_tree_step H start w1. destruct start as [[data_id data] is_view]. cbv beta iota in H.
to_tree_step H step w2. destruct step as [[data_id2 data2] is_view2]. cbv beta iota in H.
to_tree_step H step w3.
destruct step as [[[data_id3 data3] is_view3] [base_id base]]. cbv beta iota in H.
to_tree_step H options w4.
to_tree_step H u w5.
to_tree_step H encoded w6. destruct encoded as [dtype byteorder]. cbv beta iota in H.
match goal with
| Hx : lift _ _ = (Ok (dtype, byteorder), _) |- _ =>
    apply lift_ok in Hx; destruct Hx as [Hx _]; rename Hx into Henc
end.
to_tree_step H result_shape w7.
to_tree_step H payload w8.
assert (Hpayload :
  (exists shape, dict_get "shape" payload = Some (NList shape))
  /\ (exists datatype, dict_get "datatype" payload = Some datatype)
  /\ dict_get "mask" payload = None
  /\ ((exists data,
         dict_get "data" payload = Some data
         /\ dict_get "source" payload = None
         /\ dict_get "byteorder" payload = None)
      \/ (exists source order,
            dict_get "source" payload = Some source
            /\ (source = NInt (-1)
                \/ exists block options array_id,
                     make_write_block ctx block options array_id = Ok source)
            /\ dict_get "data" payload = None
            /\ dict_get "byteorder" payload = Some (NStr order)
            /\ (order = "big"%string \/ order = "little"%string)))).
{ match goal with
  | Hp : (if ?inline then _ else _) _ = (Ok payload, _) |- _ =>
      destruct inline eqn:Hinline; [inversion Hp; subst payload; clear Hp|rename Hp into Hblock]
  end.
  - cbn. split; [eauto|]. split; [eauto|]. split; [reflexivity|]. left. eauto.
  - to_tree_step Hblock rs w9.
    apply bindS_ok in Hblock. destruct Hblock as [blk [w10 [Hsrc Hblock]]].
    assert (Hs : blk = NInt (-1)
                 \/ exists block options array_id,
                      make_write_block ctx block options array_id = Ok blk).
    { match type of Hsrc with
      | (if ?streamed then _ else _) _ = _ => destruct streamed
      end.
      - unfold bindS in Hsrc. cbn [emit ret] in Hsrc. inversion Hsrc. left. reflexivity.
      - apply bindS_ok in Hsrc. destruct Hsrc as [u0 [w11 [_ Hsrc]]].
        apply lift_ok in Hsrc. destruct Hsrc as [Hsrc _]. right. eauto. }
    inversion Hblock. subst payload. clear Hblock.
    apply encoded_byteorder_cases in Henc.
    cbn [app dict_get String.eqb Ascii.eqb Bool.eqb]. rewrite ?dict_get_app.
    split; [eauto|]. split; [eauto|]. split.
    + destruct (0 <? a_address data3 - a_address base);
        destruct (if c_contiguous data3 then None else Some (a_strides data3));
        reflexivity.
    + right. exists blk, byteorder.
      split; [reflexivity|]. split; [exact Hs|]. split; [|split; [|exact Henc]].
      * destruct (0 <? a_address data3 - a_address base);
          destruct (if c_contiguous data3 then None else Some (a_strides data3));
          reflexivity.
      * reflexivity. }
destruct Hpayload as [Hshape [Hdatatype [Hmask Hkind]]].
match type of H with
| (if ?c then _ else _) _ = _ => destruct c
end.
- to_tree_step H u2 w9. to_tree_step H m w10. inversion H. subst result.
  rewrite !dict_get_app.
  destruct Hshape as [shape ->]. destruct Hdatatype as [datatype ->].
  split; [eauto|]. split; [eauto|].
  destruct Hkind as [[x [-> [-> ->]]]|[src [order [-> [Hs [-> [-> Ho]]]]]]]; cbn.
  + left. eauto.
  + right. exists src, order. auto.
- inversion H. subst result.
  split; [exact Hshape|]. split; [exact Hdatatype|]. exact Hkind.
Qed.

Lemma np_ascontiguousarray_total (a : ndarray) (w : world) :
  exists r w',
    np_ascontiguousarray a w = (Ok r, w')
    /\ a_dtype r = a_dtype a /\ w_events w' = w_events w.
Proof.
unfold np_ascontiguousarray.
destruct (c_contiguous a && match a_shape a with [] => false | _ => true end);
  [destruct (match a_mask a with NotMasked => negb (a_memmap a) | _ => false end)|];
  cbn; eexists; eexists; repeat split.
Qed.

(** X25: an array whose element type has no name in the format cannot be
    written.  [to_tree] raises [ValueError] for it, whatever the settings;
    by then the storage options of the array have been set, but no block
    has been asked for. *)
Theorem to_tree_refuses_unnamed_types
  (a : ndarray) (cfg : config) (ctx : asdf_file) (w : world) :
  encodable (a_dtype a) = false ->
  exists w',
    to_tree (ObjArray a) cfg ctx w = (Raise (ValueError "Unknown dtype"), w')
    /\ (exists i kind more,
          w_events w' = SetOptions i kind :: more)
    /\ existsb requests_block (w_events w') = existsb requests_block (w_events w).
Proof.
intros Hd. unfold to_tree.
unfold bindS at 1. cbn [ret].
assert (S1 : exists id1 d1 w1,
  (if existsb (Z.eqb 0) (a_strides a)
   then x <~ np_ascontiguousarray a ;; ret (a_id x, x, false)
   else ret (a_id a, a, false)) w = (Ok (id1, d1, false), w1)
  /\ a_dtype d1 = a_dtype a /\ w_events w1 = w_events w).
{ destruct (existsb (Z.eqb 0) (a_strides a)).
  - destruct (np_ascontiguousarray_total a w) as [r [w1 [H1 [H2 H3]]]].
    exists (a_id r), r, w1. unfold bindS. rewrite H1. cbn. auto.
  - exists (a_id a), a, w. cbn. auto. }
destruct S1 as [id1 [d1 [w1 [E1 [Hd1 He1]]]]].
unfold bindS at 1. rewrite E1.
match goal with |- context [bindS ?m _ w1] =>
  assert (S2 : exists id2 d2 idb b w2,
    m w1 = (Ok (id2, d2, false, (idb, b)), w2)
    /\ a_dtype d2 = a_dtype a /\ w_events w2 = w_events w) end.
{ destruct (match a_base d1 with
            | BaseArray b => (a_id (get_array_base b), get_array_base b)
            | _ => (id1, d1)
            end) as [idb b] eqn:Eb.
  destruct (negb (forc b)).
  - destruct (np_ascontiguousarray_total d1 w1) as [r [w2 [H1 [H2 H3]]]].
    unfold bindS. rewrite H1. cbn [ret].
    destruct (match a_base r with
              | BaseArray b0 => (a_id (get_array_base b0), get_array_base b0)
              | _ => (a_id r, r)
              end) as [idb' b'] eqn:Eb'.
    exists (a_id r), r, idb', b', w2. split; [reflexivity|].
    split; congruence.
  - exists id1, d1, idb, b, w1. cbn [ret]. auto. }
destruct S2 as [id2 [d2 [idb [b [w2 [E2 [Hd2 He2]]]]]]].
unfold bindS at 1. rewrite E2.
unfold bindS at 1. cbn [emit ret].
unfold bindS at 1. cbn [emit ret].
unfold bindS at 1. cbn [emit].
unfold bindS at 1. cbn [lift].
rewrite Hd2.
destruct (encodes_or_unknown_all (a_dtype a)
            (negb (String.eqb (storage_type
                                 (settle_options cfg (get_options ctx id2) (a_size d2)))
                              "inline")) None) as [_ Hn].
rewrite (Hn Hd). eexists. split; [reflexivity|].
cbn [w_events existsb requests_block orb]. split; [eauto|]. rewrite He2. reflexivity.
Qed.

(** ** What the validators report *)

Lemma with_yielded_nil (r : run) : with_yielded r [] = r.
Proof. destruct r. unfold with_yielded. cbn. rewrite app_nil_r. reflexivity. Qed.

Lemma with_yielded_app (r : run) (a b : list string) :
  with_yielded (with_yielded r a) b = with_yielded r (a ++ b).
Proof. unfold with_yielded. cbn. rewrite app_assoc. reflexivity. Qed.

Lemma yield_with (message : string) (r : run) :
  yield message r = (Ok tt, with_yielded r [message]).
Proof. reflexivity. Qed.

(** X26: the maximum-dimension validator has no answer for a candidate
    that is not array-like: comparing the missing dimension count with the
    bound raises [TypeError], and nothing is yielded. *)
Theorem validate_max_ndim_raises_on_non_arrays
  (r : run) (max_ndim : node) (schema : list (string * node)) :
  not_array_like (candidate r) ->
  validate_max_ndim max_ndim schema r
  = (Raise (TypeError "'>' not supported between these instances"), r).
Proof.
intros H. unfold validate_max_ndim. unfold bindS at 1.
rewrite (get_ndim_not_array_like r H). reflexivity.
Qed.

(** X27: on a mapping the declared shape is what counts.  When the
    candidate is a mapping whose shape is a list, [validate_ndim] yields its
    diagnostic exactly when the length of that list differs from the
    expected number, and [validate_max_ndim] exactly when it exceeds the
    bound; neither looks at the data of the mapping nor creates anything. *)
Theorem validate_ndim_counts_declared_shape
  (r : run) (d : list (string * node)) (declared : list node) (n : Z)
  (schema : list (string * node)) :
  candidate r = INode (NDict d) ->
  dict_get "shape" d = Some (NList declared) ->
  validate_ndim (NInt n) schema r
  = (Ok tt,
     with_yielded r (if Z.of_nat (List.length declared) =? n then []
                     else ["Wrong number of dimensions"%string]))
  /\ validate_max_ndim (NInt n) schema r
     = (Ok tt,
        with_yielded r (if n <? Z.of_nat (List.length declared)
                        then ["Wrong number of dimensions: Expected max"%string]
                        else [])).
Proof.
intros Hc Hs. split.
- unfold validate_ndim. unfold bindS at 1.
  rewrite (get_ndim_declared_shape r d declared Hc Hs).
  cbn [ndim_differs node_eq_int]. rewrite Z.eqb_sym.
  destruct (Z.of_nat (List.length declared) =? n); cbn [negb].
  + rewrite with_yielded_nil. reflexivity.
  + apply yield_with.
- unfold validate_max_ndim. unfold bindS at 1.
  rewrite (get_ndim_declared_shape r d declared Hc Hs).
  cbn [ndim_exceeds]. unfold bindS at 1. cbn [lift].
  destruct (n <? Z.of_nat (List.length declared)).
  + apply yield_with.
  + rewrite with_yielded_nil. reflexivity.
Qed.

Lemma validate_datatype_declared
  (r : run) (d : list (string * node)) (datatype in_datatype : node)
  (schema : list (string * node)) (t_out t_in : dtype_like) :
  candidate r = INode (NDict d) ->
  dict_get "datatype" d = Some in_datatype ->
  node_eqb datatype in_datatype = false ->
  asdf_datatype_to_numpy_dtype datatype NNone = Ok t_out ->
  asdf_datatype_to_numpy_dtype in_datatype NNone = Ok t_in ->
  validate_datatype datatype schema r
  = (out_fields <~ lift (fields_attr t_out) ;;
     if negb (has_fields out_fields) then
       in_fields <~ lift (fields_attr t_in) ;;
       _ <~ (if has_fields in_fields
             then yield "Expected scalar datatype"
             else ret tt) ;;
       match t_in, t_out with
       | AsDtype d_in, AsDtype d_out =>
           if negb (np_can_cast d_in d_out)
           then yield "Can not safely cast"
           else ret tt
       | _, _ => raise (TypeError "data type not understood")
       end
     else
       in_fields <~ lift (fields_attr t_in) ;;
       _ <~ (if negb (has_fields in_fields)
             then yield "Expected structured datatype"
             else ret tt) ;;
       n_in <~ lift (len_fields in_fields) ;;
       n_out <~ lift (len_fields out_fields) ;;
       _ <~ (if negb (Nat.eqb n_in n_out)
             then yield "Mismatch in number of columns"
             else ret tt) ;;
       check_fields in_fields out_fields 0 n_out)
      (with_yielded r
         (if truthy (dict_get_default "exact_datatype" (NBool false) schema)
          then ["Expected datatype"%string] else [])).
Proof.
intros Hc Hd Hne Hout Hin. unfold validate_datatype.
unfold bindS at 1. cbn [the_candidate]. rewrite Hc, Hd.
unfold bindS at 1. cbn [ret]. rewrite Hne.
unfold bindS at 1.
destruct (truthy (dict_get_default "exact_datatype" (NBool false) schema)).
- rewrite yield_with.
  unfold bindS at 1. cbn [lift]. rewrite Hout.
  unfold bindS at 1. cbn [lift]. rewrite Hin. reflexivity.
- cbn [ret]. rewrite with_yielded_nil.
  unfold bindS at 1. cbn [lift]. rewrite Hout.
  unfold bindS at 1. cbn [lift]. rewrite Hin. reflexivity.
Qed.

(** X28: the datatype validator against an expected type without fields.
    On a mapping whose declared datatype differs from the expected one, and
    when both decode to dtypes, the validator does not raise; what it yields
    is, in this order, the diagnostic of an inexact match if the schema
    asks for exact datatypes, the diagnostic of a structured candidate if
    the candidate has fields, and the diagnostic of an unsafe cast if numpy
    cannot cast the candidate's type to the expected one. *)
Theorem validate_datatype_against_scalar
  (r : run) (d : list (string * node)) (datatype in_datatype : node)
  (schema : list (string * node)) (d_out d_in : np_dtype) :
  candidate r = INode (NDict d) ->
  dict_get "datatype" d = Some in_datatype ->
  node_eqb datatype in_datatype = false ->
  asdf_datatype_to_numpy_dtype datatype NNone = Ok (AsDtype d_out) ->
  asdf_datatype_to_numpy_dtype in_datatype NNone = Ok (AsDtype d_in) ->
  has_fields (dtype_fields d_out) = false ->
  validate_datatype datatype schema r
  = (Ok tt,
     with_yielded r
       ((if truthy (dict_get_default "exact_datatype" (NBool false) schema)
         then ["Expected datatype"%string] else [])
        ++ (if has_fields (dtype_fields d_in)
            then ["Expected scalar datatype"%string] else [])
        ++ (if np_can_cast d_in d_out then []
            else ["Can not safely cast"%string]))).
Proof.
intros Hc Hd Hne Hout Hin Hscalar.
rewrite (validate_datatype_declared r d datatype in_datatype schema _ _
           Hc Hd Hne Hout Hin).
unfold bindS at 1. cbn [lift fields_attr]. rewrite Hscalar. cbn [negb].
unfold bindS at 1. cbn [lift fields_attr].
unfold bindS at 1.
destruct (has_fields (dtype_fields d_in)).
- rewrite yield_with, with_yielded_app.
  destruct (np_can_cast d_in d_out); cbn [negb].
  + cbn [ret]. rewrite app_nil_r. reflexivity.
  + rewrite yield_with, with_yielded_app. rewrite <- app_assoc. reflexivity.
- cbn [ret app].
  destruct (np_can_cast d_in d_out); cbn [negb].
  + cbn [ret]. rewrite app_nil_r. reflexivity.
  + rewrite yield_with, with_yielded_app. reflexivity.
Qed.

(** X29: a candidate without fields checked against a structured type
    stops the validator.  It yields the diagnostic of the missing
    structure (after that of an inexact match, if asked for) and then
    raises [TypeError], as the fields of the candidate cannot be counted. *)
Theorem validate_datatype_structured_against_scalar
  (r : run) (d : list (string * node)) (datatype in_datatype : node)
  (schema : list (string * node)) (d_out d_in : np_dtype) :
  candidate r = INode (NDict d) ->
  dict_get "datatype" d = Some in_datatype ->
  node_eqb datatype in_datatype = false ->
  asdf_datatype_to_numpy_dtype datatype NNone = Ok (AsDtype d_out) ->
  asdf_datatype_to_numpy_dtype in_datatype NNone = Ok (AsDtype d_in) ->
  has_fields (dtype_fields d_out) = true ->
  dtype_fields d_in = None ->
  validate_datatype datatype schema r
  = (Raise (TypeError "object of type 'NoneType' has no len()"),
     with_yielded r
       ((if truthy (dict_get_default "exact_datatype" (NBool false) schema)
         then ["Expected datatype"%string] else [])
        ++ ["Expected structured datatype"%string])).
Proof.
intros Hc Hd Hne Hout Hin Hstruct Hnone.
rewrite (validate_datatype_declared r d datatype in_datatype schema _ _
           Hc Hd Hne Hout Hin).
unfold bindS at 1. cbn [lift fields_attr]. rewrite Hstruct. cbn [negb].
unfold bindS at 1. cbn [lift fields_attr]. rewrite Hnone. cbn [has_fields negb].
unfold bindS at 1. rewrite yield_with, with_yielded_app.
unfold bindS at 1. cbn [lift len_fields]. reflexivity.
Qed.

Lemma keeps_bind {A B : Type} (m : G A) (k : A -> G B) :
  keeps m -> (forall a, keeps (k a)) -> keeps (bindS m k).
Proof.
intros Hm Hk r. unfold bindS. specialize (Hm r).
destruct (m r) as [[a|e] r1]; cbn [snd] in *.
- destruct (Hk a r1) as [H1 H2]. destruct Hm as [H3 H4]. split; congruence.
- exact Hm.
Qed.

Lemma keeps_lift {A : Type} (x : result A) : keeps (lift x).
Proof. intros r. split; reflexivity. Qed.

Lemma keeps_ret {A : Type} (a : A) : keeps (ret (S := run) a).
Proof. intros r. split; reflexivity. Qed.

Lemma keeps_raise {A : Type} (e : exn) : keeps (raise (S := run) (A := A) e).
Proof. intros r. split; reflexivity. Qed.

Lemma keeps_yield (message : string) : keeps (yield message).
Proof. intros r. split; reflexivity. Qed.

Lemma keeps_check_fields (in_fields out_fields : option (list (string * (np_dtype * Z))))
      (count : nat) :
  forall i, keeps (check_fields in_fields out_fields i count).
Proof.
induction count as [|count IH]; intros i; cbn [check_fields].
- apply keeps_ret.
- apply keeps_bind; [apply keeps_lift|]. intros in_type.
  apply keeps_bind; [apply keeps_lift|]. intros out_type.
  apply keeps_bind.
  + destruct (negb (np_can_cast in_type out_type)); [|apply keeps_ret].
    apply keeps_bind; [apply keeps_lift|]. intros _.
    apply keeps_bind; [apply keeps_lift|]. intros _.
    apply keeps_yield.
  + intros _. apply IH.
Qed.

Lemma keeps_compare (datatype in_datatype : node) (schema : list (string * node)) :
  keeps (if node_eqb datatype in_datatype then ret tt
         else
           _ <~ (if truthy (dict_get_default "exact_datatype" (NBool false) schema)
                 then yield "Expected datatype"
                 else ret tt) ;;
           np_datatype <~ lift (asdf_datatype_to_numpy_dtype datatype NNone) ;;
           np_in_datatype <~ lift (asdf_datatype_to_numpy_dtype in_datatype NNone) ;;
           out_fields <~ lift (fields_attr np_datatype) ;;
           if negb (has_fields out_fields) then
             in_fields <~ lift (fields_attr np_in_datatype) ;;
             _ <~ (if has_fields in_fields
                   then yield "Expected scalar datatype"
                   else ret tt) ;;
             match np_in_datatype, np_datatype with
             | AsDtype d_in, AsDtype d_out =>
                 if negb (np_can_cast d_in d_out)
                 then yield "Can not safely cast"
                 else ret tt
             | _, _ => raise (TypeError "data type not understood")
             end
           else
             in_fields <~ lift (fields_attr np_in_datatype) ;;
             _ <~ (if negb (has_fields in_fields)
                   then yield "Expected structured datatype"
                   else ret tt) ;;
             n_in <~ lift (len_fields in_fields) ;;
             n_out <~ lift (len_fields out_fields) ;;
             _ <~ (if negb (Nat.eqb n_in n_out)
                   then yield "Mismatch in number of columns"
                   else ret tt) ;;
             check_fields in_fields out_fields 0 n_out).
Proof.
destruct (node_eqb datatype in_datatype); [apply keeps_ret|].
apply keeps_bind.
{ destruct (truthy _); [apply keeps_yield | apply keeps_ret]. }
intros _. apply keeps_bind; [apply keeps_lift|]. intros np_datatype.
apply keeps_bind; [apply keeps_lift|]. intros np_in_datatype.
apply keeps_bind; [apply keeps_lift|]. intros out_fields.
destruct (negb (has_fields out_fields)).
- apply keeps_bind; [apply keeps_lift|]. intros in_fields.
  apply keeps_bind.
  { destruct (has_fields in_fields); [apply keeps_yield | apply keeps_ret]. }
  intros _. destruct np_in_datatype, np_datatype; try apply keeps_raise.
  destruct (negb _); [apply keeps_yield | apply keeps_ret].
- apply keeps_bind; [apply keeps_lift|]. intros in_fields.
  apply keeps_bind.
  { destruct (negb _); [apply keeps_yield | apply keeps_ret]. }
  intros _. apply keeps_bind; [apply keeps_lift|]. intros n_in.
  apply keeps_bind; [apply keeps_lift|]. intros n_out.
  apply keeps_bind.
  { destruct (negb _); [apply keeps_yield | apply keeps_ret]. }
  intros _. apply keeps_check_fields.
Qed.

Lemma run_eta (r : run) (v : view) :
  candidate r = IView v -> mk_run (yielded r) (IView v) (r_world r) = r.
Proof. destruct r. cbn. intros ->. reflexivity. Qed.

(** X30: validating does not load.  When the candidate is a view that is
    not materialized and whose declared shape holds no wildcard, the three
    validators answer from what the view declares: whatever they yield or
    raise, the view is still the same unloaded view afterwards and the
    world is as it was, so no storage source has been called. *)
Theorem validators_do_not_load
  (r : run) (v : view) (spec : list node) (x : node) (schema : list (string * node)) :
  candidate r = IView v ->
  _array v = None ->
  _shape v = NList spec ->
  existsb is_star spec = false ->
  (candidate (snd (validate_ndim x schema r)) = IView v
   /\ r_world (snd (validate_ndim x schema r)) = r_world r)
  /\ (candidate (snd (validate_max_ndim x schema r)) = IView v
      /\ r_world (snd (validate_max_ndim x schema r)) = r_world r)
  /\ (candidate (snd (validate_datatype x schema r)) = IView v
      /\ r_world (snd (validate_datatype x schema r)) = r_world r).
Proof.
intros Hc Ha Hs Hstar.
assert (Hshape : shape (v, r_world r) = (Ok spec, (v, r_world r))).
{ unfold shape, bindS, self, lift. cbn [fst snd].
  rewrite Ha, Hs. cbn. rewrite Hstar. reflexivity. }
assert (Hndim : _get_ndim r = (Ok (Some (Z.of_nat (List.length spec))), r)).
{ unfold _get_ndim. unfold bindS at 1. cbn [the_candidate]. rewrite Hc.
  unfold bindS, on_view. rewrite Hshape. cbn [ret]. rewrite (run_eta r v Hc).
  reflexivity. }
split; [|split].
- remember (validate_ndim x schema r) as res eqn:E.
  unfold validate_ndim in E. unfold bindS at 1 in E. rewrite Hndim in E.
  rewrite E, <- Hc.
  destruct (ndim_differs _ x); [apply keeps_yield | apply keeps_ret].
- remember (validate_max_ndim x schema r) as res eqn:E.
  unfold validate_max_ndim in E. unfold bindS at 1 in E. rewrite Hndim in E.
  rewrite E, <- Hc.
  apply keeps_bind; [apply keeps_lift|]. intros exceeds.
  destruct exceeds; [apply keeps_yield | apply keeps_ret].
- remember (validate_datatype x schema r) as res eqn:E.
  unfold validate_datatype in E. unfold bindS at 1 in E.
  cbn [the_candidate] in E. rewrite Hc in E.
  unfold bindS at 1 in E. unfold bindS at 1 in E. unfold bindS at 1 in E.
  unfold on_view at 1 in E. unfold dtype at 1 in E. unfold bindS at 1 in E.
  cbn [self fst] in E. rewrite Ha in E. cbn [ret] in E.
  rewrite (run_eta r v Hc) in E. cbn [lift] in E.
  rewrite <- Hc.
  destruct (np_dtype_of (_dtype v)) as [t|e]; [|rewrite E; split; reflexivity].
  unfold bindS at 1 in E. cbn [lift] in E.
  destruct (numpy_dtype_to_asdf_datatype t true None) as [encoded|e];
    [|rewrite E; split; reflexivity].
  cbn [ret fst] in E. rewrite E. apply keeps_compare.
Qed.

End NDArray.

(** * The properties at concrete inputs

    A little-endian host, and stand-ins for the conversions of numpy: every
    literal converts to the array [[1, 2]], a buffer yields no element
    contents, an assignment keeps the contents, and the tree holds no array
    objects. *)

Definition host : endian := Little.

Definition str_of_node (x : node) : string :=
match x with NStr s => s | _ => EmptyString end.

Definition int64 : np_dtype := DScalar Int64 BoNative.

Definition float64 : np_dtype := DScalar Float64 BoNative.

Definition array_1_2 : ndarray :=
mk_ndarray 0 [2] int64 [8] (IntElems [1; 2]) NotMasked BaseNone false 0.

Definition to_array_1_2 (_ : handled) (_ : option np_dtype) : result ndarray :=
Ok array_1_2.

Definition any_record (_ : list node) (_ : np_dtype) : result unit := Ok tt.

Definition tuples_to_array (_ : tupled) (_ : np_dtype) : result ndarray :=
Ok array_1_2.

Definition no_contents (_ : list Z) (_ : np_dtype) (_ : ndarray) (_ : Z) (_ : list Z)
  : result elems := Ok (IntElems []).

Definition keep_contents (a : ndarray) (_ : list node) : result elems := Ok (a_data a).

Definition refuse_assignment (_ : ndarray) (_ : list node) : result elems :=
Raise (ValueError "could not broadcast input array").

Definition empty_list (_ : ndarray) : node := NList [].

Definition cast_always (_ _ : np_dtype) : bool := true.

(** Stand-ins for what is taken as given of numpy outside the range in
    which it is spelled out: a list of sizes of any kind multiplies, the
    quotient overflows, and a mask value that the array cannot be compared
    with is refused. *)
Definition any_sizes (_ : list node) : result unit := Ok tt.

Definition no_quotient (_ : Z) (_ : stride) : result Z := Raise OverflowError.

Definition no_masked_values (_ : ndarray) (_ : scalar) : result (elems * list bool) :=
Raise (TypeError "cannot compare the array with the value").

Definition no_objects (_ : nat) : option (M ndarray) := None.

Definition world0 : world := mk_world 10 [] [] [].

(** A record with a byte, a 2x3 block of native integers, a big-endian
    5-character string and a 3-byte string, laid out one after the other. *)
Definition record_dtype : np_dtype :=
DStruct [ ("a"%string, (DScalar Int8 BoNA, 0));
          ("b"%string, (DSubarray (DScalar Int32 BoNative) [2; 3], 1));
          ("c"%string, (DUnicode 5 BoBig, 25));
          ("d"%string, (DBytes 3, 45)) ] 48.

Lemma str_of_node_str (s : string) : str_of_node (NStr s) = s.
Proof. reflexivity. Qed.

Lemma codec_roundtrip_record :
  exists desc byteorder,
    numpy_dtype_to_asdf_datatype host record_dtype true None = Ok (desc, byteorder)
    /\ asdf_datatype_to_numpy_dtype host str_of_node desc (NStr byteorder)
       = Ok (AsDtype record_dtype).
Proof.
apply (codec_roundtrip host str_of_node str_of_node_str record_dtype).
reflexivity.
Defined.


(** Sizes whose product no 64-bit integer holds wrap around: 2^32 rows of
    2^32 doubles take 2^67 bytes, which wraps around to a stride of zero. *)
Lemma get_actual_shape_wraps_around :
  get_actual_shape any_sizes no_quotient [star; NInt (2 ^ 32); NInt (2 ^ 32)] NNone
                   (Some (AsDtype float64)) 96
  = Raise OverflowError.
Proof. vm_compute. reflexivity. Qed.

(** An integer and a float are compared by their values: 2^63 is not 0.0,
    and 2^53 + 1 is not the float 2^53, which 2^53 is. *)
Lemma node_eqb_compares_exactly :
  node_eqb (NInt (2 ^ 63)) (NFloat 0%float) = false
  /\ node_eqb (NInt (2 ^ 53 + 1)) (NFloat 9007199254740992%float) = false
  /\ node_eqb (NInt (2 ^ 53)) (NFloat 9007199254740992%float) = true.
Proof. repeat split; vm_compute; reflexivity. Qed.

(** A block of 48 bytes mapped from file 7, the same block mapped again
    from file 8, and the callbacks that serve them. *)
Definition uint8 : np_dtype := DScalar UInt8 BoNA.

Definition block_on (m : nat) (id : nat) : ndarray :=
mk_ndarray id [48] uint8 [1] (IntElems []) NotMasked (BaseMmap m) true 4096.

Definition serve (a : ndarray) (id : nat) : callback :=
mk_callback id (fun attr w =>
  (Ok (if String.eqb attr "header" then SvHeader 48 else SvArray a), w)).

(** An unmaterialized view of 2x3 doubles over the block. *)
Definition lazy_view : view :=
mk_view 3 (SrcCallback (serve (block_on 8 2) 1)) None NNone
        (NList [NInt 2; NInt 3]) (Some (AsDtype float64)) (NInt 0) NNone (NStr "A").

(** The same view holding an array built over the first mapping. *)
Definition cached_array : ndarray :=
mk_ndarray 4 [2; 3] float64 [24; 8] (IntElems []) NotMasked
           (BaseArray (block_on 7 0)) false 4096.

Definition materialized_view : view := set_array lazy_view (Some cached_array).

(** The world after file 7 has been closed. *)
Definition world_closed : world := mk_world 10 [7%nat] [] [].

Lemma shape_of_lazy_view :
  shape any_sizes no_quotient no_contents no_masked_values no_objects (lazy_view, world0)
  = (Ok [NInt 2; NInt 3], (lazy_view, world0))
  /\ _array (fst (snd (shape any_sizes no_quotient no_contents no_masked_values no_objects
      (lazy_view, world0)))) = None
  /\ w_events (snd (snd (shape any_sizes no_quotient no_contents no_masked_values
      no_objects (lazy_view, world0))))
     = w_events world0.
Proof.
apply (shape_without_wildcard_is_lazy any_sizes no_quotient no_contents no_masked_values
    no_objects lazy_view world0
         [NInt 2; NInt 3]); reflexivity.
Defined.

Lemma make_array_after_close :
  _make_array any_sizes no_quotient no_contents no_masked_values no_objects
      (materialized_view, world0)
  = (Ok cached_array, (materialized_view, world0))
  /\ exists r s,
       _make_array any_sizes no_quotient no_contents no_masked_values no_objects
           (materialized_view, world_closed) = (Ok r, s)
       /\ (a_id cached_array < a_id r)%nat /\ _array (fst s) = Some r.
Proof.
split.
- apply (proj1 (proj2 (make_array_cache any_sizes no_quotient no_contents no_masked_values
    no_objects materialized_view world0)));
    reflexivity.
- eexists. eexists. split; [vm_compute; reflexivity|].
  refine (proj2 (proj2 (proj2
    (make_array_cache any_sizes no_quotient no_contents no_masked_values no_objects
        materialized_view world_closed))
    cached_array eq_refl eq_refl) _ _ _ _ _ _).
  + vm_compute. lia.
  + intros attr w. cbn. lia.
  + intros ref m H. discriminate H.
  + vm_compute. reflexivity.
Defined.

Lemma setitem_refused :
  __setitem__ any_sizes no_quotient no_contents refuse_assignment no_masked_values
      no_objects [NInt 0; NStr "x"]
              (materialized_view, world0)
  = (Raise (ValueError "could not broadcast input array"),
     (set_array materialized_view None, world0)).
Proof.
apply (proj1 (setitem_clears_cache_on_failure any_sizes no_quotient no_contents
    refuse_assignment no_masked_values no_objects
               materialized_view world0 [NInt 0; NStr "x"]) cached_array).
- reflexivity.
- reflexivity.
Defined.

(** A document whose provider stores arrays internally. *)
Definition document : asdf_file :=
mk_asdf_file 0 true
  (fun index => Ok (serve (block_on 8 2) 1))
  (fun name => Raise (OSError "no such file"))
  (fun _ => None)
  (fun _ => mk_options "internal" NNone NNone)
  (fun _ _ _ => Ok (NInt 0)).

(** A document in which the array with identity 0, and no other, is
    marked as streamed; and the configuration that leaves the storage of
    arrays to the document. *)
Definition one_streamed : asdf_file :=
mk_asdf_file 0 true
  (fun index => Ok (serve (block_on 8 2) 1))
  (fun name => Raise (OSError "no such file"))
  (fun _ => None)
  (fun i => mk_options (if Nat.eqb i 0 then "streamed" else "internal") NNone NNone)
  (fun _ _ _ => Ok (NInt 0)).

Definition default_config : config := mk_config None (NStr "input") NNone None.

Lemma to_tree_streamed_array :
  exists result w',
    to_tree host any_sizes no_quotient no_contents empty_list no_masked_values no_objects
            (ObjArray array_1_2) default_config one_streamed world0 = (Ok result, w')
    /\ dict_get "shape" result = Some (NList [star])
    /\ dict_get "source" result = Some (NInt (-1)).
Proof.
refine (proj2 (to_tree_streamed host any_sizes no_quotient no_contents empty_list
                 no_masked_values no_objects array_1_2 default_config one_streamed
                 world0 _)
              (NStr "int64") "little"%string _ _).
- intros i data H. vm_compute in H. inversion H. reflexivity.
- discriminate.
- reflexivity.
Defined.

Lemma apply_mask_integer_sentinel :
  exists r w',
    _apply_mask no_masked_values no_objects array_1_2 (NInt 2) world0 = (Ok r, w')
    /\ mask_bits r = [false; true].
Proof.
refine (proj1 (proj2 (proj2 (apply_mask_cases no_masked_values no_objects array_1_2
                               world0 eq_refl)))
              2 [1; 2] Int64 BoNative (- 2 ^ 63) (2 ^ 63 - 1) eq_refl eq_refl eq_refl _).
split; intros H; discriminate H.
Defined.

(** Two doubles: 1 and 1 + 2^-20. *)
Definition near_one : ndarray :=
mk_ndarray 5 [2] float64 [8] (FloatElems [1%float; 1.00000095367431640625%float])
           NotMasked BaseNone false 0.

(** The mask value 1.0 marks both elements, though only the first equals 1.0. *)
Lemma apply_mask_marks_close_values :
  exists r w',
    _apply_mask no_masked_values no_objects near_one (NFloat 1%float) world0 = (Ok r, w')
    /\ mask_bits r = [true; true]
    /\ map (fun x => PrimFloat.eqb x 1%float) [1%float; 1.00000095367431640625%float]
       = [true; false].
Proof.
eexists. eexists. split; [vm_compute; reflexivity|].
split; vm_compute; reflexivity.
Qed.

(** A mapping with inline data, and one with an empty list as its data. *)
Definition inline_node : list (string * node) :=
[("data"%string, NList [NInt 1; NInt 2]); ("datatype"%string, NStr "int64")].

Definition empty_inline_node : list (string * node) :=
[("data"%string, NList []); ("datatype"%string, NStr "float64");
 ("shape"%string, NList [NInt 0])].

Lemma from_tree_inline_list :
  exists v w',
    from_tree host str_of_node any_sizes no_quotient to_array_1_2 any_record
        tuples_to_array no_contents no_masked_values no_objects
    (NDict inline_node) document world0 = (Ok v, w')
    /\ _source v = SrcNode (NList [NInt 1; NInt 2])
    /\ exists a, _array v = Some a.
Proof.
eexists. eexists.
assert (E : from_tree host str_of_node any_sizes no_quotient to_array_1_2 any_record
    tuples_to_array no_contents no_masked_values no_objects
    (NDict inline_node) document world0
            = (Ok (mk_view 10 (SrcNode (NList [NInt 1; NInt 2]))
                           (Some (with_id 11 array_1_2)) NNone NNone
                           (Some (AsDtype int64)) (NInt 0) NNone (NStr "A")),
               mk_world 12 [] [] [SetArrayStorage 10 "inline"])).
{ vm_compute. reflexivity. }
split; [exact E|].
exact (proj1 (proj2 (from_tree_source_and_data host str_of_node any_sizes no_quotient
    to_array_1_2 any_record tuples_to_array no_contents no_masked_values no_objects
    inline_node document world0)
                    (NInt 1) [NInt 2] eq_refl eq_refl) _ _ E).
Defined.

(** A candidate that is not an array: the number 5. *)
Definition not_an_array : run := mk_run [] (INode (NInt 5)) world0.

Lemma validate_ndim_on_a_number :
  yields_at_most_one not_an_array
    (validate_ndim any_sizes no_quotient to_array_1_2 any_record tuples_to_array
        no_contents no_masked_values no_objects
                   (NInt 2) [] not_an_array).
Proof.
exact (proj1 (validators_raise_only_on_non_arrays host str_of_node any_sizes no_quotient
    to_array_1_2 any_record tuples_to_array no_contents cast_always no_masked_values
    no_objects
                not_an_array []) (NInt 2) I).
Defined.

(** The datatype validator raises on the number 5. *)
Lemma validate_datatype_raises_on_a_number :
  validate_datatype host str_of_node any_sizes no_quotient to_array_1_2 any_record
      tuples_to_array no_contents cast_always no_masked_values no_objects
    (NStr "int32") [] not_an_array
  = (Raise (ValidationError "Not an array"), not_an_array).
Proof. reflexivity. Qed.

(** The literal [[1, 2], [3, 4]] and its array. *)
Definition array_2x2 : ndarray :=
mk_ndarray 0 [2; 2] int64 [16; 8] (IntElems [1; 2; 3; 4]) NotMasked BaseNone false 0.

Definition to_array_2x2 (_ : handled) (_ : option np_dtype) : result ndarray :=
Ok array_2x2.

(** Inline data of shape (2, 2) declared with shape ["*", 2]: the trailing
    dimension agrees, and the constructor raises all the same. *)
Lemma init_wildcard_rows_rejected :
  __init__ to_array_2x2 any_record tuples_to_array no_masked_values no_objects
           (SrcNode (NList [NList [NInt 1; NInt 2]; NList [NInt 3; NInt 4]]))
           (NList [star; NInt 2]) None (NInt 0) NNone (NStr "A") NNone world0
  = (Raise (ValueError "inline data doesn't match the given shape"),
     mk_world 12 [] [] []).
Proof.
refine (proj2 (init_inline_wildcard_shape_raises to_array_2x2 any_record tuples_to_array
    no_masked_values no_objects
    [NList [NInt 1; NInt 2]; NList [NInt 3; NInt 4]] [NInt 2]
                 None (NInt 0) NNone (NStr "A") NNone world0)
              (with_id 11 array_2x2) (with_id 11 array_2x2) _ _ _ _ _).
- vm_compute. reflexivity.
- reflexivity.
- reflexivity.
Defined.

Lemma scalar_name_roundtrip_int8 :
  exists d,
    asdf_datatype_to_numpy_dtype host str_of_node (NStr "int8") (NStr "little")
    = Ok (AsDtype d)
    /\ numpy_dtype_to_asdf_datatype host d true None
       = Ok (NStr "int8", if itemsize d =? 1 then "big"%string else "little"%string).
Proof.
apply (scalar_name_roundtrip host str_of_node "int8" "i1" "little"); [reflexivity|].
right. reflexivity.
Defined.

Lemma decode_checks_byteorder_native :
  (forall name,
     table_has name _datatype_names = true ->
     asdf_datatype_to_numpy_dtype host str_of_node (NStr name) (NStr "native")
     = Raise (ValueError "Invalid ASDF byteorder"))
  /\ (forall charset length,
        table_has charset _string_datatype_names = true ->
        asdf_datatype_to_numpy_dtype host str_of_node
          (NList [NStr charset; NInt length]) (NStr "native")
        = Raise (ValueError "Invalid ASDF byteorder")).
Proof.
apply (decode_checks_byteorder host str_of_node (NStr "native")); discriminate.
Defined.

Lemma anonymous_record_pair :
  asdf_datatype_to_numpy_dtype host str_of_node
    (NList (map NStr ["int8"; "float64"]%string)) NNone
  = Ok (AsDtype (DStruct (anonymous_fields 0 0 [DScalar Int8 BoNA; float64])
                         (total_size [DScalar Int8 BoNA; float64]))).
Proof.
apply (anonymous_record host str_of_node ["int8"; "float64"]%string
         [DScalar Int8 BoNA; float64] NNone).
repeat constructor.
Defined.

Lemma record_needs_every_datatype_second :
  asdf_datatype_to_numpy_dtype host str_of_node
    (NList ([NDict [("name"%string, NStr "a"); ("datatype"%string, NStr "int8")]]
            ++ NDict [("name"%string, NStr "b")] :: [NStr "int8"]))
    NNone
  = Raise (ValueError "Field entry has no datatype").
Proof.
apply (record_needs_every_datatype host str_of_node).
- reflexivity.
- constructor; [|constructor]. eexists. split; reflexivity.
Defined.

Lemma resolved_shape_is_settled_rows :
  count_star [NInt 2; NInt 2; NInt 3] = 0%nat
  /\ List.length [NInt 2; NInt 2; NInt 3] = List.length [star; NInt 2; NInt 3]
  /\ tl [NInt 2; NInt 2; NInt 3] = tl [star; NInt 2; NInt 3]
  /\ forall strides' dtype' block_size',
       get_actual_shape any_sizes no_quotient [NInt 2; NInt 2; NInt 3] strides' dtype'
           block_size'
       = Ok [NInt 2; NInt 2; NInt 3].
Proof.
apply (resolved_shape_is_settled any_sizes no_quotient [star; NInt 2; NInt 3] NNone
         (Some (AsDtype float64)) 96).
reflexivity.
Defined.

Lemma zero_stride_gives_no_shape_empty_rows :
  get_actual_shape any_sizes no_quotient (star :: map NInt [0; 3]) NNone (Some (AsDtype
      float64)) 96
  = Raise OverflowError.
Proof.
apply (proj2 (zero_stride_gives_no_shape any_sizes no_quotient [0; 3] NNone (Some (AsDtype
    float64)) 96)
         float64); reflexivity.
Defined.

Lemma resolved_shape_fits_block_rows :
  exists missing,
    get_actual_shape any_sizes no_quotient (star :: map NInt [2; 3]) NNone (Some (AsDtype
        float64)) 100
    = Ok (NInt missing :: map NInt [2; 3])
    /\ 0 <= 100 - prod_Z (missing :: [2; 3]) * itemsize float64
         < prod_Z [2; 3] * itemsize float64
    /\ ((prod_Z [2; 3] * itemsize float64 | 100) ->
        prod_Z (missing :: [2; 3]) * itemsize float64 = 100).
Proof.
apply (resolved_shape_fits_block any_sizes no_quotient [2; 3] float64 100); cbn; lia.
Defined.

(** A conversion to records that takes pairs only. *)
Definition pairs_only (items : list node) (d : np_dtype) : result unit :=
match items with
| [NInt _; NInt _] => Ok tt
| _ => Raise (ValueError "could not assign tuple of this length")
end.

Lemma find_innermost_match_is_first_rows :
  (exists u, record_at pairs_only record_dtype
               (NList [NList [NInt 1; NInt 2]; NList [NInt 3; NInt 4]]) 1 = Some (Ok u))
  /\ forall above, (above < 1)%nat ->
       exists msg, record_at pairs_only record_dtype
                     (NList [NList [NInt 1; NInt 2]; NList [NInt 3; NInt 4]]) above
                   = Some (Raise (ValueError msg)).
Proof.
apply (find_innermost_match_is_first pairs_only record_dtype
         (NList [NList [NInt 1; NInt 2]; NList [NInt 3; NInt 4]]) 1).
reflexivity.
Defined.

Lemma inline_array_is_masked_only_when_needed_list :
  (a_mask (with_id 10 (unmasked array_1_2)) = NotMasked
   \/ any_masked (with_id 10 (unmasked array_1_2)) = true)
  /\ a_id (with_id 10 (unmasked array_1_2)) = w_next world0
  /\ w_events (mk_world 11 [] [] []) = w_events world0.
Proof.
apply (inline_array_is_masked_only_when_needed to_array_1_2 any_record tuples_to_array
         (NList [NInt 1; NInt 2]) None world0 (mk_world 11 [] [] [])).
- intros fs size. discriminate.
- reflexivity.
Defined.

Lemma apply_mask_keeps_the_array_sentinel :
  exists m w',
    _apply_mask no_masked_values no_objects array_1_2 (NInt 2) world0 = (Ok m, w')
    /\ any_masked m = true
    /\ a_shape m = a_shape array_1_2 /\ a_dtype m = a_dtype array_1_2
    /\ a_data m = a_data array_1_2.
Proof.
eexists. eexists. split; [cbv; reflexivity|]. split; [reflexivity|].
refine (match proj1 (apply_mask_keeps_the_array no_masked_values no_objects array_1_2
                       _ (NInt 2) world0 _ _) with
        | conj Hs (conj Hd Hdata) => conj Hs (conj Hd (Hdata eq_refl))
        end).
cbv. reflexivity.
Defined.

Lemma init_inline_holds_matching_array_2x2 :
  exists v w',
    __init__ to_array_2x2 any_record tuples_to_array no_masked_values no_objects
             (SrcNode (NList [NList [NInt 1; NInt 2]; NList [NInt 3; NInt 4]]))
             (NList [NInt 2; NInt 2]) None (NInt 0) NNone (NStr "A") NNone world0
    = (Ok v, w')
    /\ v_id v = w_next world0
    /\ _shape v = NList [NInt 2; NInt 2]
    /\ exists a,
         _array v = Some a
         /\ (NList [NInt 2; NInt 2] = NNone
             \/ exists items,
                  shape_items (NList [NInt 2; NInt 2]) = Ok items
                  /\ shape_eq (a_shape a) items = true
                  /\ existsb is_star items = false).
Proof.
eexists. eexists. split; [vm_compute; reflexivity|].
refine (init_inline_holds_matching_array to_array_2x2 any_record tuples_to_array
    no_masked_values no_objects
    [NList [NInt 1; NInt 2]; NList [NInt 3; NInt 4]]
          (NList [NInt 2; NInt 2]) None (NInt 0) NNone (NStr "A") NNone world0 _ _ _).
vm_compute. reflexivity.
Defined.

(** Attributes of arrays, none of which is looked at. *)
Definition no_attribute (_ : ndarray) (_ : string) : result node := Ok NNone.

Lemma unloaded_view_stays_unloaded_lazy :
  dtype any_sizes no_quotient no_contents no_masked_values no_objects (lazy_view, world0)
  = (Ok (Some (AsDtype float64)), (lazy_view, world0))
  /\ __len__ any_sizes no_quotient no_contents no_masked_values no_objects (lazy_view,
      world0)
     = (Ok (NInt 2), (lazy_view, world0))
  /\ __repr__ any_sizes no_quotient no_contents no_masked_values no_objects (lazy_view,
      world0)
     = (Ok (Unloaded false (NList [NInt 2; NInt 3]) (Some (AsDtype float64))),
        (lazy_view, world0))
  /\ __str__ any_sizes no_quotient no_contents no_masked_values no_objects (lazy_view,
      world0)
     = __repr__ any_sizes no_quotient no_contents no_masked_values no_objects (lazy_view,
         world0)
  /\ forall attr,
       attr = "__array_struct__"%string \/ attr = "__asdf_traverse__"%string ->
       __getattr__ any_sizes no_quotient no_contents no_masked_values no_objects node
           no_attribute attr (lazy_view, world0)
       = (Raise (AttributeError ""), (lazy_view, world0)).
Proof.
apply (unloaded_view_stays_unloaded any_sizes no_quotient no_contents no_masked_values
    no_objects node no_attribute
         lazy_view world0).
reflexivity.
Defined.

Lemma len_is_first_of_shape_lazy :
  exists rest,
    shape any_sizes no_quotient no_contents no_masked_values no_objects (lazy_view, world0)
    = (Ok (NInt 2 :: rest), (lazy_view, world0)).
Proof.
apply (len_is_first_of_shape any_sizes no_quotient no_contents no_masked_values no_objects
    lazy_view world0
         [NInt 2; NInt 3] (NInt 2) (lazy_view, world0)); reflexivity.
Defined.

(** An unmaterialized view of rows of three doubles over the block. *)
Definition streamed_view : view :=
mk_view 3 (SrcCallback (serve (block_on 8 2) 1)) None NNone
        (NList [star; NInt 3]) (Some (AsDtype float64)) (NInt 0) NNone (NStr "A").

Lemma shape_of_streamed_view_reads_header_rows :
  shape any_sizes no_quotient no_contents no_masked_values no_objects (streamed_view,
      world0)
  = (Ok [NInt 2; NInt 3],
     (streamed_view, mk_world 10 [] [] [CallSource 1 "header"])).
Proof.
refine (proj1 (shape_of_streamed_view_reads_header any_sizes no_quotient no_contents
    no_masked_values no_objects
                 streamed_view world0 (mk_world 10 [] [] [CallSource 1 "header"])
                 (serve (block_on 8 2) 1) [star; NInt 3] 48
                 eq_refl eq_refl eq_refl eq_refl eq_refl) _).
discriminate.
Defined.

(** The world after files 7 and 8 have both been closed. *)
Definition world_all_closed : world := mk_world 10 [7%nat; 8%nat] [] [].

Lemma make_array_refuses_closed_file_stale :
  _make_array any_sizes no_quotient no_contents no_masked_values no_objects
      (materialized_view, world_all_closed)
  = (Raise (OSError "Attempt to read data from a closed file"),
     (lazy_view, mk_world 10 [7%nat; 8%nat] [] [CallSource 1 "cached_data"])).
Proof.
refine (make_array_refuses_closed_file any_sizes no_quotient no_contents no_masked_values
    no_objects materialized_view
          world_all_closed (mk_world 10 [7%nat; 8%nat] [] [CallSource 1 "cached_data"])
          (serve (block_on 8 2) 1) (block_on 8 2) eq_refl _ eq_refl eq_refl).
intros a H. injection H as <-. reflexivity.
Defined.

(** An unmaterialized view whose mask is a piece of text. *)
Definition text_masked_view : view :=
mk_view 3 (SrcCallback (serve (block_on 8 2) 1)) None (NStr "x")
        (NList [NInt 2; NInt 3]) (Some (AsDtype float64)) (NInt 0) NNone (NStr "A").

Lemma make_array_keeps_unmasked_array_text_mask :
  exists a w3 e,
    _make_array any_sizes no_quotient no_contents no_masked_values no_objects
        (text_masked_view, world0)
    = (Raise e, (set_array text_masked_view (Some a), w3))
    /\ a_mask a = NotMasked
    /\ (stale a w3 = false ->
        _make_array any_sizes no_quotient no_contents no_masked_values no_objects
            (set_array text_masked_view (Some a), w3)
        = (Ok a, (set_array text_masked_view (Some a), w3))).
Proof.
eexists. eexists. eexists.
refine (make_array_keeps_unmasked_array any_sizes no_quotient no_contents no_masked_values
    no_objects text_masked_view
          world0 _ _ _ (serve (block_on 8 2) 1) (block_on 8 2) _ _ _
          eq_refl eq_refl _ _ _ _ _).
- vm_compute. reflexivity.
- reflexivity.
- vm_compute. reflexivity.
- vm_compute. reflexivity.
- vm_compute. reflexivity.
Defined.

(** The description of a 2x3 array of doubles in block 0. *)
Definition block_node : list (string * node) :=
[("source"%string, NInt 0); ("datatype"%string, NStr "float64");
 ("byteorder"%string, NStr "little"); ("shape"%string, NList [NInt 2; NInt 3])].

Lemma from_tree_block_is_lazy_block_0 :
  from_tree host str_of_node any_sizes no_quotient to_array_1_2 any_record tuples_to_array
      no_contents no_masked_values no_objects
    (NDict block_node) document world0
  = (Ok (mk_view 10 (SrcCallback (serve (block_on 8 2) 1)) None NNone
                 (NList [NInt 2; NInt 3]) (Some (AsDtype float64))
                 (NInt 0) NNone (NStr "A")),
     mk_world 11 [] [] [AssignCallback 10 1; AssignBlock 10 0; GetDataCallback 0]).
Proof.
apply (from_tree_block_is_lazy host str_of_node any_sizes no_quotient to_array_1_2
    any_record tuples_to_array no_contents no_masked_values no_objects
    block_node document world0 0 (NStr "little")
         (NStr "float64") (AsDtype float64)
         (serve (block_on 8 2) 1)); reflexivity.
Defined.

(** The description of an array kept in another file. *)
Definition external_node : list (string * node) :=
[("source"%string, NStr "other.asdf"); ("datatype"%string, NStr "float64");
 ("byteorder"%string, NStr "little"); ("shape"%string, NList [NInt 2; NInt 3])].

Lemma from_tree_external_opens_on_use_other_file :
  exists v w',
    from_tree host str_of_node any_sizes no_quotient to_array_1_2 any_record
        tuples_to_array no_contents no_masked_values no_objects
    (NDict external_node) document world0 = (Ok v, w')
    /\ w' = drawn 2 world0
    /\ _array v = None
    /\ _source v = SrcCallback (external_callback (w_next world0) document "other.asdf")
    /\ forall later,
         existsb (Nat.eqb (ctx_id document)) (w_released later) = true ->
         _make_array any_sizes no_quotient no_contents no_masked_values no_objects (v,
             later)
         = (Raise (OSError
             "Failed to resolve reference to AsdfFile to read external block"),
            (v, logged (CallSource (w_next world0) "cached_data") later)).
Proof.
eexists. eexists. split; [vm_compute; reflexivity|].
refine (from_tree_external_opens_on_use host str_of_node any_sizes no_quotient
    to_array_1_2 any_record tuples_to_array no_contents no_masked_values no_objects
    external_node document world0 _
          "other.asdf" _ eq_refl eq_refl eq_refl _).
vm_compute. reflexivity.
Defined.

Lemma from_tree_checks_description_first_no_byteorder :
  from_tree host str_of_node any_sizes no_quotient to_array_1_2 any_record tuples_to_array
      no_contents no_masked_values no_objects
    (NDict [("source"%string, NInt 0)]) document world0
  = (Raise (KeyError "byteorder"), world0).
Proof.
apply (proj1 (from_tree_checks_description_first host str_of_node any_sizes no_quotient
    to_array_1_2 any_record tuples_to_array no_contents no_masked_values no_objects
                [("source"%string, NInt 0)] document world0 eq_refl));
  reflexivity.
Defined.

(** The document with lazy loading off. *)
Definition eager_document : asdf_file :=
mk_asdf_file 0 false
  (fun index => Ok (serve (block_on 8 2) 1))
  (fun name => Raise (OSError "no such file"))
  (fun _ => None)
  (fun _ => mk_options "internal" NNone NNone)
  (fun _ _ _ => Ok (NInt 0)).

(** An empty list under ["data"] is lost: the view that [from_tree] builds
    has no source at all and cannot be read, and a document that loads its
    arrays at once fails on it. *)
Lemma from_tree_loses_empty_list :
  exists v w',
    from_tree host str_of_node any_sizes no_quotient to_array_1_2 any_record
              tuples_to_array no_contents no_masked_values no_objects
              (NDict empty_inline_node) document world0 = (Ok v, w')
    /\ _source v = SrcNode NNone
    /\ _array v = None
    /\ _make_array any_sizes no_quotient no_contents no_masked_values no_objects (v, w')
       = (Raise (AttributeError "object has no attribute 'size'"), (v, w'))
    /\ from_tree host str_of_node any_sizes no_quotient to_array_1_2 any_record
                 tuples_to_array no_contents no_masked_values no_objects
                 (NDict empty_inline_node) eager_document world0
       = (Raise (AttributeError "object has no attribute 'size'"), w').
Proof.
assert (Hd : declared_dtype host str_of_node empty_inline_node (Some (AsDtype float64))).
{ exists (AsDtype float64). split; reflexivity. }
pose proof (from_tree_loses_falsy_data host str_of_node any_sizes no_quotient
              to_array_1_2 any_record tuples_to_array no_contents no_masked_values
              no_objects empty_inline_node (NList []) (Some (AsDtype float64))
              document world0 eq_refl eq_refl eq_refl eq_refl Hd) as [Hmake Hlazy].
pose proof (from_tree_loses_falsy_data host str_of_node any_sizes no_quotient
              to_array_1_2 any_record tuples_to_array no_contents no_masked_values
              no_objects empty_inline_node (NList []) (Some (AsDtype float64))
              eager_document world0 eq_refl eq_refl eq_refl eq_refl Hd) as [_ Heager].
eexists. eexists. split; [exact Hlazy|]. split; [reflexivity|]. split; [reflexivity|].
split; [exact Hmake | exact Heager].
Defined.

Lemma from_tree_loads_eagerly_block_0 :
  exists v w',
    from_tree host str_of_node any_sizes no_quotient to_array_1_2 any_record
        tuples_to_array no_contents no_masked_values no_objects
    (NDict block_node) eager_document world0 = (Ok v, w')
    /\ exists a, _array v = Some a.
Proof.
eexists. eexists. split; [vm_compute; reflexivity|].
refine (from_tree_loads_eagerly host str_of_node any_sizes no_quotient to_array_1_2
    any_record tuples_to_array no_contents no_masked_values no_objects
    (NDict block_node) eager_document
          world0 _ _ eq_refl _).
vm_compute. reflexivity.
Defined.

(** Inline storage asked for every array, with a threshold of ten
    elements. *)
Definition inline_up_to_ten : config :=
mk_config (Some "inline"%string) (NStr "input") NNone (Some 10).

Lemma threshold_decides_inline_large_array :
  storage_type (settle_options inline_up_to_ten (mk_options "internal" NNone NNone) 100)
  = "internal"%string.
Proof.
apply (proj1 (proj1 (threshold_decides_inline inline_up_to_ten
                       (mk_options "internal" NNone NNone) 100) 10 eq_refl)).
left. reflexivity.
Defined.

(** A document that stores its arrays in files of their own, and names the
    file in answer. *)
Definition external_store : asdf_file :=
mk_asdf_file 0 true
  (fun index => Ok (serve (block_on 8 2) 1))
  (fun name => Raise (OSError "no such file"))
  (fun _ => None)
  (fun _ => mk_options "external" NNone NNone)
  (fun _ _ _ => Ok (NStr "document0000.asdf")).

Lemma to_tree_payload_is_readable_external :
  exists result w',
    to_tree host any_sizes no_quotient no_contents empty_list no_masked_values no_objects
            (ObjArray array_1_2) default_config external_store world0 = (Ok result, w')
    /\ dict_get "source" result = Some (NStr "document0000.asdf")
    /\ (exists shape, dict_get "shape" result = Some (NList shape))
    /\ (exists datatype, dict_get "datatype" result = Some datatype)
    /\ ((exists data,
           dict_get "data" result = Some data
           /\ dict_get "source" result = None
           /\ dict_get "byteorder" result = None)
        \/ (exists source order,
              dict_get "source" result = Some source
              /\ (source = NInt (-1)
                  \/ exists block options array_id,
                       make_write_block external_store block options array_id = Ok source)
              /\ dict_get "data" result = None
              /\ dict_get "byteorder" result = Some (NStr order)
              /\ (order = "big"%string \/ order = "little"%string))).
Proof.
eexists. eexists. split; [vm_compute; reflexivity|]. split; [reflexivity|].
refine (to_tree_payload_is_readable host any_sizes no_quotient no_contents empty_list
          no_masked_values no_objects (ObjArray array_1_2) default_config
          external_store world0 _ _ _).
vm_compute. reflexivity.
Defined.

(** Two half-precision numbers, a kind the format has no name for. *)
Definition half_array : ndarray :=
mk_ndarray 0 [2] (DScalar Float16 BoNative) [2] (FloatElems [1%float; 2%float])
           NotMasked BaseNone false 0.

Lemma to_tree_refuses_unnamed_types_half :
  exists w',
    to_tree host any_sizes no_quotient no_contents empty_list no_masked_values no_objects
            (ObjArray half_array) default_config document world0
    = (Raise (ValueError "Unknown dtype"), w')
    /\ (exists i kind more, w_events w' = SetOptions i kind :: more)
    /\ existsb requests_block (w_events w') = existsb requests_block (w_events world0).
Proof.
apply (to_tree_refuses_unnamed_types host any_sizes no_quotient no_contents empty_list
         no_masked_values no_objects half_array default_config document world0).
reflexivity.
Defined.

Lemma validate_max_ndim_raises_on_non_arrays_number :
  validate_max_ndim any_sizes no_quotient to_array_1_2 any_record tuples_to_array
      no_contents no_masked_values no_objects
                    (NInt 2) [] not_an_array
  = (Raise (TypeError "'>' not supported between these instances"), not_an_array).
Proof.
exact (validate_max_ndim_raises_on_non_arrays any_sizes no_quotient to_array_1_2
    any_record tuples_to_array no_contents no_masked_values no_objects
    not_an_array (NInt 2) [] I).
Defined.

(** A mapping that declares a 2x3 array of 64-bit integers. *)
Definition declared_2x3 : list (string * node) :=
[("shape"%string, NList [NInt 2; NInt 3]); ("datatype"%string, NStr "int64")].

Definition candidate_2x3 : run := mk_run [] (INode (NDict declared_2x3)) world0.

Lemma validate_ndim_counts_declared_shape_2x3 :
  validate_ndim any_sizes no_quotient to_array_1_2 any_record tuples_to_array no_contents
      no_masked_values no_objects
                (NInt 1) [] candidate_2x3
  = (Ok tt, with_yielded candidate_2x3 ["Wrong number of dimensions"%string])
  /\ validate_max_ndim any_sizes no_quotient to_array_1_2 any_record tuples_to_array
      no_contents no_masked_values no_objects
                       (NInt 1) [] candidate_2x3
     = (Ok tt,
        with_yielded candidate_2x3 ["Wrong number of dimensions: Expected max"%string]).
Proof.
exact (validate_ndim_counts_declared_shape any_sizes no_quotient to_array_1_2 any_record
    tuples_to_array no_contents no_masked_values no_objects
    candidate_2x3 declared_2x3 [NInt 2; NInt 3] 1 []
         eq_refl eq_refl).
Defined.

Definition cast_never (_ _ : np_dtype) : bool := false.

Lemma validate_datatype_against_scalar_exact :
  validate_datatype host str_of_node any_sizes no_quotient to_array_1_2 any_record
      tuples_to_array no_contents cast_never no_masked_values no_objects
                    (NStr "float64") [("exact_datatype"%string, NBool true)]
                    candidate_2x3
  = (Ok tt,
     with_yielded candidate_2x3
       ["Expected datatype"%string; "Can not safely cast"%string]).
Proof.
exact (validate_datatype_against_scalar host str_of_node any_sizes no_quotient
    to_array_1_2 any_record tuples_to_array no_contents cast_never no_masked_values
    no_objects
    candidate_2x3 declared_2x3
         (NStr "float64") (NStr "int64") [("exact_datatype"%string, NBool true)]
         float64 int64 eq_refl eq_refl eq_refl eq_refl eq_refl eq_refl).
Defined.

(** The descriptor of a record with one byte field. *)
Definition one_byte_record : node :=
NList [NDict [("name"%string, NStr "a"); ("datatype"%string, NStr "int8")]].

Lemma validate_datatype_structured_against_scalar_record :
  validate_datatype host str_of_node any_sizes no_quotient to_array_1_2 any_record
      tuples_to_array no_contents cast_always no_masked_values no_objects
    one_byte_record [] candidate_2x3
  = (Raise (TypeError "object of type 'NoneType' has no len()"),
     with_yielded candidate_2x3 ["Expected structured datatype"%string]).
Proof.
exact (validate_datatype_structured_against_scalar host str_of_node any_sizes no_quotient
    to_array_1_2 any_record tuples_to_array no_contents cast_always no_masked_values
    no_objects
    candidate_2x3
         declared_2x3 one_byte_record (NStr "int64") []
         (DStruct [("a"%string, (DScalar Int8 BoNA, 0))] 1) int64
         eq_refl eq_refl eq_refl eq_refl eq_refl eq_refl eq_refl).
Defined.

Definition candidate_lazy_view : run := mk_run [] (IView lazy_view) world0.

Lemma validators_do_not_load_lazy_view :
  (candidate (snd (validate_ndim any_sizes no_quotient to_array_1_2 any_record
      tuples_to_array no_contents no_masked_values no_objects
    (NInt 2) [] candidate_lazy_view))
   = IView lazy_view
   /\ r_world (snd (validate_ndim any_sizes no_quotient to_array_1_2 any_record
       tuples_to_array no_contents no_masked_values no_objects
    (NInt 2) [] candidate_lazy_view))
      = r_world candidate_lazy_view)
  /\ (candidate (snd (validate_max_ndim any_sizes no_quotient to_array_1_2 any_record
      tuples_to_array no_contents no_masked_values no_objects
    (NInt 2) []
                                        candidate_lazy_view))
      = IView lazy_view
      /\ r_world (snd (validate_max_ndim any_sizes no_quotient to_array_1_2 any_record
          tuples_to_array no_contents no_masked_values no_objects
    (NInt 2) []
                                         candidate_lazy_view))
         = r_world candidate_lazy_view)
  /\ (candidate (snd (validate_datatype host str_of_node any_sizes no_quotient
      to_array_1_2 any_record tuples_to_array no_contents cast_always no_masked_values
      no_objects
    (NInt 2) [] candidate_lazy_view))
      = IView lazy_view
      /\ r_world (snd (validate_datatype host str_of_node any_sizes no_quotient
          to_array_1_2 any_record tuples_to_array no_contents cast_always no_masked_values
          no_objects
    (NInt 2) [] candidate_lazy_view))
         = r_world candidate_lazy_view).
Proof.
exact (validators_do_not_load host str_of_node any_sizes no_quotient to_array_1_2
    any_record tuples_to_array no_contents cast_always no_masked_values no_objects
    candidate_lazy_view lazy_view
         [NInt 2; NInt 3] (NInt 2) [] eq_refl eq_refl eq_refl eq_refl).
Defined.

Lemma byteorder_names_agree_native :
  (is_ok (asdf_byteorder_to_numpy_byteorder (NStr "middle")) = true
   <-> NStr "middle" = NStr "big" \/ NStr "middle" = NStr "little")
  /\ exists c,
       asdf_byteorder_to_numpy_byteorder
         (NStr (numpy_byteorder_to_asdf_byteorder host BoNative None)) = Ok c
       /\ (BoNative = BoLittle -> c = BoLittle)
       /\ (BoNative = BoBig -> c = BoBig)
       /\ (BoNative = BoNative -> eqb_endian_bo host c = true).
Proof.
exact (byteorder_names_agree host BoNative (NStr "middle")).
Defined.

Lemma encode_succeeds_iff_named_half :
  numpy_dtype_to_asdf_datatype host (DScalar Float16 BoNative) true None
  = Raise (ValueError "Unknown dtype").
Proof.
apply (proj2 (encode_succeeds_iff_named host (DScalar Float16 BoNative) true None)).
reflexivity.
Defined.
